(** * aidocswriter: region detection, response cleanup and docstring insertion

    A shallow embedding of [src/extension.ts] (the multi-language extension)
    and of its earlier Python-only variant, with the properties stated by the
    specification proved or refuted against that embedding.

    Conventions.
    - A JavaScript string is a [string]; each [ascii] stands for one UTF-16
      code unit in the range 0..255, so the white space class of [\s] and of
      [String.prototype.trim] is TAB, LF, VT, FF, CR, SPACE and NBSP.
    - A [vscode.TextDocument] is its list of lines (without terminators)
      together with its end-of-line sequence.
    - A thrown [Error] is the [Err] case of [Result]. *)

From Stdlib Require Import String Ascii List Bool Arith Lia DecimalString.
Import ListNotations.
Open Scope string_scope.
Open Scope list_scope.
Open Scope nat_scope.

(* ================================================================= *)
(** ** JavaScript string primitives *)

Module JS.

Definition LF : ascii := ascii_of_nat 10.
Definition CR : ascii := ascii_of_nat 13.

Definition isWhiteSpace (c : ascii) : bool :=
  let n := nat_of_ascii c in
  (n =? 9) || (n =? 10) || (n =? 11) || (n =? 12) || (n =? 13)
  || (n =? 32) || (n =? 160).

Definition isEmpty (s : string) : bool :=
  match s with EmptyString => true | String _ _ => false end.

(** [s.trimStart()] *)
Fixpoint trimStart (s : string) : string :=
  match s with
  | EmptyString => EmptyString
  | String c s' => if isWhiteSpace c then trimStart s' else s
  end.

(** [s.trimEnd()] *)
Fixpoint trimEnd (s : string) : string :=
  match s with
  | EmptyString => EmptyString
  | String c s' =>
      let t := trimEnd s' in
      if isWhiteSpace c && isEmpty t then EmptyString else String c t
  end.

(** [s.trim()] *)
Definition trim (s : string) : string := trimEnd (trimStart s).

(** [s.startsWith(p)] *)
Fixpoint startsWith (p s : string) : bool :=
  match p with
  | EmptyString => true
  | String a p' =>
      match s with
      | EmptyString => false
      | String b s' => Ascii.eqb a b && startsWith p' s'
      end
  end.

(** [s.substring(0, n)] for [n] already clamped, and [s.substring(n)]. *)
Fixpoint take (n : nat) (s : string) : string :=
  match n, s with
  | S n', String c s' => String c (take n' s')
  | _, _ => EmptyString
  end.

Fixpoint drop (n : nat) (s : string) : string :=
  match n, s with
  | S n', String _ s' => drop n' s'
  | _, _ => s
  end.

(** [s.substring(a, b)]: both indices are clamped to the length and swapped
    when [a > b]. *)
Definition substring (a b : nat) (s : string) : string :=
  let len := String.length s in
  let a' := Nat.min a len in
  let b' := Nat.min b len in
  let lo := Nat.min a' b' in
  let hi := Nat.max a' b' in
  take (hi - lo) (drop lo s).

(** [s.substring(a)] *)
Definition substringFrom (a : nat) (s : string) : string :=
  substring a (String.length s) s.

(** [s.endsWith(p)] *)
Definition endsWith (p s : string) : bool :=
  (String.length p <=? String.length s)
  && String.eqb (drop (String.length s - String.length p) s) p.

(** [s.includes(p)] *)
Fixpoint includes (p s : string) : bool :=
  startsWith p s
  || match s with
     | EmptyString => false
     | String _ s' => includes p s'
     end.

(** [s.lastIndexOf(p)], with [None] for the result [-1]. *)
Fixpoint lastIndexOf (p s : string) : option nat :=
  match s with
  | EmptyString => if startsWith p s then Some 0 else None
  | String _ s' =>
      match lastIndexOf p s' with
      | Some i => Some (S i)
      | None => if startsWith p s then Some 0 else None
      end
  end.

(** [xs.join(sep)] *)
Fixpoint join (sep : string) (xs : list string) : string :=
  match xs with
  | [] => EmptyString
  | [x] => x
  | x :: rest => (x ++ sep ++ join sep rest)%string
  end.

(** [s.split(/\r?\n/)]: the pieces between line breaks; a CR directly before
    an LF belongs to the separator. *)
Fixpoint splitLines (s : string) : list string :=
  match s with
  | EmptyString => [EmptyString]
  | String c s' =>
      if Ascii.eqb c LF then EmptyString :: splitLines s'
      else if Ascii.eqb c CR && startsWith (String LF EmptyString) s'
      then splitLines s'
      else match splitLines s' with
           | h :: t => String c h :: t
           | [] => [String c EmptyString]
           end
  end.

(** Template-literal rendering of a non-negative integer. *)
Definition numberToString (n : nat) : string :=
  NilZero.string_of_uint (Nat.to_uint n).

End JS.

(* ================================================================= *)
(** ** Regular expressions: [RegExp.prototype.test] for patterns anchored
       at the start of the input *)

Module Regex.

Inductive regex : Type :=
| RNone : regex
| REps : regex
| RClass : (ascii -> bool) -> regex
| RSeq : regex -> regex -> regex
| RAlt : regex -> regex -> regex
| RStar : regex -> regex.

Fixpoint nullable (r : regex) : bool :=
  match r with
  | RNone => false
  | REps => true
  | RClass _ => false
  | RSeq a b => nullable a && nullable b
  | RAlt a b => nullable a || nullable b
  | RStar _ => true
  end.

Fixpoint deriv (c : ascii) (r : regex) : regex :=
  match r with
  | RNone => RNone
  | REps => RNone
  | RClass p => if p c then REps else RNone
  | RSeq a b =>
      if nullable a then RAlt (RSeq (deriv c a) b) (deriv c b)
      else RSeq (deriv c a) b
  | RAlt a b => RAlt (deriv c a) (deriv c b)
  | RStar a => RSeq (deriv c a) (RStar a)
  end.

(** [/^r/.test(s)]: some prefix of [s] is in the language of [r]. *)
Fixpoint test (r : regex) (s : string) : bool :=
  nullable r
  || match s with
     | EmptyString => false
     | String c s' => test (deriv c r) s'
     end.

Definition opt (r : regex) : regex := RAlt r REps.
Definition plus (r : regex) : regex := RSeq r (RStar r).
Definition ws : regex := RClass JS.isWhiteSpace.

Fixpoint lit (s : string) : regex :=
  match s with
  | EmptyString => REps
  | String c s' => RSeq (RClass (Ascii.eqb c)) (lit s')
  end.

(** Case folding of the [i] flag on the ASCII letters. *)
Definition toUpper (c : ascii) : ascii :=
  let n := nat_of_ascii c in
  if (97 <=? n) && (n <=? 122) then ascii_of_nat (n - 32) else c.

Definition eqbCI (a b : ascii) : bool := Ascii.eqb (toUpper a) (toUpper b).

Fixpoint litCI (s : string) : regex :=
  match s with
  | EmptyString => REps
  | String c s' => RSeq (RClass (eqbCI c)) (litCI s')
  end.

(** [.] : any code unit but a line terminator. *)
Definition dot : regex :=
  RClass (fun c => negb (Ascii.eqb c JS.LF || Ascii.eqb c JS.CR)).

(** [[a-zA-Z0-9_-]] *)
Definition nameChar : regex :=
  RClass (fun c =>
    let n := nat_of_ascii c in
    ((97 <=? n) && (n <=? 122)) || ((65 <=? n) && (n <=? 90))
    || ((48 <=? n) && (n <=? 57)) || (n =? 95) || (n =? 45)).

(** The strings a pattern denotes. *)
Inductive matches : regex -> string -> Prop :=
| MEps : matches REps EmptyString
| MClass : forall p c, p c = true -> matches (RClass p) (String c EmptyString)
| MSeq : forall a b s1 s2,
    matches a s1 -> matches b s2 -> matches (RSeq a b) (s1 ++ s2)
| MAltL : forall a b s, matches a s -> matches (RAlt a b) s
| MAltR : forall a b s, matches b s -> matches (RAlt a b) s
| MStarNil : forall a, matches (RStar a) EmptyString
| MStarApp : forall a s1 s2,
    matches a s1 -> matches (RStar a) s2 -> matches (RStar a) (s1 ++ s2).

End Regex.

(* ================================================================= *)
(** ** Errors *)

Inductive Result (A : Type) : Type :=
| Ok : A -> Result A
| Err : string -> Result A.

Arguments Ok {A} _.
Arguments Err {A} _.

Definition bind {A B : Type} (m : Result A) (k : A -> Result B) : Result B :=
  match m with
  | Ok a => k a
  | Err e => Err e
  end.

Notation "x <- m ;; k" := (bind m (fun x => k))
  (at level 61, m at next level, right associativity).

(* ================================================================= *)
(** ** The editor surface ([vscode.TextDocument], [vscode.TextEditorEdit])

    The behaviour of the host API the extension calls: positions and ranges
    are validated by clamping, [lineAt] throws outside the document, and an
    edit replaces a validated range by a text whose line breaks become line
    boundaries of the document. *)

Module Editor.

Record Position : Type := mkPosition { line : nat; character : nat }.

Record Range : Type := mkRange { rstart : Position; rend : Position }.

Record Selection : Type := mkSelection { anchor : Position; active : Position }.

Record TextDocument : Type := mkDocument { lines : list string; eol : string }.

Definition positionEqb (p q : Position) : bool :=
  (line p =? line q) && (character p =? character q).

Definition isBefore (p q : Position) : bool :=
  (line p <? line q) || ((line p =? line q) && (character p <? character q)).

(** [new vscode.Range(a, b)] orders its two ends. *)
Definition newRange (a b : Position) : Range :=
  if isBefore b a then mkRange b a else mkRange a b.

Definition selectionIsEmpty (s : Selection) : bool :=
  positionEqb (anchor s) (active s).

Definition selectionStart (s : Selection) : Position :=
  if isBefore (active s) (anchor s) then active s else anchor s.

Definition selectionEnd (s : Selection) : Position :=
  if isBefore (active s) (anchor s) then anchor s else active s.

Definition selectionRange (s : Selection) : Range :=
  mkRange (selectionStart s) (selectionEnd s).

Definition lineCount (doc : TextDocument) : nat := List.length (lines doc).

Definition lineText (doc : TextDocument) (n : nat) : string :=
  nth n (lines doc) EmptyString.

(** [doc.lineAt(n).text]; [lineAt] throws when [n] is not a line. *)
Definition lineAt (doc : TextDocument) (n : nat) : Result string :=
  match nth_error (lines doc) n with
  | Some l => Ok l
  | None => Err "Illegal value for `line`"
  end.

(** The leading white space of a line, as captured by the source's
    start-anchored white-space pattern. *)
Fixpoint leadingWhitespace (s : string) : string :=
  match s with
  | EmptyString => EmptyString
  | String c s' =>
      if JS.isWhiteSpace c then String c (leadingWhitespace s')
      else EmptyString
  end.

(** [TextLine.firstNonWhitespaceCharacterIndex] *)
Definition firstNonWhitespaceCharacterIndex (text : string) : nat :=
  String.length (leadingWhitespace text).

(** [TextLine.isEmptyOrWhitespace] *)
Definition isEmptyOrWhitespace (text : string) : bool :=
  firstNonWhitespaceCharacterIndex text =? String.length text.

(** [doc.getText()] *)
Definition getText (doc : TextDocument) : string :=
  JS.join (eol doc) (lines doc).

(** [doc.validatePosition(p)] *)
Definition validatePosition (doc : TextDocument) (p : Position) : Position :=
  if lineCount doc <=? line p
  then mkPosition (lineCount doc - 1)
                  (String.length (lineText doc (lineCount doc - 1)))
  else mkPosition (line p)
                  (Nat.min (character p) (String.length (lineText doc (line p)))).

Definition validateRange (doc : TextDocument) (r : Range) : Range :=
  mkRange (validatePosition doc (rstart r)) (validatePosition doc (rend r)).

(** [doc.getText(range)] *)
Definition getTextInRange (doc : TextDocument) (r : Range) : string :=
  let v := validateRange doc r in
  let s := rstart v in
  let e := rend v in
  if positionEqb s e then EmptyString
  else if line s =? line e
  then JS.substring (character s) (character e) (lineText doc (line s))
  else
    JS.join (eol doc)
      (JS.substringFrom (character s) (lineText doc (line s))
       :: firstn (line e - (line s + 1)) (skipn (line s + 1) (lines doc))
       ++ [JS.substring 0 (character e) (lineText doc (line e))]).

(** [doc.offsetAt(p)] *)
Definition offsetAt (doc : TextDocument) (p : Position) : nat :=
  let v := validatePosition doc p in
  String.length (JS.join (eol doc) (firstn (line v) (lines doc) ++ [EmptyString]))
  + character v.

(** Line boundaries of an inserted text: [\r\n], [\r] and [\n]. *)
Fixpoint splitEOL (s : string) : list string :=
  match s with
  | EmptyString => [EmptyString]
  | String c s' =>
      if Ascii.eqb c JS.LF then EmptyString :: splitEOL s'
      else if Ascii.eqb c JS.CR
      then if JS.startsWith (String JS.LF EmptyString) s'
           then splitEOL s'
           else EmptyString :: splitEOL s'
      else match splitEOL s' with
           | h :: t => String c h :: t
           | [] => [String c EmptyString]
           end
  end.

Fixpoint attachLast (pieces : list string) (post : string) : list string :=
  match pieces with
  | [] => [post]
  | [x] => [(x ++ post)%string]
  | x :: rest => x :: attachLast rest post
  end.

Definition attachFirst (pre : string) (pieces : list string) : list string :=
  match pieces with
  | [] => [pre]
  | x :: rest => (pre ++ x)%string :: rest
  end.

(** The operations a [TextEditorEdit] callback can record. *)
Inductive EditOp : Type :=
| Replace : Range -> string -> EditOp
| Insert : Position -> string -> EditOp
| Delete : Range -> EditOp.

Definition replaceRange (doc : TextDocument) (r : Range) (text : string)
  : TextDocument :=
  let v := validateRange doc r in
  let s := rstart v in
  let e := rend v in
  let pre := JS.take (character s) (lineText doc (line s)) in
  let post := JS.drop (character e) (lineText doc (line e)) in
  mkDocument
    (firstn (line s) (lines doc)
     ++ attachFirst pre (attachLast (splitEOL text) post)
     ++ skipn (line e + 1) (lines doc))
    (eol doc).

Definition applyEdit (doc : TextDocument) (op : EditOp) : TextDocument :=
  match op with
  | Replace r text => replaceRange doc r text
  | Insert p text => replaceRange doc (mkRange p p) text
  | Delete r => replaceRange doc r EmptyString
  end.

(** [editor.edit(cb)] with the operations [cb] recorded, applied in order. *)
Definition applyEdits (doc : TextDocument) (ops : list EditOp) : TextDocument :=
  fold_left applyEdit ops doc.

Record TextEditor : Type := mkEditor {
  document : TextDocument;
  languageId : string;
  selection : Selection
}.

End Editor.

(* ================================================================= *)
(** ** The extension ([src/extension.ts]) *)

Import Editor.

Definition nl : string := String JS.LF EmptyString.
Definition dquote : ascii := ascii_of_nat 34.
Definition tripleQuote : string :=
  String dquote (String dquote (String dquote EmptyString)).

Record CommentStyle : Type := mkCommentStyle {
  csStart : string;
  csEnd : string;
  linePrefix : option string
}.

Record PromptSettings : Type := mkPromptSettings {
  subject : string;
  style : string;
  rules : list string;
  emptyCodeResponse : string
}.

Record LanguageConfig : Type := mkLanguageConfig {
  languageIds : list string;
  definitionKeywords : Regex.regex;
  commentStyle : CommentStyle;
  promptSettings : PromptSettings
}.

Record CodeContext : Type := mkCodeContext {
  code : string;
  isModuleLevel : bool;
  range : Range;
  indentation : string;
  definitionLine : nat
}.

Section Patterns.
Import Regex.

(** The Python pattern: start of input, white space, then [def], [async]
    followed by one white-space unit and [def], or [class], then at least one
    white-space unit. *)
Definition pythonDefinitionKeywords : regex :=
  RSeq (RStar ws)
    (RSeq (RAlt (RSeq (opt (RSeq (lit "async") ws)) (lit "def")) (lit "class"))
          (plus ws)).

(** The PowerShell pattern, case-insensitive: white space, one of the four
    keywords, white space, a name, an optional parenthesised parameter list,
    white space. *)
Definition powershellDefinitionKeywords : regex :=
  RSeq (RStar ws)
    (RSeq (RAlt (litCI "function")
            (RAlt (litCI "filter")
              (RAlt (litCI "workflow") (litCI "configuration"))))
      (RSeq (plus ws)
        (RSeq (plus nameChar)
          (RSeq (opt (RSeq (RStar ws)
                       (RSeq (lit "(") (RSeq (RStar dot) (lit ")")))))
                (RStar ws))))).

End Patterns.

Definition pythonConfig : LanguageConfig :=
  mkLanguageConfig
    ["python"]
    pythonDefinitionKeywords
    (mkCommentStyle tripleQuote tripleQuote None)
    (mkPromptSettings
       "function or class"
       "Google's style for Python docstrings"
       ["Use triple quotes.";
        "Do not exceed 88 characters per line, including indentation."]
       "Generic __init__.py.").

Definition powershellConfig : LanguageConfig :=
  mkLanguageConfig
    ["powershell"]
    powershellDefinitionKeywords
    (mkCommentStyle "<#" "#>" (Some "  "))
    (mkPromptSettings
       "function"
       "PowerShell comment-based help"
       ["Use <# and #> block comment.";
        "Include .SYNOPSIS, .DESCRIPTION, .PARAMETER, .EXAMPLE, and .NOTES sections.";
        "Block MUST have ONLY one <#, at the start, and ONLY one #>, at the end."]
       (".SYNOPSIS" ++ nl ++ "  A brief summary of the function.")%string).

Definition LANGUAGE_CONFIGS : list (string * LanguageConfig) :=
  [("python", pythonConfig); ("powershell", powershellConfig)].

(** [xs.includes(x)] on an array of strings. *)
Definition arrayIncludes (x : string) (xs : list string) : bool :=
  existsb (String.eqb x) xs.

(** [Array.from(LANGUAGE_CONFIGS.values()).find(...)] *)
Definition getLanguageConfig (languageId : string) : option LanguageConfig :=
  List.find (fun config => arrayIncludes languageId (languageIds config))
            (map snd LANGUAGE_CONFIGS).

(** The first loop of case 3 of [getCodeToDocument]: from [startLineNum]
    towards line 0.  [Ok (Some n)] is the [break] at line [n], [Ok None] the
    exit with [startLineNum < 0], [Err] the [throw]. *)
Fixpoint findDefinitionStart (languageConfig : LanguageConfig)
    (doc : TextDocument) (startLineNum : nat) : Result (option nat) :=
  lineText <- lineAt doc startLineNum ;;
  if Regex.test (definitionKeywords languageConfig) lineText
  then Ok (Some startLineNum)
  else if negb (JS.endsWith "," lineText) && negb (JS.endsWith ":" lineText)
          && (0 <? String.length (JS.trim lineText))
  then Err "Could not find a definition."
  else match startLineNum with
       | 0 => Ok None
       | S n => findDefinitionStart languageConfig doc n
       end.

(** The second loop: [rest] are the lines from [endLineNum] to the end. *)
Fixpoint findBlockEnd (defIndent : nat) (rest : list string) (endLineNum : nat)
  : nat :=
  match rest with
  | [] => endLineNum
  | text :: rest' =>
      if negb (isEmptyOrWhitespace text)
         && (firstNonWhitespaceCharacterIndex text <=? defIndent)
      then endLineNum
      else findBlockEnd defIndent rest' (S endLineNum)
  end.

Definition getCodeToDocument (editor : TextEditor)
    (languageConfig : LanguageConfig) : Result (option CodeContext) :=
  let doc := document editor in
  let sel := selection editor in
  (* Case 1: cursor at the start of the file *)
  if selectionIsEmpty sel && (line (active sel) =? 0)
     && (character (active sel) =? 0)
  then
    _ <- lineAt doc (lineCount doc - 1) ;;
    (* the range runs from the start of the word at (0,0), if any, else
       from (0,0) -- in both cases line 0, column 0 -- to the end of the
       last line *)
    Ok (Some (mkCodeContext
                (getText doc)
                true
                (newRange (mkPosition 0 0)
                   (mkPosition (lineCount doc - 1)
                      (String.length (lineText doc (lineCount doc - 1)))))
                EmptyString
                0))
  (* Case 2: a block of code is selected *)
  else if negb (selectionIsEmpty sel)
  then
    let selectedText := getTextInRange doc (selectionRange sel) in
    defLine <- lineAt doc (line (selectionStart sel)) ;;
    Ok (Some (mkCodeContext
                selectedText
                false
                (selectionRange sel)
                (leadingWhitespace defLine)
                (line (selectionStart sel))))
  (* Case 3: cursor inside a function or class *)
  else
    found <- findDefinitionStart languageConfig doc (line (active sel)) ;;
    match found with
    | None => Ok None
    | Some startLineNum =>
        defLine <- lineAt doc startLineNum ;;
        let defIndent := firstNonWhitespaceCharacterIndex defLine in
        let endLineNum :=
          findBlockEnd defIndent (skipn (startLineNum + 1) (lines doc))
                       (startLineNum + 1) in
        let range := newRange (mkPosition startLineNum 0)
                              (mkPosition endLineNum 0) in
        Ok (Some (mkCodeContext
                    (getTextInRange doc range)
                    false
                    range
                    (leadingWhitespace defLine)
                    startLineNum))
    end.

(** The signature loops of [insertDocstring]: [rest] are the lines from
    [signatureEndLine] to the end; the loop runs while that line is not the
    last one and does not contain the marker. *)
Fixpoint findSignatureEnd (marker : string) (rest : list string)
    (signatureEndLine : nat) : nat :=
  match rest with
  | [] => signatureEndLine
  | [_] => signatureEndLine
  | text :: rest' =>
      if JS.includes marker text then signatureEndLine
      else findSignatureEnd marker rest' (S signatureEndLine)
  end.

Definition orEmpty (o : option string) : string :=
  match o with Some s => s | None => EmptyString end.

(** The callback of [editor.edit] in [insertDocstring]: the operations it
    records on the edit builder. *)
Definition insertDocstring (editor : TextEditor) (docstring : string)
    (context : CodeContext) (languageConfig : LanguageConfig)
  : Result (list EditOp) :=
  let doc := document editor in
  let cs := commentStyle languageConfig in
  if isModuleLevel context
  then
    firstLine <- lineAt doc 0 ;;
    let insertLine := if JS.startsWith "#!" firstLine then 1 else 0 in
    Ok [Insert (mkPosition insertLine 0)
          (csStart cs ++ nl ++ docstring ++ nl ++ csEnd cs ++ nl ++ nl)%string]
  else
    let signatureEndLine :=
      if arrayIncludes "python" (languageIds languageConfig)
      then findSignatureEnd ":" (skipn (definitionLine context) (lines doc))
                            (definitionLine context)
      else if arrayIncludes "powershell" (languageIds languageConfig)
      then findSignatureEnd "{" (skipn (definitionLine context) (lines doc))
                            (definitionLine context)
      else definitionLine context in
    let bodyIndent := (indentation context ++ "    ")%string in
    let commentLinePrefix := orEmpty (linePrefix cs) in
    let indentedDocstring :=
      (bodyIndent ++ csStart cs ++ nl
       ++ JS.join nl
            (map (fun line =>
                    if JS.isEmpty (JS.trim line) then EmptyString
                    else (bodyIndent ++ commentLinePrefix ++ line)%string)
                 (JS.splitLines docstring))
       ++ nl ++ bodyIndent ++ csEnd cs ++ nl ++ nl)%string in
    Ok [Insert (mkPosition (signatureEndLine + 1) 0) indentedDocstring].

Definition nthOrUndefined (xs : list string) (n : nat) : string :=
  nth n xs "undefined".

Definition buildPrompt (code : string) (isModuleLevel : bool)
    (languageConfig : LanguageConfig) : string :=
  let ps := promptSettings languageConfig in
  let subject := if isModuleLevel then "module" else subject ps in
  let rules := JS.join nl (map (fun rule => ("- " ++ rule)%string) (rules ps)) in
  ("Write a " ++ nthOrUndefined (languageIds languageConfig) 0
   ++ " docstring for the following " ++ subject ++ "." ++ nl
   ++ "- Use " ++ style ps ++ "." ++ nl
   ++ rules ++ nl
   ++ nl
   ++ (if isModuleLevel then "Module" else "Function/class") ++ " code:" ++ nl
   ++ code ++ nl
   ++ nl
   ++ "- If there is no code provided above, the docstring content MUST be '"
   ++ emptyCodeResponse ps ++ "'." ++ nl
   ++ nl
   ++ "Output only the docstring content, not including the comment markers. CRITICALLY IMPORTANT: Do NOT repeat the original code in your response.")%string.

(** *** Response cleanup (the tail of [callGeminiAPI]) *)

Definition fence : string := "```".

(** The global replacement of the fence pattern by the empty string.  The
    pattern is an opening fence with one of the two language tags followed by
    the longest run of white space, or else a bare fence; matches are found
    from left to right and do not overlap.  [skip] counts the code units of
    the current match still to be dropped, [thenWs] tells that the match
    goes on through the white space that follows. *)
Fixpoint stripFencesFrom (skip : nat) (thenWs : bool) (s : string) : string :=
  match s with
  | EmptyString => EmptyString
  | String c s' =>
      match skip with
      | S k => stripFencesFrom k thenWs s'
      | 0 =>
          if thenWs && JS.isWhiteSpace c then stripFencesFrom 0 true s'
          else if JS.startsWith (fence ++ "python") s
          then stripFencesFrom 8 true s'
          else if JS.startsWith (fence ++ "powershell") s
          then stripFencesFrom 12 true s'
          else if JS.startsWith fence s
          then stripFencesFrom 2 false s'
          else String c (stripFencesFrom 0 false s')
      end
  end.

Definition stripFences (s : string) : string := stripFencesFrom 0 false s.

Definition stripTripleQuotes (s : string) : string :=
  if JS.startsWith tripleQuote s && JS.endsWith tripleQuote s
  then JS.trim (JS.substring 3 (String.length s - 3) s)
  else s.

Definition stripLeadingMarker (s : string) : string :=
  if JS.startsWith "<#" s then JS.trim (JS.substringFrom 2 s) else s.

Definition truncateAtLastClosing (s : string) : string :=
  match JS.lastIndexOf "#>" s with
  | Some lastClosingIndex => JS.trim (JS.substring 0 lastClosingIndex s)
  | None => s
  end.

Definition cleanDocstring (docstring : string) : string :=
  truncateAtLastClosing
    (stripLeadingMarker
       (stripTripleQuotes (JS.trim (stripFences docstring)))).

(** *** The backend exchange *)

(** What [response.json()] and the two shape tests make of the body: the
    parse (or the [in] test) throws, the body has an [error] member, or the
    optional chain to the first part's text yields a string or not. *)
Inductive ResponseJson : Type :=
| JsonThrows : string -> ResponseJson
| JsonError : string -> ResponseJson
| JsonCandidates : option string -> ResponseJson.

Record Response : Type := mkResponse {
  ok : bool;
  status : nat;
  bodyText : string;
  json : ResponseJson
}.

(** [fetch] either rejects (network failure) or resolves with a response. *)
Inductive FetchResult : Type :=
| Rejected : string -> FetchResult
| Resolved : Response -> FetchResult.

(** [callGeminiAPI] after the [await fetch(...)]. *)
Definition callGeminiAPI (fetched : FetchResult) : Result string :=
  match fetched with
  | Rejected e => Err e
  | Resolved response =>
      if negb (ok response)
      then Err ("API request failed with status "
                ++ JS.numberToString (status response) ++ ": "
                ++ bodyText response)%string
      else
        match json response with
        | JsonThrows e => Err e
        | JsonError message =>
            Err ("API returned an error: " ++ message)%string
        | JsonCandidates None =>
            Err "Unexpected API response format. Could not extract docstring."
        | JsonCandidates (Some docstring) => Ok (cleanDocstring docstring)
        end
  end.

(** *** The command handler *)

Inductive Notification : Type :=
| ErrorMessage : string -> Notification
| WarningMessage : string -> Notification
| InformationMessage : string -> Notification.

(** The state the command leaves: the buffer of the active editor (if any)
    and the message shown. *)
Record Final : Type := mkFinal {
  finalDocument : option TextDocument;
  notification : Notification
}.

(** A run of the command: it ends, or it posts a prompt to an endpoint and
    goes on with what [fetch] gives back. *)
Inductive Run : Type :=
| Done : Final -> Run
| Fetch : string -> string -> (FetchResult -> Run) -> Run.

Record Settings : Type := mkSettings {
  model : option string;
  apiKey : option string
}.

(** [!x] for an optional string setting. *)
Definition falsy (o : option string) : bool :=
  match o with
  | None => true
  | Some s => JS.isEmpty s
  end.

Definition caught (doc : TextDocument) (errorMessage : string) : Final :=
  mkFinal (Some doc)
    (ErrorMessage ("Error generating docstring: " ++ errorMessage)%string).

Definition succeeded (doc : TextDocument) : Final :=
  mkFinal (Some doc) (InformationMessage "Docstring generated successfully!").

(** [await insertDocstring(...)] inside the [try] of the handler. *)
Definition runInsert (editor : TextEditor) (docstring : string)
    (context : CodeContext) (languageConfig : LanguageConfig) : Final :=
  match insertDocstring editor docstring context languageConfig with
  | Err e => caught (document editor) e
  | Ok ops => succeeded (applyEdits (document editor) ops)
  end.

Definition generateDocstring (activeTextEditor : option TextEditor)
    (config : Settings) : Run :=
  match activeTextEditor with
  | None => Done (mkFinal None (ErrorMessage "No active editor found."))
  | Some editor =>
      let doc := document editor in
      match getLanguageConfig (languageId editor) with
      | None =>
          Done (mkFinal (Some doc)
                  (WarningMessage
                     ("Docstring generation is not supported for '"
                      ++ languageId editor ++ "' files.")%string))
      | Some languageConfig =>
          if falsy (model config) || falsy (apiKey config)
          then Done (mkFinal (Some doc)
                       (ErrorMessage "Please set 'aidocswriter.model' and 'aidocswriter.apiKey' in your settings."))
          else
            let endpoint :=
              ("https://generativelanguage.googleapis.com/v1beta/models/"
               ++ orEmpty (model config) ++ ":generateContent")%string in
            match getCodeToDocument editor languageConfig with
            | Err e => Done (caught doc e)
            | Ok None =>
                Done (mkFinal (Some doc)
                        (ErrorMessage "Could not determine the code to document. Please select a function/class or place your cursor inside one."))
            | Ok (Some codeContext) =>
                if JS.isEmpty (JS.trim (getText doc))
                   && isModuleLevel codeContext
                then Done (runInsert editor
                             (emptyCodeResponse (promptSettings languageConfig))
                             codeContext languageConfig)
                else
                  Fetch (endpoint ++ "?key=" ++ orEmpty (apiKey config))%string
                        (buildPrompt (code codeContext)
                           (isModuleLevel codeContext) languageConfig)
                        (fun fetched =>
                           match callGeminiAPI fetched with
                           | Err e => Done (caught doc e)
                           | Ok docstring =>
                               Done (runInsert editor docstring codeContext
                                       languageConfig)
                           end)
            end
      end
  end.

(** The prompts a run sends, given how the backend answers each of them. *)
Fixpoint backendCalls (backend : string -> string -> FetchResult) (r : Run)
  : list string :=
  match r with
  | Done _ => []
  | Fetch url prompt k => prompt :: backendCalls backend (k (backend url prompt))
  end.

Fixpoint outcome (backend : string -> string -> FetchResult) (r : Run) : Final :=
  match r with
  | Done f => f
  | Fetch url prompt k => outcome backend (k (backend url prompt))
  end.

(* ================================================================= *)
(** ** The earlier Python-only variant of the extension *)

Module Legacy.

(** Its definition pattern: white space, then an optional [async], optional
    white space and [def], or [class], then at least one white-space unit. *)
Definition definitionPattern : Regex.regex :=
  Regex.RSeq (Regex.RStar Regex.ws)
    (Regex.RSeq
       (Regex.RAlt
          (Regex.RSeq (Regex.opt (Regex.lit "async"))
             (Regex.RSeq (Regex.RStar Regex.ws) (Regex.lit "def")))
          (Regex.lit "class"))
       (Regex.plus Regex.ws)).

(** The upward loop of this variant has no [throw]. *)
Fixpoint findDefinitionStart (doc : TextDocument) (startLineNum : nat)
  : Result (option nat) :=
  lineText <- lineAt doc startLineNum ;;
  if Regex.test definitionPattern lineText
  then Ok (Some startLineNum)
  else match startLineNum with
       | 0 => Ok None
       | S n => findDefinitionStart doc n
       end.

Definition getCodeToDocument (editor : TextEditor)
  : Result (option CodeContext) :=
  let doc := document editor in
  let sel := selection editor in
  if selectionIsEmpty sel && (line (active sel) =? 0)
     && (character (active sel) =? 0)
  then
    _ <- lineAt doc (lineCount doc - 1) ;;
    Ok (Some (mkCodeContext
                (getText doc)
                true
                (newRange (mkPosition 0 0)
                   (mkPosition (lineCount doc - 1)
                      (String.length (lineText doc (lineCount doc - 1)))))
                EmptyString
                0))
  else if negb (selectionIsEmpty sel)
  then
    let selectedText := getTextInRange doc (selectionRange sel) in
    defLine <- lineAt doc (line (selectionStart sel)) ;;
    Ok (Some (mkCodeContext
                selectedText
                false
                (selectionRange sel)
                (leadingWhitespace defLine)
                (line (selectionStart sel))))
  else
    found <- findDefinitionStart doc (line (active sel)) ;;
    match found with
    | None => Ok None
    | Some startLineNum =>
        defLine <- lineAt doc startLineNum ;;
        let defIndent := firstNonWhitespaceCharacterIndex defLine in
        let endLineNum :=
          findBlockEnd defIndent (skipn (startLineNum + 1) (lines doc))
                       (startLineNum + 1) in
        let range := newRange (mkPosition startLineNum 0)
                              (mkPosition endLineNum 0) in
        Ok (Some (mkCodeContext
                    (getTextInRange doc range)
                    false
                    range
                    (leadingWhitespace defLine)
                    startLineNum))
    end.

(** This variant inserts the docstring as the backend returned it, triple
    quotes included. *)
Definition insertDocstring (editor : TextEditor) (docstring : string)
    (context : CodeContext) : Result (list EditOp) :=
  let doc := document editor in
  if isModuleLevel context
  then
    firstLine <- lineAt doc 0 ;;
    let insertLine := if JS.startsWith "#!" firstLine then 1 else 0 in
    Ok [Insert (mkPosition insertLine 0) (docstring ++ nl ++ nl)%string]
  else
    let signatureEndLine :=
      findSignatureEnd ":" (skipn (definitionLine context) (lines doc))
                       (definitionLine context) in
    let bodyIndent := (indentation context ++ "    ")%string in
    let indentedDocstring :=
      (JS.join nl
         (map (fun line =>
                 if JS.isEmpty (JS.trim line) then EmptyString
                 else (bodyIndent ++ line)%string)
              (JS.splitLines docstring))
       ++ nl)%string in
    Ok [Insert (mkPosition (signatureEndLine + 1) 0) indentedDocstring].

(** *** Its prompt, backend exchange and command handler *)

Definition buildPrompt (code : string) (isModuleLevel : bool) : string :=
  let subject := if isModuleLevel then "module" else "function or class" in
  ("Write a Python docstring for the following " ++ subject ++ "." ++ nl
   ++ "- Use triple quotes." ++ nl
   ++ "- Follow Google's style for Python docstrings." ++ nl
   ++ "- Do not exceed 88 characters per line, including indentation." ++ nl
   ++ nl
   ++ (if isModuleLevel then "Module" else "Function/class") ++ " code:" ++ nl
   ++ code ++ nl
   ++ nl
   ++ "- If there is no code provided above, the docstring MUST be 'Generic __init__.py.', a single line, without description, nor summary."
   ++ nl
   ++ "- The above rule is important, if no code, the docstring MUST be, only, really, ONLY 'Generic __init__.py.' triple quoted."
   ++ nl
   ++ nl
   ++ "Output only the docstring including the triple quotes.")%string.

(** The global replacement of its fence pattern by the empty string: a fence,
    optionally followed by the tag [python] and the longest run of white
    space. *)
Fixpoint stripFencesFrom (skip : nat) (thenWs : bool) (s : string) : string :=
  match s with
  | EmptyString => EmptyString
  | String c s' =>
      match skip with
      | S k => stripFencesFrom k thenWs s'
      | 0 =>
          if thenWs && JS.isWhiteSpace c then stripFencesFrom 0 true s'
          else if JS.startsWith (fence ++ "python") s
          then stripFencesFrom 8 true s'
          else if JS.startsWith fence s
          then stripFencesFrom 2 false s'
          else String c (stripFencesFrom 0 false s')
      end
  end.

Definition stripFences (s : string) : string := stripFencesFrom 0 false s.

Definition cleanDocstring (docstring : string) : string :=
  JS.trim (stripFences docstring).

Definition callGeminiAPI (fetched : FetchResult) : Result string :=
  match fetched with
  | Rejected e => Err e
  | Resolved response =>
      if negb (ok response)
      then Err ("API request failed with status "
                ++ JS.numberToString (status response) ++ ": "
                ++ bodyText response)%string
      else
        match json response with
        | JsonThrows e => Err e
        | JsonError message =>
            Err ("API returned an error: " ++ message)%string
        | JsonCandidates None =>
            Err "Unexpected API response format. Could not extract docstring."
        | JsonCandidates (Some docstring) => Ok (cleanDocstring docstring)
        end
  end.

Record Settings : Type := mkSettings {
  apiEndpoint : option string;
  apiKey : option string
}.

Definition runInsert (editor : TextEditor) (docstring : string)
    (context : CodeContext) : Final :=
  match insertDocstring editor docstring context with
  | Err e => caught (document editor) e
  | Ok ops => succeeded (applyEdits (document editor) ops)
  end.

Definition genericDocstring : string :=
  (tripleQuote ++ "Generic __init__.py." ++ tripleQuote)%string.

Definition generateDocstring (activeTextEditor : option TextEditor)
    (config : Settings) : Run :=
  match activeTextEditor with
  | None => Done (mkFinal None (ErrorMessage "No active editor found."))
  | Some editor =>
      let doc := document editor in
      if negb (String.eqb (languageId editor) "python")
      then Done (mkFinal (Some doc)
                   (WarningMessage "This command is intended for Python files."))
      else if falsy (apiEndpoint config) || falsy (apiKey config)
      then Done (mkFinal (Some doc)
                   (ErrorMessage "Please set 'geminiDoc.apiEndpoint' and 'geminiDoc.apiKey' in your settings."))
      else
        match getCodeToDocument editor with
        | Err e => Done (caught doc e)
        | Ok None =>
            Done (mkFinal (Some doc)
                    (ErrorMessage "Could not determine the code to document. Please select a function/class or place your cursor inside one."))
        | Ok (Some codeContext) =>
            if JS.isEmpty (JS.trim (getText doc)) && isModuleLevel codeContext
            then Done (runInsert editor genericDocstring codeContext)
            else
              Fetch (orEmpty (apiEndpoint config) ++ "?key="
                     ++ orEmpty (apiKey config))%string
                    (buildPrompt (code codeContext) (isModuleLevel codeContext))
                    (fun fetched =>
                       match callGeminiAPI fetched with
                       | Err e => Done (caught doc e)
                       | Ok docstring =>
                           Done (runInsert editor docstring codeContext)
                       end)
        end
  end.

End Legacy.

(* ================================================================= *)
(** ** Buffers and inputs used in the statements below *)

Definition cursorAt (l c : nat) : Selection :=
  mkSelection (mkPosition l c) (mkPosition l c).

(** The buffer of an empty file: one empty line. *)
Definition emptyBuffer : TextDocument := mkDocument [EmptyString] nl.

(** A Python function with a one-line body and a final line break. *)
Definition functionWithBody : TextDocument :=
  mkDocument ["def f(x):"; "    return x"; EmptyString] nl.

(** A definition line directly followed by a line at its own indentation. *)
Definition bodylessDefinition : TextDocument :=
  mkDocument ["def f():"; "x = 1"] nl.

(** A definition line that is the last line of the buffer. *)
Definition definitionAtEnd : TextDocument :=
  mkDocument ["x = 1"; "def f():"] nl.

(** A PowerShell function whose opening brace is on its own line. *)
Definition braceOnOwnLine : TextDocument :=
  mkDocument ["function Get-Foo"; "{"; "    Write-Output 1"; "}"] nl.

(** A PowerShell function followed by a line that ends with a colon. *)
Definition colonAfterFunction : TextDocument :=
  mkDocument ["function Get-Foo"; "label:"] nl.

Definition configured : Settings :=
  mkSettings (Some "gemini-2.5-flash") (Some "key").

(** A backend that answers every request with status 429. *)
Definition quotaResponse : Response :=
  mkResponse false 429 "{ error: { message: 'quota' } }" (JsonError "quota").

Definition quotaBackend (url prompt : string) : FetchResult :=
  Resolved quotaResponse.

(** A backend that answers every request with the given text. *)
Definition answering (text : string) (url prompt : string) : FetchResult :=
  Resolved (mkResponse true 200 text (JsonCandidates (Some text))).

(** The lines of a list each followed, resp. preceded, by the separator. *)
Fixpoint joinEach (sep : string) (xs : list string) : string :=
  match xs with
  | [] => EmptyString
  | x :: rest => (x ++ sep ++ joinEach sep rest)%string
  end.

Fixpoint joinAfter (sep : string) (xs : list string) : string :=
  match xs with
  | [] => EmptyString
  | x :: rest => (sep ++ x ++ joinAfter sep rest)%string
  end.

(** The three ways the upward walk treats a line. *)
Definition isDefinitionLine (languageConfig : LanguageConfig) (text : string)
  : bool :=
  Regex.test (definitionKeywords languageConfig) text.

Definition isMalformedLine (text : string) : bool :=
  negb (JS.endsWith "," text) && negb (JS.endsWith ":" text)
  && (0 <? String.length (JS.trim text)).

(** What it means for an edit list to add one block of text to a buffer and
    touch nothing else: the list is a single insertion, and the text of the
    edited buffer is the old text cut at one offset with the block (its line
    breaks in the buffer's convention) in between. *)
Definition splicesOneBlock (doc : TextDocument) (ops : list EditOp) : Prop :=
  exists position block,
    ops = [Insert position block]
    /\ getText (applyEdits doc ops)
       = (JS.take (offsetAt doc position) (getText doc)
          ++ JS.join (eol doc) (splitEOL block)
          ++ JS.drop (offsetAt doc position) (getText doc))%string
    /\ (JS.take (offsetAt doc position) (getText doc)
        ++ JS.drop (offsetAt doc position) (getText doc))%string
       = getText doc.

(** In the upward walk, the lines from [j] (excluded) up to [n] are passed
    over: none is a definition line, none is malformed. *)
Definition passedOverIn (languageConfig : LanguageConfig) (doc : TextDocument)
    (j n : nat) : Prop :=
  forall i, j < i -> i <= n ->
    isDefinitionLine languageConfig (lineText doc i) = false
    /\ isMalformedLine (lineText doc i) = false.

(** A string that does not begin with white space. *)
Definition startsClean (s : string) : Prop := JS.trimStart s = s.

(** A text without line breaks, and a text without carriage returns. *)
Fixpoint noBreak (s : string) : bool :=
  match s with
  | EmptyString => true
  | String c s' =>
      negb (Ascii.eqb c JS.LF) && negb (Ascii.eqb c JS.CR) && noBreak s'
  end.

Fixpoint noCR (s : string) : bool :=
  match s with
  | EmptyString => true
  | String c s' => negb (Ascii.eqb c JS.CR) && noCR s'
  end.

(** The line [insertDocstring] makes of one line of the docstring outside
    module mode. *)
Definition indentLine (bodyIndent commentLinePrefix line : string) : string :=
  if JS.isEmpty (JS.trim line) then EmptyString
  else (bodyIndent ++ commentLinePrefix ++ line)%string.


(** The lines from [k] (excluded) up to [n] hold no definition line of the
    earlier variant. *)
Definition noLegacyDefinition (doc : TextDocument) (k n : nat) : Prop :=
  forall i, k < i -> i <= n ->
    Regex.test Legacy.definitionPattern (lineText doc i) = false.

(** A line that ends the block of a definition indented by [defIndent]. *)
Definition endsBlock (defIndent : nat) (text : string) : bool :=
  negb (isEmptyOrWhitespace text)
  && (firstNonWhitespaceCharacterIndex text <=? defIndent).

(** The marker [insertDocstring] looks for to find the end of a signature,
    by the language identifiers of the profile. *)
Definition signatureMarker (languageConfig : LanguageConfig) : option string :=
  if arrayIncludes "python" (languageIds languageConfig) then Some ":"
  else if arrayIncludes "powershell" (languageIds languageConfig) then Some "{"
  else None.

(** A PowerShell function whose parameter list runs over three lines. *)
Definition multiLineSignature : TextDocument :=
  mkDocument ["function Get-Foo("; "    $a,"; "    $b) {"; "    $a"; "}"] nl.

(* ================================================================= *)
(** ** Facts about strings *)

Section StringFacts.

Local Open Scope string_scope.

Lemma append_nil_r (s : string) : s ++ "" = s.
Proof. induction s as [|c s IH]; simpl; [reflexivity | now rewrite IH]. Qed.

Lemma append_assoc (a b c : string) : (a ++ b) ++ c = a ++ (b ++ c).
Proof. induction a as [|x a IH]; simpl; [reflexivity | now rewrite IH]. Qed.

Lemma length_append (a b : string) :
  String.length (a ++ b) = String.length a + String.length b.
Proof. induction a as [|x a IH]; simpl; [reflexivity | now rewrite IH]. Qed.

Lemma take_all (s : string) : JS.take (String.length s) s = s.
Proof. induction s as [|c s IH]; simpl; [reflexivity | now rewrite IH]. Qed.

Lemma take_0 (s : string) : JS.take 0 s = "".
Proof. destruct s; reflexivity. Qed.

Lemma drop_0 (s : string) : JS.drop 0 s = s.
Proof. destruct s; reflexivity. Qed.

Lemma drop_all (s : string) : JS.drop (String.length s) s = "".
Proof. induction s as [|c s IH]; simpl; [reflexivity | exact IH]. Qed.

Lemma take_drop (n : nat) (s : string) : JS.take n s ++ JS.drop n s = s.
Proof.
  revert s; induction n as [|n IH]; intros [|c s]; simpl; try reflexivity.
  now rewrite IH.
Qed.

Lemma length_take (n : nat) (s : string) :
  n <= String.length s -> String.length (JS.take n s) = n.
Proof.
  revert s; induction n as [|n IH]; intros [|c s]; simpl; intros H;
    try reflexivity; try lia.
  rewrite IH; [reflexivity | lia].
Qed.

Lemma take_append_plus (a b : string) (n : nat) :
  JS.take (String.length a + n) (a ++ b) = a ++ JS.take n b.
Proof. induction a as [|x a IH]; simpl; [reflexivity | now rewrite IH]. Qed.

Lemma drop_append_plus (a b : string) (n : nat) :
  JS.drop (String.length a + n) (a ++ b) = JS.drop n b.
Proof. induction a as [|x a IH]; simpl; [reflexivity | exact IH]. Qed.

Lemma take_append_le (n : nat) (a b : string) :
  n <= String.length a -> JS.take n (a ++ b) = JS.take n a.
Proof.
  revert a; induction n as [|n IH]; intros [|x a]; simpl; intros H;
    try reflexivity; try lia.
  rewrite IH; [reflexivity | lia].
Qed.

Lemma drop_append_le (n : nat) (a b : string) :
  n <= String.length a -> JS.drop n (a ++ b) = JS.drop n a ++ b.
Proof.
  revert a; induction n as [|n IH]; intros [|x a]; simpl; intros H;
    try reflexivity; try lia.
  apply IH; lia.
Qed.

Lemma substring_0_all (s : string) : JS.substring 0 (String.length s) s = s.
Proof.
  unfold JS.substring. rewrite Nat.min_0_l, Nat.min_id, Nat.min_0_l.
  rewrite Nat.max_0_l, Nat.sub_0_r. cbn [JS.drop]. apply take_all.
Qed.

Lemma substring_0_0 (s : string) : JS.substring 0 0 s = "".
Proof. unfold JS.substring. reflexivity. Qed.

Lemma substring_ordered (a b : nat) (s : string) :
  a <= b -> b <= String.length s ->
  JS.substring a b s = JS.take (b - a) (JS.drop a s).
Proof.
  intros Hab Hb. unfold JS.substring.
  rewrite (Nat.min_l a) by lia. rewrite (Nat.min_l b) by lia.
  rewrite Nat.min_l by lia. rewrite Nat.max_r by lia. reflexivity.
Qed.

Lemma isEmpty_true (s : string) : JS.isEmpty s = true -> s = "".
Proof. destruct s; simpl; [reflexivity | discriminate]. Qed.

End StringFacts.

(* ================================================================= *)
(** ** The pattern matcher *)

Section MatcherFacts.

Import Regex.
Local Open Scope string_scope.

Lemma append_eq_nil (a b : string) : a ++ b = "" -> a = "" /\ b = "".
Proof. destruct a; simpl; [auto | discriminate]. Qed.

Lemma nullable_matches (r : regex) : nullable r = true <-> matches r "".
Proof.
  induction r as [| |p|a IHa b IHb|a IHa b IHb|a IHa]; simpl.
  - split; [discriminate | intros H; inversion H].
  - split; [constructor | reflexivity].
  - split; [discriminate | intros H; inversion H].
  - rewrite andb_true_iff, IHa, IHb. split.
    + intros [Ha Hb]. change "" with ("" ++ ""). now constructor.
    + intros H. inversion H as [| |a' b' s1 s2 H1 H2 [Ea Eb] E| | | |]; subst.
      apply append_eq_nil in E. destruct E; subst. now split.
  - rewrite orb_true_iff, IHa, IHb. split.
    + intros [H|H]; [now apply MAltL | now apply MAltR].
    + intros H. inversion H; subst; [now left | now right].
  - split; [constructor | reflexivity].
Qed.

(** A non-empty match of a starred pattern begins with a non-empty match of
    the pattern. *)
Lemma star_cons (a : regex) (s : string) :
  matches (RStar a) s ->
  forall c t, s = String c t ->
  exists t1 t2, t = t1 ++ t2 /\ matches a (String c t1) /\ matches (RStar a) t2.
Proof.
  intros H. remember (RStar a) as r eqn:Er.
  induction H as [| | | | | a' | a' s1 s2 H1 _ H2 IH2]; inversion Er; subst.
  - intros c t E. discriminate E.
  - intros c t E. destruct s1 as [|c1 s1].
    + simpl in E. now apply IH2.
    + simpl in E. inversion E; subst. exists s1, s2. repeat split; assumption.
Qed.

Lemma deriv_matches (r : regex) :
  forall c s, matches (deriv c r) s <-> matches r (String c s).
Proof.
  induction r as [| |p|a IHa b IHb|a IHa b IHb|a IHa]; intros c s; simpl.
  - split; intros H; inversion H.
  - split; intros H; inversion H.
  - destruct (p c) eqn:E; split; intros H; inversion H; subst.
    + now constructor.
    + constructor.
    + congruence.
  - assert (Hseq : matches (RSeq (deriv c a) b) s ->
                   matches (RSeq a b) (String c s)).
    { intros H. inversion H; subst.
      change (String c (s1 ++ s2)) with (String c s1 ++ s2).
      constructor; [now apply IHa | assumption]. }
    split.
    + destruct (nullable a) eqn:En.
      * intros H. inversion H; subst; [now apply Hseq|].
        change (String c s) with ("" ++ String c s).
        constructor; [now apply nullable_matches | now apply IHb].
      * exact Hseq.
    + intros H. inversion H as [| |a' b' s1 s2 H1 H2 [Ea Eb] E| | | |]; subst.
      destruct s1 as [|c1 s1].
      * simpl in E. subst s2. apply nullable_matches in H1. rewrite H1.
        apply MAltR. now apply IHb.
      * simpl in E. inversion E; subst.
        assert (matches (RSeq (deriv c a) b) (s1 ++ s2))
          by (constructor; [now apply IHa | assumption]).
        destruct (nullable a); [now apply MAltL | assumption].
  - split; intros H; inversion H; subst;
      [apply MAltL | apply MAltR | apply MAltL | apply MAltR]; 
      try (now apply IHa); now apply IHb.
  - split.
    + intros H. inversion H; subst.
      change (String c (s1 ++ s2)) with (String c s1 ++ s2).
      constructor; [now apply IHa | assumption].
    + intros H. destruct (star_cons a _ H c s eq_refl) as (t1 & t2 & -> & H1 & H2).
      constructor; [now apply IHa | assumption].
Qed.

(** [test] holds exactly when the pattern denotes a prefix of the input:
    the meaning of a start-anchored pattern without an end anchor. *)
Lemma test_matches (r : regex) (s : string) :
  test r s = true <-> exists n, matches r (JS.take n s).
Proof.
  revert r; induction s as [|c s IH]; intros r; simpl.
  - rewrite orb_false_r, nullable_matches. split.
    + intros H. now exists 0.
    + intros [n H]. now destruct n.
  - rewrite orb_true_iff, nullable_matches, IH. split.
    + intros [H|[n H]]; [now exists 0 | exists (S n); simpl; now apply deriv_matches].
    + intros [[|n] H]; [now left|]. right. exists n. now apply deriv_matches.
Qed.

End MatcherFacts.

(* ================================================================= *)
(** ** The patterns and the cleanup on sample lines *)

Example python_pattern_samples :
  map (Regex.test pythonDefinitionKeywords)
      ["def f(x):"; "    async def g():"; "class A:"; "async  def g():";
       "defx"; "class"; "    return x"; ""]
  = [true; true; true; false; false; false; false; false].
Proof. reflexivity. Qed.

Example powershell_pattern_samples :
  map (Regex.test powershellDefinitionKeywords)
      ["function Get-Foo"; "Function Get-Foo($a) {"; "  FILTER x";
       "workflow w1"; "configuration"; "functionFoo"; "function {"; "{"]
  = [true; true; true; true; false; false; false; false].
Proof. reflexivity. Qed.

Example legacy_pattern_samples :
  map (Regex.test Legacy.definitionPattern)
      ["def f(x):"; "async  def g():"; "asyncdef g():"; "class A:";
       "    return x"]
  = [true; true; true; true; false].
Proof. reflexivity. Qed.

Example malformed_line_samples :
  map isMalformedLine
      ["    return x"; "    a,"; "):"; "   "; ""; "{"; "label: "]
  = [true; false; false; false; false; true; true].
Proof. reflexivity. Qed.

Example cleanup_samples :
  map cleanDocstring
      [(fence ++ "python" ++ nl ++ "Summary." ++ nl ++ fence)%string;
       (fence ++ nl ++ "Summary." ++ fence)%string;
       (tripleQuote ++ "Summary." ++ tripleQuote)%string;
       "<# .SYNOPSIS x #> function f {}";
       "  Summary.  ";
       tripleQuote]
  = ["Summary."; "Summary."; "Summary."; ".SYNOPSIS x"; "Summary.";
     tripleQuote].
Proof. reflexivity. Qed.

Example split_samples :
  JS.splitLines ("a" ++ String JS.CR nl ++ "b" ++ nl ++ String JS.CR "c")%string
  = ["a"; "b"; String JS.CR "c"]
  /\ splitEOL ("a" ++ String JS.CR nl ++ "b" ++ nl ++ String JS.CR "c")%string
     = ["a"; "b"; ""; "c"].
Proof. split; reflexivity. Qed.

(* ================================================================= *)
(** ** Module mode *)

Lemma lineAt_last (doc : TextDocument) :
  lines doc <> [] ->
  lineAt doc (lineCount doc - 1) = Ok (lineText doc (lineCount doc - 1)).
Proof.
  intros Hne. unfold lineAt, lineText, lineCount.
  destruct (nth_error (lines doc) (List.length (lines doc) - 1)) eqn:E.
  - now rewrite (nth_error_nth _ _ _ E).
  - apply nth_error_None in E. destruct (lines doc); [congruence | simpl in E; lia].
Qed.

(** C5. With an empty selection and the cursor at line 0, column 0, detection
    returns, for every buffer (a buffer has at least one line, the empty
    buffer exactly one empty line) and every profile, a context whose code
    is the whole buffer text, with the module flag set, the empty
    indentation and definition line 0. *)
Theorem module_mode_returns_whole_buffer
    (doc : TextDocument) (lang : string) (languageConfig : LanguageConfig)
    (Hlines : lines doc <> []) :
  exists context,
    getCodeToDocument (mkEditor doc lang (cursorAt 0 0)) languageConfig
    = Ok (Some context)
    /\ code context = getText doc
    /\ isModuleLevel context = true
    /\ indentation context = EmptyString
    /\ definitionLine context = 0.
Proof.
  unfold getCodeToDocument. cbn [document selection cursorAt selectionIsEmpty
    anchor active positionEqb line character Nat.eqb andb].
  rewrite lineAt_last by assumption. cbn [bind].
  eexists. split; [reflexivity|]. cbn. repeat split.
Qed.

Lemma module_mode_on_empty_buffer :
  lines emptyBuffer <> []
  /\ exists context,
       getCodeToDocument (mkEditor emptyBuffer "python" (cursorAt 0 0))
                         pythonConfig = Ok (Some context)
       /\ code context = getText emptyBuffer
       /\ isModuleLevel context = true
       /\ indentation context = EmptyString
       /\ definitionLine context = 0.
Proof.
  split; [simpl; discriminate|].
  apply (module_mode_returns_whole_buffer emptyBuffer "python" pythonConfig).
  simpl; discriminate.
Defined.

(* ================================================================= *)
(** ** The empty-module short circuit *)

(** C7. On the empty buffer with the cursor at (0,0) and no selection, a run
    of the command sends nothing to the backend, whatever the backend would
    answer; the run ends with the insertion of the profile's
    [emptyCodeResponse] literal, unchanged, between the profile's comment
    delimiters at line 0. *)
Theorem empty_module_short_circuit
    (e lang : string) (languageConfig : LanguageConfig) (config : Settings)
    (backend : string -> string -> FetchResult)
    (Hcfg : getLanguageConfig lang = Some languageConfig)
    (Hmodel : falsy (model config) = false)
    (Hkey : falsy (apiKey config) = false) :
  let editor := mkEditor (mkDocument [EmptyString] e) lang (cursorAt 0 0) in
  let body := emptyCodeResponse (promptSettings languageConfig) in
  let cs := commentStyle languageConfig in
  backendCalls backend (generateDocstring (Some editor) config) = []
  /\ exists context,
       getCodeToDocument editor languageConfig = Ok (Some context)
       /\ generateDocstring (Some editor) config
          = Done (runInsert editor body context languageConfig)
       /\ insertDocstring editor body context languageConfig
          = Ok [Insert (mkPosition 0 0)
                  (csStart cs ++ nl ++ body ++ nl ++ csEnd cs ++ nl ++ nl)%string].
Proof.
  intros editor body cs.
  assert (Hrun : exists context,
             getCodeToDocument editor languageConfig = Ok (Some context)
             /\ generateDocstring (Some editor) config
                = Done (runInsert editor body context languageConfig)
             /\ insertDocstring editor body context languageConfig
                = Ok [Insert (mkPosition 0 0)
                        (csStart cs ++ nl ++ body ++ nl ++ csEnd cs ++ nl ++ nl)%string]).
  { eexists. split; [reflexivity|]. split.
    - unfold generateDocstring. cbn [languageId editor]. rewrite Hcfg.
      rewrite Hmodel, Hkey. reflexivity.
    - reflexivity. }
  split; [|exact Hrun].
  destruct Hrun as (context & _ & Hgen & _). rewrite Hgen. reflexivity.
Qed.

Lemma empty_module_short_circuit_python :
  getLanguageConfig "python" = Some pythonConfig
  /\ falsy (model configured) = false
  /\ falsy (apiKey configured) = false
  /\ backendCalls quotaBackend
       (generateDocstring
          (Some (mkEditor (mkDocument [EmptyString] nl) "python" (cursorAt 0 0)))
          configured) = [].
Proof.
  split; [reflexivity|]. split; [reflexivity|]. split; [reflexivity|].
  apply (empty_module_short_circuit nl "python" pythonConfig configured
           quotaBackend); reflexivity.
Defined.

(* ================================================================= *)
(** ** Backend failures *)

(** C9. When the backend is reached and answers with a non-success status,
    [callGeminiAPI] throws an error whose message holds the status and the
    text of the response body; the handler reports it, no insertion is
    performed and the buffer at the end of the run is the buffer at its
    start. *)
Theorem backend_failure_leaves_buffer
    (editor : TextEditor) (config : Settings) (response : Response)
    (backend : string -> string -> FetchResult)
    (Hbackend : forall url prompt, backend url prompt = Resolved response)
    (Hstatus : ok response = false)
    (Hcalled : backendCalls backend (generateDocstring (Some editor) config)
               <> []) :
  let message :=
    ("API request failed with status " ++ JS.numberToString (status response)
     ++ ": " ++ bodyText response)%string in
  callGeminiAPI (Resolved response) = Err message
  /\ outcome backend (generateDocstring (Some editor) config)
     = mkFinal (Some (document editor))
         (ErrorMessage ("Error generating docstring: " ++ message)%string)
  /\ List.length (backendCalls backend (generateDocstring (Some editor) config))
     = 1.
Proof.
  intros message.
  assert (Hcall : callGeminiAPI (Resolved response) = Err message).
  { unfold callGeminiAPI. rewrite Hstatus. reflexivity. }
  split; [exact Hcall|].
  revert Hcalled. unfold generateDocstring.
  destruct (getLanguageConfig (languageId editor)) as [languageConfig|];
    [|intros H; now elim H].
  destruct (falsy (model config) || falsy (apiKey config));
    [intros H; now elim H|].
  destruct (getCodeToDocument editor languageConfig) as [[context|]|msg];
    try (intros H; now elim H).
  destruct (JS.isEmpty (JS.trim (getText (document editor)))
            && isModuleLevel context); [intros H; now elim H|].
  intros _. cbn [outcome backendCalls]. rewrite Hbackend, Hcall.
  split; reflexivity.
Qed.

Lemma backend_failure_on_status_429 :
  outcome quotaBackend
    (generateDocstring
       (Some (mkEditor functionWithBody "python" (cursorAt 0 4))) configured)
  = mkFinal (Some functionWithBody)
      (ErrorMessage
         "Error generating docstring: API request failed with status 429: { error: { message: 'quota' } }").
Proof.
  apply (backend_failure_leaves_buffer
           (mkEditor functionWithBody "python" (cursorAt 0 4)) configured
           quotaResponse quotaBackend).
  - reflexivity.
  - reflexivity.
  - vm_compute. discriminate.
Defined.

(* ================================================================= *)
(** ** Joining lines and splicing text *)

Section JoinFacts.

Local Open Scope string_scope.
Variable sep : string.

Lemma join_cons (x : string) (ys : list string) :
  ys <> [] -> JS.join sep (x :: ys) = x ++ sep ++ JS.join sep ys.
Proof. destruct ys; [congruence | reflexivity]. Qed.

Lemma join_joinEach (xs ys : list string) :
  ys <> [] -> JS.join sep (xs ++ ys) = joinEach sep xs ++ JS.join sep ys.
Proof.
  intros Hne. induction xs as [|x xs IH]; [reflexivity|].
  change ((x :: xs) ++ ys)%list with (x :: (xs ++ ys))%list.
  rewrite join_cons.
  - rewrite IH. simpl. now rewrite !append_assoc.
  - destruct xs; simpl; [assumption | discriminate].
Qed.

Lemma join_one_joinAfter (x : string) (zs : list string) :
  JS.join sep (x :: zs) = x ++ joinAfter sep zs.
Proof.
  revert x; induction zs as [|z zs IH]; intros x.
  - simpl. now rewrite append_nil_r.
  - rewrite join_cons by discriminate. rewrite IH. reflexivity.
Qed.

Lemma join_joinAfter (ys zs : list string) :
  ys <> [] -> JS.join sep (ys ++ zs) = JS.join sep ys ++ joinAfter sep zs.
Proof.
  induction ys as [|y ys IH]; [congruence|]. intros _.
  destruct ys as [|y' ys].
  - apply join_one_joinAfter.
  - change ((y :: y' :: ys) ++ zs)%list with (y :: ((y' :: ys) ++ zs))%list.
    rewrite join_cons by discriminate.
    rewrite IH by discriminate.
    rewrite (join_cons y (y' :: ys)) by discriminate.
    now rewrite !append_assoc.
Qed.

Lemma joinEach_app (xs ys : list string) :
  joinEach sep (xs ++ ys) = joinEach sep xs ++ joinEach sep ys.
Proof.
  induction xs as [|x xs IH]; [reflexivity|].
  simpl. rewrite IH. now rewrite !append_assoc.
Qed.

Lemma join_snoc_empty (xs : list string) :
  JS.join sep (xs ++ [""]) = joinEach sep xs.
Proof. rewrite join_joinEach by discriminate. simpl. apply append_nil_r. Qed.

Lemma attachLast_nonempty (pieces : list string) (post : string) :
  attachLast pieces post <> [].
Proof. destruct pieces as [|x [|y r]]; simpl; discriminate. Qed.

Lemma join_attachLast (pieces : list string) (post : string) :
  pieces <> [] ->
  JS.join sep (attachLast pieces post) = JS.join sep pieces ++ post.
Proof.
  induction pieces as [|x pieces IH]; [congruence|]. intros _.
  destruct pieces as [|y pieces]; [reflexivity|].
  change (attachLast (x :: y :: pieces) post)
    with (x :: attachLast (y :: pieces) post).
  rewrite join_cons by apply attachLast_nonempty.
  rewrite IH by discriminate.
  rewrite (join_cons x (y :: pieces)) by discriminate.
  now rewrite !append_assoc.
Qed.

Lemma join_attachFirst (pre : string) (pieces : list string) :
  pieces <> [] ->
  JS.join sep (attachFirst pre pieces) = pre ++ JS.join sep pieces.
Proof.
  destruct pieces as [|x pieces]; [congruence|]. intros _.
  destruct pieces as [|y pieces]; [reflexivity|].
  simpl. now rewrite !append_assoc.
Qed.

Lemma attachFirst_nonempty (pre : string) (pieces : list string) :
  attachFirst pre pieces <> [].
Proof. destruct pieces; simpl; discriminate. Qed.

End JoinFacts.

Lemma splitEOL_nonempty (text : string) : splitEOL text <> [].
Proof.
  induction text as [|c text IH]; [discriminate|].
  cbn [splitEOL].
  destruct (Ascii.eqb c JS.LF); [discriminate|].
  destruct (Ascii.eqb c JS.CR).
  - destruct (JS.startsWith (String JS.LF EmptyString) text);
      [assumption | discriminate].
  - destruct (splitEOL text); discriminate.
Qed.

Lemma lines_split_at (xs : list string) (n : nat) :
  n < List.length xs ->
  xs = firstn n xs ++ [nth n xs EmptyString] ++ skipn (n + 1) xs.
Proof.
  revert n; induction xs as [|x xs IH]; intros n Hn; simpl in Hn; [lia|].
  destruct n as [|n]; simpl; [reflexivity|].
  f_equal. apply IH. lia.
Qed.

(** A validated position lies on a line of the buffer, within that line. *)
Lemma validatePosition_in_buffer (doc : TextDocument) (p : Position) :
  lines doc <> [] ->
  line (validatePosition doc p) < lineCount doc
  /\ character (validatePosition doc p)
     <= String.length (lineText doc (line (validatePosition doc p))).
Proof.
  intros Hne. unfold validatePosition.
  assert (0 < lineCount doc).
  { unfold lineCount. destruct (lines doc); [congruence | simpl; lia]. }
  destruct (lineCount doc <=? line p) eqn:E; simpl.
  - split; lia.
  - apply Nat.leb_gt in E. split; lia.
Qed.

Lemma getText_split_at (doc : TextDocument) (n : nat) :
  n < lineCount doc ->
  getText doc
  = (joinEach (eol doc) (firstn n (lines doc))
     ++ lineText doc n
     ++ joinAfter (eol doc) (skipn (n + 1) (lines doc)))%string.
Proof.
  intros Hn. unfold getText. rewrite (lines_split_at (lines doc) n) at 1 by exact Hn.
  rewrite join_joinEach by discriminate.
  rewrite join_joinAfter by discriminate. reflexivity.
Qed.

Lemma offsetAt_split (doc : TextDocument) (p : Position) :
  offsetAt doc p
  = String.length
      (joinEach (eol doc) (firstn (line (validatePosition doc p)) (lines doc)))
    + character (validatePosition doc p).
Proof. unfold offsetAt. now rewrite join_snoc_empty. Qed.

(** Inserting at a position splices the text, with its line breaks turned
    into the buffer's, into the buffer text at the offset of that position. *)
Lemma getText_insert (doc : TextDocument) (p : Position) (text : string) :
  lines doc <> [] ->
  getText (applyEdit doc (Insert p text))
  = (JS.take (offsetAt doc p) (getText doc)
     ++ JS.join (eol doc) (splitEOL text)
     ++ JS.drop (offsetAt doc p) (getText doc))%string.
Proof.
  intros Hne.
  destruct (validatePosition_in_buffer doc p Hne) as [Hl Hc].
  rewrite offsetAt_split.
  rewrite (getText_split_at doc _ Hl).
  set (v := validatePosition doc p) in *.
  rewrite take_append_plus, drop_append_plus.
  rewrite take_append_le, drop_append_le by exact Hc.
  unfold applyEdit, replaceRange, getText.
  cbn [validateRange rstart rend lines eol]. fold v.
  rewrite join_joinEach
    by (intros H; apply app_eq_nil in H; destruct H as [H _];
        revert H; apply attachFirst_nonempty).
  rewrite join_joinAfter by apply attachFirst_nonempty.
  rewrite join_attachFirst by apply attachLast_nonempty.
  rewrite join_attachLast by apply splitEOL_nonempty.
  now rewrite !append_assoc.
Qed.

(* ================================================================= *)
(** ** Insertion *)

Lemma single_insert_splices (doc : TextDocument) (p : Position) (block : string) :
  lines doc <> [] -> splicesOneBlock doc [Insert p block].
Proof.
  intros Hne. exists p, block. split; [reflexivity|]. split.
  - cbn [applyEdits fold_left]. now apply getText_insert.
  - apply take_drop.
Qed.

Lemma lineAt_first (doc : TextDocument) :
  lines doc <> [] -> lineAt doc 0 = Ok (lineText doc 0).
Proof.
  unfold lineAt, lineText. destruct (lines doc); [congruence | reflexivity].
Qed.

(** C8. Both in module mode and in non-module mode, for every buffer, body,
    context and profile, [insertDocstring] records exactly one insertion, and
    the text of the buffer after the edit is the text before it with one
    contiguous block put in at the offset of the insertion point: the text
    before that offset and the text after it are kept as they were, in
    order.  The earlier Python-only variant does the same. *)
Theorem insertion_only_adds_text
    (editor : TextEditor) (docstring : string) (context : CodeContext)
    (languageConfig : LanguageConfig)
    (Hlines : lines (document editor) <> []) :
  (exists ops,
      insertDocstring editor docstring context languageConfig = Ok ops
      /\ splicesOneBlock (document editor) ops)
  /\ (exists ops,
        Legacy.insertDocstring editor docstring context = Ok ops
        /\ splicesOneBlock (document editor) ops).
Proof.
  split.
  - unfold insertDocstring. destruct (isModuleLevel context).
    + rewrite lineAt_first by assumption. cbn [bind].
      eexists; split; [reflexivity|]. now apply single_insert_splices.
    + eexists; split; [reflexivity|]. now apply single_insert_splices.
  - unfold Legacy.insertDocstring. destruct (isModuleLevel context).
    + rewrite lineAt_first by assumption. cbn [bind].
      eexists; split; [reflexivity|]. now apply single_insert_splices.
    + eexists; split; [reflexivity|]. now apply single_insert_splices.
Qed.

Lemma insertion_into_function_with_body :
  lines functionWithBody <> []
  /\ exists ops,
       insertDocstring (mkEditor functionWithBody "python" (cursorAt 1 4))
         "Return x."
         (mkCodeContext "def f(x):" false
            (mkRange (mkPosition 0 0) (mkPosition 3 0)) EmptyString 0)
         pythonConfig = Ok ops
       /\ splicesOneBlock functionWithBody ops.
Proof.
  split; [simpl; discriminate|].
  apply (insertion_only_adds_text
           (mkEditor functionWithBody "python" (cursorAt 1 4)) "Return x."
           (mkCodeContext "def f(x):" false
              (mkRange (mkPosition 0 0) (mkPosition 3 0)) EmptyString 0)
           pythonConfig).
  simpl; discriminate.
Defined.

(* ================================================================= *)
(** ** Trimming, searching and the cleanup steps *)

Section SearchFacts.

Local Open Scope string_scope.

Lemma trimStart_idem (s : string) : JS.trimStart (JS.trimStart s) = JS.trimStart s.
Proof.
  induction s as [|c s IH]; [reflexivity|]. simpl.
  destruct (JS.isWhiteSpace c) eqn:E; [exact IH|]. simpl. now rewrite E.
Qed.

Lemma trimEnd_idem (s : string) : JS.trimEnd (JS.trimEnd s) = JS.trimEnd s.
Proof.
  induction s as [|c s IH]; [reflexivity|]. simpl.
  destruct (JS.isWhiteSpace c && JS.isEmpty (JS.trimEnd s)) eqn:E;
    [reflexivity|].
  simpl. rewrite IH, E. reflexivity.
Qed.

Lemma trimStart_clean (s : string) : startsClean (JS.trimStart s).
Proof. apply trimStart_idem. Qed.

Lemma trimEnd_keeps_clean (s : string) :
  startsClean s -> startsClean (JS.trimEnd s).
Proof.
  unfold startsClean. destruct s as [|c s]; [reflexivity|]. simpl.
  destruct (JS.isWhiteSpace c) eqn:E.
  - intros H. exfalso.
    assert (Hlen : String.length (JS.trimStart s) <= String.length s).
    { clear. induction s as [|d s IH]; simpl; [lia|].
      destruct (JS.isWhiteSpace d); simpl; lia. }
    rewrite H in Hlen. simpl in Hlen. lia.
  - intros _. simpl. now rewrite E.
Qed.

Lemma trim_idem (s : string) : JS.trim (JS.trim s) = JS.trim s.
Proof.
  unfold JS.trim.
  rewrite (trimEnd_keeps_clean _ (trimStart_clean s)). apply trimEnd_idem.
Qed.

Lemma startsWith_append (a b s : string) :
  JS.startsWith (a ++ b) s = true -> JS.startsWith a s = true.
Proof.
  revert s; induction a as [|x a IH]; intros s; [reflexivity|]. simpl.
  destruct s as [|y s]; [discriminate|].
  destruct (Ascii.eqb x y); [apply IH | discriminate].
Qed.

Lemma startsWith_decompose (p s : string) :
  JS.startsWith p s = true -> s = p ++ JS.drop (String.length p) s.
Proof.
  revert s; induction p as [|x p IH]; intros s.
  - intros _. reflexivity.
  - simpl. destruct s as [|y s]; [discriminate|].
    destruct (Ascii.eqb_spec x y) as [->|]; [|discriminate].
    simpl. intros H. f_equal. now apply IH.
Qed.

Lemma drop_drop (a b : nat) (s : string) :
  JS.drop a (JS.drop b s) = JS.drop (b + a) s.
Proof.
  revert s; induction b as [|b IH]; intros s; simpl.
  - reflexivity.
  - destruct s as [|c s]; [now destruct a | apply IH].
Qed.

Lemma lastIndexOf_None (p s : string) :
  JS.lastIndexOf p s = None <-> JS.includes p s = false.
Proof.
  induction s as [|c s IH].
  - simpl. destruct (JS.startsWith p ""); simpl; split; congruence.
  - cbn [JS.lastIndexOf JS.includes].
    destruct (JS.lastIndexOf p s) as [i|].
    + destruct (JS.includes p s).
      * rewrite orb_true_r. split; congruence.
      * destruct IH as [_ IH]. specialize (IH eq_refl). discriminate.
    + destruct IH as [IH _]. rewrite (IH eq_refl), orb_false_r.
      destruct (JS.startsWith p (String c s)); split; congruence.
Qed.

Lemma lastIndexOf_bound (p s : string) (i : nat) :
  JS.lastIndexOf p s = Some i -> i <= String.length s.
Proof.
  revert i; induction s as [|c s IH]; intros i.
  - simpl. destruct (JS.startsWith p ""); intros H; inversion H; lia.
  - cbn [JS.lastIndexOf]. destruct (JS.lastIndexOf p s) as [j|].
    + intros H; inversion H; subst. specialize (IH j eq_refl). simpl; lia.
    + destruct (JS.startsWith p (String c s)); intros H; inversion H; simpl; lia.
Qed.

Lemma lastIndexOf_found (p s : string) (i : nat) :
  JS.lastIndexOf p s = Some i -> JS.startsWith p (JS.drop i s) = true.
Proof.
  revert i; induction s as [|c s IH]; intros i.
  - simpl. destruct (JS.startsWith p "") eqn:E; intros H; inversion H.
    exact E.
  - cbn [JS.lastIndexOf]. destruct (JS.lastIndexOf p s) as [j|].
    + intros H; inversion H; subst. simpl. now apply IH.
    + destruct (JS.startsWith p (String c s)) eqn:E; intros H; inversion H.
      exact E.
Qed.

Lemma lastIndexOf_is_last (a : ascii) (p s : string) (i : nat) :
  JS.lastIndexOf (String a p) s = Some i ->
  JS.includes (String a p) (JS.drop (S i) s) = false.
Proof.
  revert i; induction s as [|c s IH]; intros i.
  - simpl. discriminate.
  - cbn [JS.lastIndexOf].
    destruct (JS.lastIndexOf (String a p) s) as [j|] eqn:E.
    + intros H; inversion H; subst. cbn [JS.drop]. now apply IH.
    + destruct (JS.startsWith (String a p) (String c s)); intros H; inversion H.
      cbn [JS.drop]. now apply lastIndexOf_None.
Qed.

Lemma stripFences_without_fence (s : string) :
  JS.includes fence s = false -> stripFences s = s.
Proof.
  unfold stripFences. induction s as [|c s IH]; [reflexivity|].
  cbn [JS.includes]. intros H. apply orb_false_iff in H. destruct H as [Hs Hi].
  cbn [stripFencesFrom andb].
  destruct (JS.startsWith (fence ++ "python") (String c s)) eqn:E1;
    [apply startsWith_append in E1; congruence|].
  destruct (JS.startsWith (fence ++ "powershell") (String c s)) eqn:E2;
    [apply startsWith_append in E2; congruence|].
  rewrite Hs. now rewrite IH.
Qed.

(** Every stage of the cleanup leaves a trimmed string. *)
Lemma cleanDocstring_trimmed (s : string) :
  JS.trim (cleanDocstring s) = cleanDocstring s.
Proof.
  unfold cleanDocstring, truncateAtLastClosing, stripLeadingMarker,
    stripTripleQuotes.
  repeat match goal with
         | |- context [match ?x with _ => _ end] => destruct x
         end; apply trim_idem.
Qed.

(** A trimmed text free of the four patterns is a fixed point. *)
Lemma cleanDocstring_fixed (t : string) :
  JS.trim t = t ->
  JS.includes fence t = false ->
  JS.startsWith tripleQuote t && JS.endsWith tripleQuote t = false ->
  JS.startsWith "<#" t = false ->
  JS.includes "#>" t = false ->
  cleanDocstring t = t.
Proof.
  intros Htrim Hfence Hquote Hopen Hclose.
  unfold cleanDocstring. rewrite stripFences_without_fence by assumption.
  rewrite Htrim. unfold stripTripleQuotes. rewrite Hquote.
  unfold stripLeadingMarker. rewrite Hopen.
  unfold truncateAtLastClosing.
  apply lastIndexOf_None in Hclose. now rewrite Hclose.
Qed.

End SearchFacts.

(* ================================================================= *)
(** ** The fence step leaves no fence *)

Section FenceFacts.

Local Open Scope string_scope.

Lemma fence_starts_with_tick (s : string) :
  JS.startsWith fence s = true -> JS.startsWith "`" s = true.
Proof. apply (startsWith_append "`" "``"). Qed.

Lemma fence_starts_with_two_ticks (s : string) :
  JS.startsWith fence s = true -> JS.startsWith "``" s = true.
Proof. apply (startsWith_append "``" "`"). Qed.

(** The first step of the scan on a non-empty input, outside a match. *)
Lemma stripFences_step (c : ascii) (s : string) :
  (JS.startsWith fence (String c s) = true)
  \/ (JS.startsWith fence (String c s) = false
      /\ stripFences (String c s) = String c (stripFences s)).
Proof.
  destruct (JS.startsWith fence (String c s)) eqn:E; [now left|right].
  split; [reflexivity|]. unfold stripFences. cbn [stripFencesFrom andb].
  destruct (JS.startsWith (fence ++ "python") (String c s)) eqn:E1;
    [apply startsWith_append in E1; congruence|].
  destruct (JS.startsWith (fence ++ "powershell") (String c s)) eqn:E2;
    [apply startsWith_append in E2; congruence|].
  now rewrite E.
Qed.

Lemma stripFences_tick (s : string) :
  JS.startsWith "`" (stripFences s) = true -> JS.startsWith "`" s = true.
Proof.
  destruct s as [|c s]; [discriminate|].
  destruct (stripFences_step c s) as [H|[_ H]].
  - intros _. now apply fence_starts_with_tick.
  - rewrite H. simpl. now destruct (Ascii.eqb "`" c).
Qed.

Lemma stripFences_two_ticks (s : string) :
  JS.startsWith "``" (stripFences s) = true -> JS.startsWith "``" s = true.
Proof.
  destruct s as [|c s]; [discriminate|].
  destruct (stripFences_step c s) as [H|[_ H]].
  - intros _. now apply fence_starts_with_two_ticks.
  - rewrite H. cbn [JS.startsWith]. intros E.
    apply andb_true_iff in E. destruct E as [Ec Es]. rewrite Ec. cbn [andb].
    now apply stripFences_tick.
Qed.

Lemma stripFencesFrom_fence_free (s : string) :
  forall skip thenWs,
    JS.includes fence (stripFencesFrom skip thenWs s) = false.
Proof.
  induction s as [|c s IH]; intros skip thenWs; [reflexivity|].
  cbn [stripFencesFrom]. destruct skip as [|k]; [|apply IH].
  destruct (thenWs && JS.isWhiteSpace c); [apply IH|].
  destruct (JS.startsWith (fence ++ "python") (String c s)); [apply IH|].
  destruct (JS.startsWith (fence ++ "powershell") (String c s)); [apply IH|].
  destruct (JS.startsWith fence (String c s)) eqn:E; [apply IH|].
  cbn [JS.includes]. rewrite IH, orb_false_r.
  destruct (JS.startsWith fence (String c (stripFencesFrom 0 false s))) eqn:F;
    [|reflexivity].
  exfalso. revert E F. unfold fence. cbn [JS.startsWith].
  destruct (Ascii.eqb "`" c); cbn [andb]; [|discriminate].
  intros E F.
  change (JS.startsWith "``" s = false) in E.
  apply (stripFences_two_ticks s) in F. congruence.
Qed.

Lemma stripFences_fence_free (s : string) :
  JS.includes fence (stripFences s) = false.
Proof. apply stripFencesFrom_fence_free. Qed.

(** The text found in a part of a string is found in the string. *)
Lemma startsWith_trimEnd (p s : string) :
  JS.startsWith p (JS.trimEnd s) = true -> JS.startsWith p s = true.
Proof.
  revert p; induction s as [|c s IH]; intros p; [trivial|].
  cbn [JS.trimEnd].
  destruct (JS.isWhiteSpace c && JS.isEmpty (JS.trimEnd s)).
  - destruct p; [reflexivity | discriminate].
  - destruct p as [|a p]; [reflexivity|]. cbn [JS.startsWith].
    intros H. apply andb_true_iff in H. destruct H as [Ha Hp].
    rewrite Ha. cbn [andb]. now apply IH.
Qed.

Lemma startsWith_take (p s : string) (n : nat) :
  JS.startsWith p (JS.take n s) = true -> JS.startsWith p s = true.
Proof.
  revert p n; induction s as [|c s IH]; intros p n.
  - now rewrite (match n return JS.take n "" = "" with 0 => eq_refl | S _ => eq_refl end).
  - destruct n as [|n]; cbn [JS.take].
    + destruct p; [reflexivity | discriminate].
    + destruct p as [|a p]; [reflexivity|]. cbn [JS.startsWith].
      intros H. apply andb_true_iff in H. destruct H as [Ha Hp].
      rewrite Ha. cbn [andb]. now apply IH with (n := n).
Qed.

Section Parts.

Variable a : ascii.
Variable p : string.

Lemma includes_drop (n : nat) (s : string) :
  JS.includes (String a p) s = false ->
  JS.includes (String a p) (JS.drop n s) = false.
Proof.
  revert s; induction n as [|n IH]; intros s H; [exact H|].
  destruct s as [|c s]; [exact H|]. cbn [JS.drop]. apply IH.
  cbn [JS.includes] in H. now apply orb_false_iff in H.
Qed.

Lemma includes_trimStart (s : string) :
  JS.includes (String a p) s = false ->
  JS.includes (String a p) (JS.trimStart s) = false.
Proof.
  induction s as [|c s IH]; [trivial|]. intros H. cbn [JS.trimStart].
  destruct (JS.isWhiteSpace c); [|exact H].
  apply IH. cbn [JS.includes] in H. now apply orb_false_iff in H.
Qed.

Lemma includes_trimEnd (s : string) :
  JS.includes (String a p) s = false ->
  JS.includes (String a p) (JS.trimEnd s) = false.
Proof.
  induction s as [|c s IH]; [trivial|]. intros H.
  cbn [JS.includes] in H. apply orb_false_iff in H. destruct H as [Hs Hi].
  cbn [JS.trimEnd].
  destruct (JS.isWhiteSpace c && JS.isEmpty (JS.trimEnd s)); [reflexivity|].
  cbn [JS.includes]. rewrite (IH Hi), orb_false_r.
  cbn [JS.startsWith] in *. destruct (Ascii.eqb a c); [|reflexivity].
  cbn [andb] in *.
  destruct (JS.startsWith p (JS.trimEnd s)) eqn:E; [|reflexivity].
  apply startsWith_trimEnd in E. congruence.
Qed.

Lemma includes_take (n : nat) (s : string) :
  JS.includes (String a p) s = false ->
  JS.includes (String a p) (JS.take n s) = false.
Proof.
  revert n; induction s as [|c s IH]; intros n H.
  - now destruct n.
  - cbn [JS.includes] in H. apply orb_false_iff in H. destruct H as [Hs Hi].
    destruct n as [|n]; [reflexivity|]. cbn [JS.take JS.includes].
    rewrite (IH n Hi), orb_false_r.
    cbn [JS.startsWith] in *. destruct (Ascii.eqb a c); [|reflexivity].
    cbn [andb] in *.
    destruct (JS.startsWith p (JS.take n s)) eqn:E; [|reflexivity].
    apply startsWith_take in E. congruence.
Qed.

Lemma includes_trim (s : string) :
  JS.includes (String a p) s = false ->
  JS.includes (String a p) (JS.trim s) = false.
Proof. intros H. now apply includes_trimEnd, includes_trimStart. Qed.

Lemma includes_substring (i j : nat) (s : string) :
  JS.includes (String a p) s = false ->
  JS.includes (String a p) (JS.substring i j s) = false.
Proof. intros H. now apply includes_take, includes_drop. Qed.

End Parts.

(** The cleaned text holds no fence, whatever the backend sent. *)
Lemma cleanDocstring_fence_free (s : string) :
  JS.includes fence (cleanDocstring s) = false.
Proof.
  assert (H1 : JS.includes fence (JS.trim (stripFences s)) = false)
    by apply includes_trim, stripFences_fence_free.
  assert (H2 : JS.includes fence
                 (stripTripleQuotes (JS.trim (stripFences s))) = false).
  { unfold stripTripleQuotes.
    destruct (_ && _); [now apply includes_trim, includes_substring | exact H1]. }
  assert (H3 : JS.includes fence
                 (stripLeadingMarker
                    (stripTripleQuotes (JS.trim (stripFences s)))) = false).
  { unfold stripLeadingMarker.
    destruct (JS.startsWith _ _);
      [now apply includes_trim, includes_substring | exact H2]. }
  unfold cleanDocstring, truncateAtLastClosing.
  destruct (JS.lastIndexOf _ _);
    [now apply includes_trim, includes_substring | exact H3].
Qed.

End FenceFacts.

(* ================================================================= *)
(** ** The cleanup transform *)

(** C4, refuted as stated: cleaning twice is not cleaning once.  Only the
    last closing marker is cut off by one pass, so an earlier one survives it
    and is cut off by the next pass. *)
Lemma cleanup_twice_differs :
  cleanDocstring "a #> b #> c" = "a #> b"
  /\ cleanDocstring (cleanDocstring "a #> b #> c") = "a"
  /\ ~ (forall s, cleanDocstring (cleanDocstring s) = cleanDocstring s).
Proof.
  split; [reflexivity|]. split; [reflexivity|].
  intros H. specialize (H "a #> b #> c"). vm_compute in H. discriminate.
Qed.

(** The triple-quote and the open-marker steps behave alike: one outer pair
    of triple quotes and one leading open marker are removed per pass, and
    what a pass leaves can match again. *)
Lemma cleanup_twice_differs_other_steps :
  let quoted := (tripleQuote ++ tripleQuote ++ "a" ++ tripleQuote ++ tripleQuote)%string in
  cleanDocstring (cleanDocstring quoted) <> cleanDocstring quoted
  /\ cleanDocstring (cleanDocstring "<#<# a") <> cleanDocstring "<#<# a".
Proof. repeat split; vm_compute; discriminate. Qed.

(** C4, amended.  For every string [s], when the cleaned text holds no
    closing marker, does not begin with the open marker and is not enclosed
    in triple quotes, cleaning it again gives the same text.  (A cleaned text
    never holds a fence and is always trimmed.) *)
Theorem cleanup_idempotent_on_clean_results (s : string)
    (Hquote : JS.startsWith tripleQuote (cleanDocstring s)
              && JS.endsWith tripleQuote (cleanDocstring s) = false)
    (Hopen : JS.startsWith "<#" (cleanDocstring s) = false)
    (Hclose : JS.includes "#>" (cleanDocstring s) = false) :
  cleanDocstring (cleanDocstring s) = cleanDocstring s.
Proof.
  apply cleanDocstring_fixed; try assumption.
  - apply cleanDocstring_trimmed.
  - apply cleanDocstring_fence_free.
Qed.

Lemma cleanup_idempotent_on_fenced_answer :
  let s := (fence ++ "python" ++ nl ++ tripleQuote ++ "Hello." ++ tripleQuote
            ++ nl ++ fence)%string in
  cleanDocstring s = "Hello."
  /\ cleanDocstring (cleanDocstring s) = cleanDocstring s.
Proof.
  intros s. split; [reflexivity|].
  apply (cleanup_idempotent_on_clean_results s); reflexivity.
Defined.

Lemma stripLeadingMarker_drop (v : string) :
  stripLeadingMarker v
  = if JS.startsWith "<#" v then JS.trim (JS.drop 2 v) else v.
Proof.
  unfold stripLeadingMarker.
  destruct (JS.startsWith "<#" v) eqn:E; [|reflexivity].
  f_equal. unfold JS.substringFrom.
  destruct v as [|a [|b v]]; [discriminate | |].
  - cbn [JS.startsWith] in E. destruct (Ascii.eqb _ a) in E; discriminate E.
  - rewrite substring_ordered by (cbn [String.length]; lia).
    cbn [String.length JS.drop Nat.sub]. rewrite Nat.sub_0_r. apply take_all.
Qed.

(** C10, refuted as stated: a closing marker in the text left by the fence
    and the triple-quote steps need not be cut at.  The open-marker step runs
    before the search for the last closing marker and can consume the [#] of
    that marker.  On the answer [<#> def f(x):] the text left by the first two
    steps holds [#>] at index 1, yet under the Python profile nothing is cut:
    the body that is inserted is [> def f(x):], with all that follows the
    marker kept. *)
Lemma leading_marker_consumes_closing_marker :
  let text := "<#> def f(x):" in
  let v := stripTripleQuotes (JS.trim (stripFences text)) in
  let editor := mkEditor functionWithBody "python" (cursorAt 0 4) in
  JS.includes "#>" v = true
  /\ JS.lastIndexOf "#>" v = Some 1
  /\ cleanDocstring text = "> def f(x):"
  /\ cleanDocstring text <> JS.trim (JS.take 1 v)
  /\ (exists context,
        getCodeToDocument editor pythonConfig = Ok (Some context)
        /\ outcome (answering text) (generateDocstring (Some editor) configured)
           = runInsert editor "> def f(x):" context pythonConfig)
  /\ finalDocument
       (outcome (answering text) (generateDocstring (Some editor) configured))
     = Some (mkDocument
               ["def f(x):"; "    " ++ tripleQuote; "    > def f(x):";
                "    " ++ tripleQuote; EmptyString; "    return x"; EmptyString]%string
               nl)
  /\ ~ (forall answer,
          let w := stripTripleQuotes (JS.trim (stripFences answer)) in
          JS.includes "#>" w = true ->
          exists i, JS.lastIndexOf "#>" w = Some i
                    /\ cleanDocstring answer = JS.trim (JS.take i w)).
Proof.
  cbv zeta. split; [reflexivity|]. split; [reflexivity|].
  split; [reflexivity|]. split; [vm_compute; discriminate|].
  split; [eexists; split; reflexivity|]. split; [reflexivity|].
  intros H. destruct (H "<#> def f(x):" eq_refl) as (i & Hi & Hclean).
  vm_compute in Hi. inversion Hi; subst i. vm_compute in Hclean. discriminate.
Qed.

(** C10, amended.  The cleanup has no profile among its arguments, and the
    handler inserts [cleanDocstring] of the backend's text under every
    registered profile, the Python one included.  Let [v] be the text left by
    the fence and the triple-quote steps, and [u] be [v] itself, or, when [v]
    begins with the open marker [<#], [v] without its first two characters,
    trimmed.  When [u] holds a closing marker [#>], the body that is inserted
    is the trimmed part of [u] before its last closing marker; what follows
    that marker is gone. *)
Theorem cleanup_truncates_under_every_profile
    (editor : TextEditor) (languageConfig : LanguageConfig) (config : Settings)
    (context : CodeContext) (text : string)
    (Hcfg : getLanguageConfig (languageId editor) = Some languageConfig)
    (Hmodel : falsy (model config) = false)
    (Hkey : falsy (apiKey config) = false)
    (Hctx : getCodeToDocument editor languageConfig = Ok (Some context))
    (Hcode : JS.isEmpty (JS.trim (getText (document editor)))
             && isModuleLevel context = false)
    (Hmarker :
       let v := stripTripleQuotes (JS.trim (stripFences text)) in
       JS.includes "#>"
         (if JS.startsWith "<#" v then JS.trim (JS.drop 2 v) else v) = true) :
  let v := stripTripleQuotes (JS.trim (stripFences text)) in
  let u := if JS.startsWith "<#" v then JS.trim (JS.drop 2 v) else v in
  exists i,
    JS.lastIndexOf "#>" u = Some i
    /\ u = (JS.take i u ++ "#>" ++ JS.drop (i + 2) u)%string
    /\ JS.includes "#>" (JS.drop (i + 1) u) = false
    /\ cleanDocstring text = JS.trim (JS.take i u)
    /\ outcome (answering text) (generateDocstring (Some editor) config)
       = runInsert editor (JS.trim (JS.take i u)) context languageConfig.
Proof.
  intros v u. cbv zeta in Hmarker. fold v in Hmarker. fold u in Hmarker.
  assert (Hu : stripLeadingMarker v = u) by apply stripLeadingMarker_drop.
  destruct (JS.lastIndexOf "#>" u) as [i|] eqn:E;
    [|apply lastIndexOf_None in E; congruence].
  exists i. split; [reflexivity|].
  assert (Hclean : cleanDocstring text = JS.trim (JS.take i u)).
  { unfold cleanDocstring. fold v. rewrite Hu.
    unfold truncateAtLastClosing. rewrite E.
    rewrite substring_ordered;
      [| lia | now apply lastIndexOf_bound with (p := "#>")].
    now rewrite Nat.sub_0_r, drop_0. }
  split; [|split; [|split; [exact Hclean|]]].
  - rewrite <- (take_drop i u) at 1. f_equal.
    rewrite (startsWith_decompose _ _ (lastIndexOf_found _ _ _ E)) at 1.
    now rewrite drop_drop.
  - rewrite Nat.add_1_r. now apply lastIndexOf_is_last.
  - unfold generateDocstring. rewrite Hcfg, Hmodel, Hkey, Hctx, Hcode.
    cbn [orb outcome answering callGeminiAPI ok json negb].
    now rewrite Hclean.
Qed.

Lemma cleanup_truncates_python_answer :
  let editor := mkEditor functionWithBody "python" (cursorAt 0 4) in
  let text := "<# Return x. #> def f(x): #> pass" in
  cleanDocstring text = "Return x. #> def f(x):"
  /\ exists context,
       getCodeToDocument editor pythonConfig = Ok (Some context)
       /\ outcome (answering text) (generateDocstring (Some editor) configured)
          = runInsert editor "Return x. #> def f(x):" context pythonConfig.
Proof.
  intros editor text.
  destruct (cleanup_truncates_under_every_profile editor pythonConfig
              configured _ text
              eq_refl eq_refl eq_refl eq_refl eq_refl eq_refl)
    as (i & Hi & _ & _ & Hclean & Hrun).
  vm_compute in Hi. inversion Hi; subst i.
  split; [exact Hclean|]. eexists. split; [reflexivity|]. exact Hrun.
Defined.

(* ================================================================= *)
(** ** The upward walk *)

Section UpwardWalk.

Variable languageConfig : LanguageConfig.
Variable doc : TextDocument.

Let isDef (n : nat) : bool := isDefinitionLine languageConfig (lineText doc n).
Let isBad (n : nat) : bool := isMalformedLine (lineText doc n).
Let passedOver : nat -> nat -> Prop := passedOverIn languageConfig doc.

Lemma lineAt_in_buffer (n : nat) :
  n < lineCount doc -> lineAt doc n = Ok (lineText doc n).
Proof.
  intros Hn. unfold lineAt, lineText.
  destruct (nth_error (lines doc) n) eqn:E.
  - now rewrite (nth_error_nth _ _ _ E).
  - apply nth_error_None in E. unfold lineCount in Hn. lia.
Qed.

Lemma findDefinitionStart_step (n : nat) :
  n < lineCount doc ->
  findDefinitionStart languageConfig doc n
  = if isDef n then Ok (Some n)
    else if isBad n then Err "Could not find a definition."
    else match n with
         | 0 => Ok None
         | S m => findDefinitionStart languageConfig doc m
         end.
Proof.
  intros Hn. destruct n as [|m]; cbn [findDefinitionStart];
    rewrite lineAt_in_buffer by exact Hn; reflexivity.
Qed.

Lemma passedOver_top (j n : nat) :
  j <= n -> passedOver j (S n) ->
  isDef (S n) = false /\ isBad (S n) = false /\ passedOver j n.
Proof.
  intros Hj H. destruct (H (S n)) as [Hd Hb]; [lia | lia |].
  repeat split; try assumption; apply H; lia.
Qed.

(** The walk throws exactly when a malformed line is met before any
    definition line. *)
Lemma walk_throws_iff (n : nat) :
  n < lineCount doc ->
  findDefinitionStart languageConfig doc n = Err "Could not find a definition."
  <-> exists j, j <= n /\ isDef j = false /\ isBad j = true /\ passedOver j n.
Proof.
  induction n as [|n IH]; intros Hn; rewrite findDefinitionStart_step by exact Hn.
  - split.
    + destruct (isDef 0) eqn:Ed; [discriminate|].
      destruct (isBad 0) eqn:Eb; [|discriminate].
      intros _. exists 0. repeat split; try assumption; try lia.
    + intros (j & Hj & Hd & Hb & _). replace j with 0 in * by lia.
      now rewrite Hd, Hb.
  - split.
    + destruct (isDef (S n)) eqn:Ed; [discriminate|].
      destruct (isBad (S n)) eqn:Eb.
      * intros _. exists (S n).
        repeat split; try assumption; try lia.
      * intros H. apply IH in H; [|lia].
        destruct H as (j & Hj & Hd & Hb & Hp). exists j.
        repeat split; try assumption; try lia;
          destruct (Nat.eq_dec i (S n)) as [->|]; try assumption;
          apply Hp; lia.
    + intros (j & Hj & Hd & Hb & Hp).
      destruct (Nat.eq_dec j (S n)) as [->|Hne]; [now rewrite Hd, Hb|].
      destruct (passedOver_top j n) as (Hd' & Hb' & Hp'); [lia | exact Hp |].
      rewrite Hd', Hb'. apply IH; [lia|]. exists j.
      split; [lia|]. split; [exact Hd|]. split; [exact Hb | exact Hp'].
Qed.

(** It stops at line [k] exactly when [k] is the first definition line met
    and nothing malformed came before it. *)
Lemma walk_finds_iff (n k : nat) :
  n < lineCount doc ->
  findDefinitionStart languageConfig doc n = Ok (Some k)
  <-> k <= n /\ isDef k = true /\ passedOver k n.
Proof.
  induction n as [|n IH]; intros Hn; rewrite findDefinitionStart_step by exact Hn.
  - split.
    + destruct (isDef 0) eqn:Ed.
      * intros H; inversion H; subst. repeat split; try assumption; try lia.
      * destruct (isBad 0); discriminate.
    + intros (Hk & Hd & _). replace k with 0 in * by lia. now rewrite Hd.
  - split.
    + destruct (isDef (S n)) eqn:Ed.
      * intros H; inversion H; subst. repeat split; try assumption; try lia.
      * destruct (isBad (S n)) eqn:Eb; [discriminate|].
        intros H. apply IH in H; [|lia]. destruct H as (Hk & Hd & Hp).
        repeat split; try assumption; try lia;
          destruct (Nat.eq_dec i (S n)) as [->|]; try assumption;
          apply Hp; lia.
    + intros (Hk & Hd & Hp).
      destruct (Nat.eq_dec k (S n)) as [->|Hne]; [now rewrite Hd|].
      destruct (passedOver_top k n) as (Hd' & Hb' & Hp'); [lia | exact Hp |].
      rewrite Hd', Hb'. apply IH; [lia|].
      split; [lia|]. split; [exact Hd | exact Hp'].
Qed.

(** It reports that there is no definition exactly when every line from
    the cursor line to line 0 is passed over. *)
Lemma walk_returns_null_iff (n : nat) :
  n < lineCount doc ->
  findDefinitionStart languageConfig doc n = Ok None
  <-> forall i, i <= n -> isDef i = false /\ isBad i = false.
Proof.
  induction n as [|n IH]; intros Hn; rewrite findDefinitionStart_step by exact Hn.
  - split.
    + destruct (isDef 0) eqn:Ed; [discriminate|].
      destruct (isBad 0) eqn:Eb; [discriminate|].
      intros _ i Hi. replace i with 0 by lia. now split.
    + intros H. destruct (H 0) as [Hd Hb]; [lia|]. now rewrite Hd, Hb.
  - split.
    + destruct (isDef (S n)) eqn:Ed; [discriminate|].
      destruct (isBad (S n)) eqn:Eb; [discriminate|].
      intros H i Hi. destruct (IH ltac:(lia)) as [IH1 _].
      specialize (IH1 H).
      destruct (Nat.eq_dec i (S n)) as [->|]; [now split | apply IH1; lia].
    + intros H. destruct (H (S n)) as [Hd Hb]; [lia|]. rewrite Hd, Hb.
      apply IH; [lia|]. intros i Hi. apply H. lia.
Qed.

End UpwardWalk.

(* ================================================================= *)
(** ** Enclosing-definition mode on the registered profiles *)

(** C1, evaluated under the PowerShell profile.  The test of the walk names
    the comma and the colon for every profile.  With the cursor on the line
    that holds only the opening brace of a function, the walk throws although
    that line ends with the PowerShell block-open marker and the line above
    it is a definition line; and a line that ends with a colon is passed over
    although the colon is not a PowerShell continuation token. *)
Theorem powershell_walk_tests_colon_not_brace :
  isDefinitionLine powershellConfig "function Get-Foo" = true
  /\ JS.endsWith "{" "{" = true
  /\ getCodeToDocument (mkEditor braceOnOwnLine "powershell" (cursorAt 1 0))
       powershellConfig
     = Err "Could not find a definition."
  /\ JS.endsWith "{" "label:" = false
  /\ JS.endsWith "," "label:" = false
  /\ isDefinitionLine powershellConfig "label:" = false
  /\ exists context,
       getCodeToDocument (mkEditor colonAfterFunction "powershell" (cursorAt 1 0))
         powershellConfig
       = Ok (Some context)
       /\ definitionLine context = 0.
Proof.
  repeat split; try reflexivity.
  eexists. split; reflexivity.
Qed.

(** Under the Python profile, whose block-open marker is the colon, the walk
    does throw exactly as stated. *)
Lemma python_walk_throws_iff (doc : TextDocument) (n : nat) :
  n < lineCount doc ->
  findDefinitionStart pythonConfig doc n = Err "Could not find a definition."
  <-> exists j,
        j <= n
        /\ isDefinitionLine pythonConfig (lineText doc j) = false
        /\ (JS.endsWith "," (lineText doc j) = false
            /\ JS.endsWith ":" (lineText doc j) = false
            /\ JS.trim (lineText doc j) <> EmptyString)
        /\ passedOverIn pythonConfig doc j n.
Proof.
  intros Hn. rewrite walk_throws_iff by exact Hn.
  assert (Hbad : forall text,
             isMalformedLine text = true
             <-> JS.endsWith "," text = false /\ JS.endsWith ":" text = false
                 /\ JS.trim text <> EmptyString).
  { intros text. unfold isMalformedLine.
    destruct (JS.endsWith "," text), (JS.endsWith ":" text);
      destruct (JS.trim text); cbn; intuition congruence. }
  split; intros (j & Hj & Hd & Hb & Hp); exists j;
    (split; [exact Hj|]; split; [exact Hd|]; split; [|exact Hp]);
    now apply Hbad.
Qed.

(** C2, evaluated.  On the buffer [def f(x):] / [    return x] under the
    Python profile, with the cursor anywhere on line 1 and no selection,
    detection throws: line 1 is not a definition line, is not blank and ends
    with neither a comma nor a colon.  The handler reports the error, sends
    nothing to the backend and leaves the buffer as it was. *)
Theorem cursor_in_body_aborts_detection (c : nat)
    (backend : string -> string -> FetchResult) :
  let editor := mkEditor functionWithBody "python" (cursorAt 1 c) in
  getCodeToDocument editor pythonConfig = Err "Could not find a definition."
  /\ outcome backend (generateDocstring (Some editor) configured)
     = mkFinal (Some functionWithBody)
         (ErrorMessage "Error generating docstring: Could not find a definition.")
  /\ backendCalls backend (generateDocstring (Some editor) configured) = [].
Proof.
  intros editor.
  assert (H : getCodeToDocument editor pythonConfig
              = Err "Could not find a definition.").
  { unfold getCodeToDocument, editor, cursorAt, selectionIsEmpty, positionEqb.
    cbn [selection document anchor active line character].
    rewrite !Nat.eqb_refl. reflexivity. }
  split; [exact H|].
  unfold generateDocstring.
  change (getLanguageConfig (languageId editor)) with (Some pythonConfig).
  cbn [falsy model apiKey configured JS.isEmpty orb]. rewrite H.
  split; reflexivity.
Qed.

(** The earlier variant, whose walk has no such test, detects the function
    from the same cursor line and inserts the docstring between the
    definition line, which stays line 0, and the body line. *)
Lemma legacy_cursor_in_body_detected :
  let editor := mkEditor functionWithBody "python" (cursorAt 1 4) in
  let docstring := (tripleQuote ++ "Return x." ++ tripleQuote)%string in
  exists context ops,
    Legacy.getCodeToDocument editor = Ok (Some context)
    /\ code context = ("def f(x):" ++ nl ++ "    return x" ++ nl)%string
    /\ range context = mkRange (mkPosition 0 0) (mkPosition 3 0)
    /\ definitionLine context = 0
    /\ Legacy.insertDocstring editor docstring context = Ok ops
    /\ ops = [Insert (mkPosition 1 0) ("    " ++ docstring ++ nl)%string]
    /\ lines (applyEdits functionWithBody ops)
       = ["def f(x):"; ("    " ++ docstring)%string; "    return x"; EmptyString].
Proof.
  intros editor docstring. eexists. eexists.
  split; [reflexivity|]. repeat split; reflexivity.
Qed.

(** With the cursor on the definition line itself (not at column 0), the
    current extension detects the same region and inserts the comment block
    at line 1, four columns in, between the definition line and the body
    line, which are kept unchanged. *)
Lemma cursor_on_definition_line_detected :
  let editor := mkEditor functionWithBody "python" (cursorAt 0 4) in
  exists context ops,
    getCodeToDocument editor pythonConfig = Ok (Some context)
    /\ code context = ("def f(x):" ++ nl ++ "    return x" ++ nl)%string
    /\ range context = mkRange (mkPosition 0 0) (mkPosition 3 0)
    /\ definitionLine context = 0
    /\ insertDocstring editor "Return x." context pythonConfig = Ok ops
    /\ lines (applyEdits functionWithBody ops)
       = ["def f(x):";
          ("    " ++ tripleQuote)%string;
          "    Return x.";
          ("    " ++ tripleQuote)%string;
          EmptyString;
          "    return x";
          EmptyString].
Proof.
  intros editor. eexists. eexists.
  split; [reflexivity|]. repeat split; reflexivity.
Qed.

(* ================================================================= *)
(** ** A definition without a body *)

Lemma getText_one_line (doc : TextDocument) (k : nat) :
  k < lineCount doc ->
  getTextInRange doc (mkRange (mkPosition k 0) (mkPosition (k + 1) 0))
  = (lineText doc k
     ++ (if (k + 1 <? lineCount doc)%nat then eol doc else EmptyString))%string.
Proof.
  intros Hk. unfold getTextInRange, validateRange, validatePosition.
  cbn [rstart rend line character].
  destruct (lineCount doc <=? k) eqn:E1; [apply Nat.leb_le in E1; lia|].
  rewrite Nat.min_0_l.
  destruct (k + 1 <? lineCount doc) eqn:E2.
  - apply Nat.ltb_lt in E2.
    destruct (lineCount doc <=? k + 1) eqn:E3; [apply Nat.leb_le in E3; lia|].
    rewrite Nat.min_0_l. unfold positionEqb. cbn [line character].
    replace (k =? k + 1) with false by (symmetry; apply Nat.eqb_neq; lia).
    cbn [andb]. replace (k + 1 - (k + 1)) with 0 by lia.
    cbn [firstn app]. unfold JS.substringFrom.
    rewrite substring_0_all, substring_0_0. cbn [JS.join].
    now rewrite append_nil_r.
  - apply Nat.ltb_ge in E2.
    destruct (lineCount doc <=? k + 1) eqn:E3; [|apply Nat.leb_gt in E3; lia].
    replace (lineCount doc - 1) with k by lia.
    unfold positionEqb. cbn [line character]. rewrite Nat.eqb_refl.
    cbn [andb]. rewrite append_nil_r.
    destruct (lineText doc k) as [|c s] eqn:El; [reflexivity|].
    cbn [String.length Nat.eqb]. rewrite <- El at 1.
    change (S (String.length s)) with (String.length (String c s)).
    rewrite <- El. apply substring_0_all.
Qed.

Lemma findBlockEnd_at_boundary (doc : TextDocument) (k defIndent : nat) :
  match nth_error (lines doc) (k + 1) with
  | None => True
  | Some next =>
      isEmptyOrWhitespace next = false
      /\ firstNonWhitespaceCharacterIndex next <= defIndent
  end ->
  findBlockEnd defIndent (skipn (k + 1) (lines doc)) (k + 1) = k + 1.
Proof.
  generalize (k + 1) as m. intros m.
  generalize (lines doc) as xs. intros xs. revert m.
  induction xs as [|x xs IH]; intros m.
  - destruct m; reflexivity.
  - destruct m as [|m].
    + cbn. intros [Hb Hi]. rewrite Hb. apply Nat.leb_le in Hi. now rewrite Hi.
    + cbn [nth_error skipn]. intros H.
      clear IH. revert H. generalize (S m) as e. revert m.
      induction xs as [|y ys IHy]; intros m e H.
      * destruct m; reflexivity.
      * destruct m as [|m].
        -- cbn in *. destruct H as [Hb Hi]. rewrite Hb.
           apply Nat.leb_le in Hi. now rewrite Hi.
        -- cbn [nth_error skipn] in *. now apply IHy.
Qed.

(** C3, refuted as stated: the detected code of a definition without a body
    is not the empty string.  Followed by a line at its own indentation the
    code is the definition line and its line break; at the end of the buffer
    it is the definition line. *)
Lemma bodyless_definition_code_not_empty :
  (findDefinitionStart pythonConfig bodylessDefinition 0 = Ok (Some 0)
   /\ isEmptyOrWhitespace "x = 1" = false
   /\ firstNonWhitespaceCharacterIndex "x = 1"
      <= firstNonWhitespaceCharacterIndex "def f():"
   /\ exists context,
        getCodeToDocument (mkEditor bodylessDefinition "python" (cursorAt 0 4))
          pythonConfig = Ok (Some context)
        /\ code context = ("def f():" ++ nl)%string
        /\ code context <> EmptyString)
  /\ (findDefinitionStart pythonConfig definitionAtEnd 1 = Ok (Some 1)
      /\ nth_error (lines definitionAtEnd) 2 = None
      /\ exists context,
           getCodeToDocument (mkEditor definitionAtEnd "python" (cursorAt 1 0))
             pythonConfig = Ok (Some context)
           /\ code context = "def f():"
           /\ code context <> EmptyString).
Proof.
  split.
  - split; [reflexivity|]. split; [reflexivity|].
    split; [apply Nat.leb_le; reflexivity|].
    eexists. split; [reflexivity|]. split; [reflexivity | discriminate].
  - split; [reflexivity|]. split; [reflexivity|].
    eexists. split; [reflexivity|]. split; [reflexivity | discriminate].
Qed.

(** C3, amended.  When the upward walk finds a definition line that is
    directly followed by a non-blank line indented no more than it, or by the
    end of the buffer, detection does not throw and returns a context whose
    code is the text of the definition line, followed by the buffer's line
    break when a line follows; the code is not the empty string as soon as
    the profile's pattern does not match the empty line. *)
Theorem bodyless_definition_yields_its_line
    (editor : TextEditor) (languageConfig : LanguageConfig) (k : nat)
    (Hsel : selectionIsEmpty (selection editor) = true)
    (Hcursor : (line (active (selection editor)) =? 0)
               && (character (active (selection editor)) =? 0) = false)
    (Hline : line (active (selection editor)) < lineCount (document editor))
    (Hfound : findDefinitionStart languageConfig (document editor)
                (line (active (selection editor))) = Ok (Some k))
    (Hnext : match nth_error (lines (document editor)) (k + 1) with
             | None => True
             | Some next =>
                 isEmptyOrWhitespace next = false
                 /\ firstNonWhitespaceCharacterIndex next
                    <= firstNonWhitespaceCharacterIndex
                         (lineText (document editor) k)
             end) :
  let doc := document editor in
  exists context,
    getCodeToDocument editor languageConfig = Ok (Some context)
    /\ code context
       = (lineText doc k
          ++ (if (k + 1 <? lineCount doc)%nat then eol doc else EmptyString))%string
    /\ isModuleLevel context = false
    /\ indentation context = leadingWhitespace (lineText doc k)
    /\ definitionLine context = k
    /\ (Regex.test (definitionKeywords languageConfig) EmptyString = false ->
        code context <> EmptyString).
Proof.
  intros doc. subst doc. set (doc := document editor) in *.
  destruct (proj1 (walk_finds_iff languageConfig doc _ k Hline) Hfound)
    as (Hk & Hdef & _).
  assert (Hkl : k < lineCount doc) by lia.
  assert (Hrange : newRange (mkPosition k 0) (mkPosition (k + 1) 0)
                   = mkRange (mkPosition k 0) (mkPosition (k + 1) 0)).
  { unfold newRange, isBefore. cbn [line character].
    replace (k + 1 <? k) with false by (symmetry; apply Nat.ltb_ge; lia).
    replace (k + 1 =? k) with false by (symmetry; apply Nat.eqb_neq; lia).
    reflexivity. }
  eexists. split.
  - unfold getCodeToDocument. fold doc. rewrite Hsel.
    cbn [andb negb]. rewrite Hcursor. rewrite Hfound. cbn [bind].
    rewrite (lineAt_in_buffer doc k Hkl). cbn [bind].
    rewrite (findBlockEnd_at_boundary doc k _ Hnext). rewrite Hrange.
    rewrite (getText_one_line doc k Hkl). reflexivity.
  - cbn [code isModuleLevel indentation definitionLine].
    repeat split. intros Hempty Hcode.
    destruct (lineText doc k) eqn:El; [|discriminate].
    unfold isDefinitionLine in Hdef. congruence.
Qed.

(** No registered profile takes the empty line for a definition line. *)
Lemma registered_patterns_reject_empty_line (languageId : string)
    (languageConfig : LanguageConfig) :
  getLanguageConfig languageId = Some languageConfig ->
  Regex.test (definitionKeywords languageConfig) EmptyString = false.
Proof.
  unfold getLanguageConfig. cbn [map snd LANGUAGE_CONFIGS List.find].
  destruct (arrayIncludes languageId (languageIds pythonConfig));
    [intros H; inversion H; reflexivity|].
  destruct (arrayIncludes languageId (languageIds powershellConfig));
    [intros H; inversion H; reflexivity | discriminate].
Qed.

Lemma bodyless_definition_python :
  exists context,
    getCodeToDocument (mkEditor bodylessDefinition "python" (cursorAt 0 4))
      pythonConfig = Ok (Some context)
    /\ code context = ("def f():" ++ nl)%string.
Proof.
  destruct (bodyless_definition_yields_its_line
              (mkEditor bodylessDefinition "python" (cursorAt 0 4))
              pythonConfig 0)
    as (context & Hget & Hcode & _).
  - reflexivity.
  - reflexivity.
  - apply Nat.ltb_lt; reflexivity.
  - reflexivity.
  - cbn [nth_error lines document bodylessDefinition Nat.add].
    split; [reflexivity | apply Nat.leb_le; reflexivity].
  - exists context. split; [exact Hget | exact Hcode].
Defined.

(* ================================================================= *)
(** ** Selection mode *)

Section RangeText.

Local Open Scope string_scope.

Lemma length_drop (n : nat) (s : string) :
  String.length (JS.drop n s) = String.length s - n.
Proof.
  revert s; induction n as [|n IH]; intros s; simpl; [lia|].
  destruct s as [|c s]; [reflexivity | apply IH].
Qed.

Lemma substring_same (a : nat) (s : string) : JS.substring a a s = "".
Proof.
  unfold JS.substring. rewrite Nat.min_id, Nat.max_id, Nat.sub_diag.
  apply take_0.
Qed.

Lemma substringFrom_drop (n : nat) (s : string) :
  n <= String.length s -> JS.substringFrom n s = JS.drop n s.
Proof.
  intros Hn. unfold JS.substringFrom.
  rewrite substring_ordered by lia.
  rewrite <- length_drop. apply take_all.
Qed.

Lemma firstn_through (xs : list string) (i j : nat) :
  i < j -> j <= List.length xs ->
  firstn j xs
  = (firstn i xs ++ [nth i xs ""] ++ firstn (j - (i + 1)) (skipn (i + 1) xs))%list.
Proof.
  revert i j; induction xs as [|x xs IH]; intros i j Hij Hj; simpl in Hj; [lia|].
  destruct j as [|j]; [lia|]. destruct i as [|i].
  - cbn. now rewrite Nat.sub_0_r.
  - cbn [firstn nth skipn Nat.add app]. f_equal.
    rewrite (IH i j) by lia. reflexivity.
Qed.

Variable doc : TextDocument.
Hypothesis doc_has_lines : lines doc <> [].

(** The text between two positions of one line. *)
Lemma substring_within_line (l cs ce : nat) :
  l < lineCount doc -> cs <= ce -> ce <= String.length (lineText doc l) ->
  JS.substring
    (String.length (joinEach (eol doc) (firstn l (lines doc))) + cs)
    (String.length (joinEach (eol doc) (firstn l (lines doc))) + ce)
    (getText doc)
  = JS.take (ce - cs) (JS.drop cs (lineText doc l)).
Proof.
  intros Hl Hc He. rewrite (getText_split_at doc l Hl).
  rewrite substring_ordered.
  - rewrite drop_append_plus. rewrite drop_append_le by lia.
    replace (String.length (joinEach (eol doc) (firstn l (lines doc))) + ce
             - (String.length (joinEach (eol doc) (firstn l (lines doc))) + cs))
      with (ce - cs) by lia.
    apply take_append_le. rewrite length_drop. lia.
  - lia.
  - rewrite !length_append. lia.
Qed.

(** The text between positions of two different lines. *)
Lemma substring_across_lines (ls le cs ce : nat) :
  ls < le -> le < lineCount doc ->
  cs <= String.length (lineText doc ls) ->
  ce <= String.length (lineText doc le) ->
  JS.substring
    (String.length (joinEach (eol doc) (firstn ls (lines doc))) + cs)
    (String.length (joinEach (eol doc) (firstn le (lines doc))) + ce)
    (getText doc)
  = JS.join (eol doc)
      (JS.drop cs (lineText doc ls)
       :: firstn (le - (ls + 1)) (skipn (ls + 1) (lines doc))
       ++ [JS.take ce (lineText doc le)]).
Proof.
  intros Hlt Hle Hcs Hce.
  set (A := joinEach (eol doc) (firstn ls (lines doc))).
  set (M := firstn (le - (ls + 1)) (skipn (ls + 1) (lines doc))).
  assert (Hfirst : joinEach (eol doc) (firstn le (lines doc))
                   = A ++ lineText doc ls ++ eol doc ++ joinEach (eol doc) M).
  { rewrite (firstn_through (lines doc) ls le) by (unfold lineCount in Hle; lia).
    rewrite !joinEach_app. cbn [joinEach]. fold A M. unfold lineText.
    now rewrite append_nil_r, !append_assoc. }
  rewrite (getText_split_at doc le Hle). rewrite Hfirst.
  set (x := lineText doc ls) in *. set (y := lineText doc le) in *.
  set (B := joinAfter (eol doc) (skipn (le + 1) (lines doc))).
  rewrite join_cons by (destruct M; discriminate).
  rewrite join_joinEach by discriminate. cbn [JS.join].
  rewrite substring_ordered.
  - rewrite !append_assoc. rewrite drop_append_plus.
    rewrite drop_append_le by exact Hcs.
    rewrite !length_append.
    replace (String.length A
             + (String.length x
                + (String.length (eol doc)
                   + String.length (joinEach (eol doc) M))) + ce
             - (String.length A + cs))
      with (String.length (JS.drop cs x ++ eol doc ++ joinEach (eol doc) M) + ce)
      by (rewrite !length_append, length_drop; lia).
    rewrite <- !append_assoc.
    rewrite (append_assoc _ y B).
    rewrite take_append_plus. rewrite take_append_le by exact Hce.
    now rewrite !append_assoc.
  - rewrite !length_append. lia.
  - rewrite !length_append. lia.
Qed.

End RangeText.

Section SelectedText.

Variable doc : TextDocument.
Hypothesis doc_has_lines : lines doc <> [].

Lemma isBefore_false (p q : Position) :
  isBefore q p = false
  <-> line p < line q \/ (line p = line q /\ character p <= character q).
Proof.
  unfold isBefore. rewrite orb_false_iff, andb_false_iff.
  rewrite Nat.ltb_ge, Nat.eqb_neq, Nat.ltb_ge. lia.
Qed.

(** Clamping keeps two positions in order. *)
Lemma validatePosition_monotone (p q : Position) :
  isBefore q p = false ->
  isBefore (validatePosition doc q) (validatePosition doc p) = false.
Proof.
  rewrite !isBefore_false. destruct p as [pl pc], q as [ql qc].
  unfold validatePosition. cbn [line character].
  assert (0 < lineCount doc).
  { unfold lineCount. destruct (lines doc); [congruence | simpl; lia]. }
  destruct (lineCount doc <=? pl) eqn:Ep, (lineCount doc <=? ql) eqn:Eq;
    cbn [line character];
    try apply Nat.leb_le in Ep; try apply Nat.leb_le in Eq;
    try apply Nat.leb_gt in Ep; try apply Nat.leb_gt in Eq.
  - intros _. right. split; lia.
  - lia.
  - intros _. destruct (Nat.eq_dec pl (lineCount doc - 1)) as [->|]; [|lia].
    right. split; lia.
  - intros [Hl|[-> Hc]]; [now left|]. right. split; lia.
Qed.

(** [getText(range)] is the part of the buffer text between the offsets of
    the two ends of the range. *)
Lemma getTextInRange_is_substring (r : Range) :
  isBefore (rend r) (rstart r) = false ->
  getTextInRange doc r
  = JS.substring (offsetAt doc (rstart r)) (offsetAt doc (rend r)) (getText doc).
Proof.
  intros Hord. apply validatePosition_monotone in Hord.
  rewrite !offsetAt_split. unfold getTextInRange, validateRange.
  cbn [rstart rend].
  destruct (validatePosition_in_buffer doc (rstart r) doc_has_lines) as [Hsl Hsc].
  destruct (validatePosition_in_buffer doc (rend r) doc_has_lines) as [Hel Hec].
  destruct (validatePosition doc (rstart r)) as [ls cs].
  destruct (validatePosition doc (rend r)) as [le ce].
  cbn [line character] in *.
  apply isBefore_false in Hord. cbn [line character] in Hord.
  unfold positionEqb. cbn [line character].
  destruct (Nat.eqb_spec ls le) as [->|Hne].
  - assert (Hc : cs <= ce) by lia.
    rewrite (substring_within_line doc le cs ce Hel Hc Hec).
    cbn [andb]. destruct (Nat.eqb_spec cs ce) as [->|Hcne].
    + now rewrite Nat.sub_diag, take_0.
    + now rewrite substring_ordered by lia.
  - cbn [andb].
    rewrite (substring_across_lines doc ls le cs ce) by (try assumption; lia).
    rewrite substringFrom_drop by exact Hsc.
    rewrite substring_ordered by lia. now rewrite Nat.sub_0_r, drop_0.
Qed.

Lemma selection_is_ordered (sel : Selection) :
  isBefore (selectionEnd sel) (selectionStart sel) = false.
Proof.
  unfold selectionEnd, selectionStart.
  destruct (isBefore (active sel) (anchor sel)) eqn:E; [|exact E].
  apply isBefore_false. unfold isBefore in E.
  apply orb_true_iff in E. rewrite andb_true_iff, !Nat.ltb_lt, Nat.eqb_eq in E.
  lia.
Qed.

End SelectedText.

Lemma leadingWhitespace_trimStart (text : string) :
  text = (leadingWhitespace text ++ JS.trimStart text)%string.
Proof.
  induction text as [|c text IH]; [reflexivity|]. simpl.
  destruct (JS.isWhiteSpace c); [simpl; now rewrite <- IH | reflexivity].
Qed.

Lemma trimStart_leadingWhitespace (text : string) :
  JS.trimStart (leadingWhitespace text) = EmptyString.
Proof.
  induction text as [|c text IH]; [reflexivity|]. simpl.
  destruct (JS.isWhiteSpace c) eqn:E; [simpl; now rewrite E | reflexivity].
Qed.

Lemma trimStart_begins_with_text (text : string) (c : ascii) (rest : string) :
  JS.trimStart text = String c rest -> JS.isWhiteSpace c = false.
Proof.
  induction text as [|d text IH]; [discriminate|]. simpl.
  destruct (JS.isWhiteSpace d) eqn:E; [exact IH|].
  intros H; inversion H; subst. exact E.
Qed.

(** C6. With a non-empty selection that starts on a line of the buffer,
    detection returns, for every profile, a context whose code is the part of
    the buffer text between the offsets of the two ends of the selection,
    neither trimmed nor extended nor re-indented; the module flag is not set,
    the indentation is the leading white space of the line on which the
    selection starts, the definition line is that line and the range is the
    selection.  The indentation is that of the whole line, wherever in the
    line the selection starts: the line is the indentation followed by a
    rest, the indentation is white space only, and the rest is the line
    without its leading white space, so it begins with no white space. *)
Theorem selection_mode_returns_selected_text
    (editor : TextEditor) (languageConfig : LanguageConfig)
    (Hsel : selectionIsEmpty (selection editor) = false)
    (Hstart : line (selectionStart (selection editor))
              < lineCount (document editor)) :
  let doc := document editor in
  let sel := selection editor in
  let startLine := lineText doc (line (selectionStart sel)) in
  exists context,
    getCodeToDocument editor languageConfig = Ok (Some context)
    /\ code context
       = JS.substring (offsetAt doc (selectionStart sel))
                      (offsetAt doc (selectionEnd sel)) (getText doc)
    /\ isModuleLevel context = false
    /\ indentation context = leadingWhitespace startLine
    /\ definitionLine context = line (selectionStart sel)
    /\ range context = selectionRange sel
    /\ (exists rest,
          startLine = (indentation context ++ rest)%string
          /\ rest = JS.trimStart startLine
          /\ JS.trimStart (indentation context) = EmptyString
          /\ forall c rest', rest = String c rest' -> JS.isWhiteSpace c = false).
Proof.
  intros doc sel startLine. subst doc sel startLine.
  assert (Hlines : lines (document editor) <> []).
  { unfold lineCount in Hstart. destruct (lines (document editor));
      [simpl in Hstart; lia | discriminate]. }
  eexists. split.
  - unfold getCodeToDocument. rewrite Hsel. cbn [andb negb].
    rewrite (lineAt_in_buffer _ _ Hstart). cbn [bind]. reflexivity.
  - cbn [code isModuleLevel indentation definitionLine range].
    split; [|repeat split].
    + apply (getTextInRange_is_substring _ Hlines
               (selectionRange (selection editor))).
      apply selection_is_ordered.
    + eexists. split; [apply leadingWhitespace_trimStart|].
      split; [reflexivity|]. split; [apply trimStart_leadingWhitespace|].
      intros c rest'. apply trimStart_begins_with_text.
Qed.

Lemma selection_mode_on_function_with_body :
  let editor :=
    mkEditor functionWithBody "python"
      (mkSelection (mkPosition 1 12) (mkPosition 1 6)) in
  exists context,
    getCodeToDocument editor pythonConfig = Ok (Some context)
    /\ code context = "turn x"
    /\ isModuleLevel context = false
    /\ indentation context = "    "
    /\ definitionLine context = 1
    /\ range context = newRange (mkPosition 1 6) (mkPosition 1 12).
Proof.
  intros editor.
  destruct (selection_mode_returns_selected_text editor pythonConfig)
    as (context & Hget & Hcode & Hmod & Hind & Hdef & Hrange & _).
  - reflexivity.
  - apply Nat.ltb_lt; reflexivity.
  - exists context. split; [exact Hget|].
    split; [rewrite Hcode; reflexivity|]. split; [exact Hmod|].
    split; [rewrite Hind; reflexivity|].
    split; [rewrite Hdef; reflexivity|]. rewrite Hrange. reflexivity.
Defined.

(* ================================================================= *)
(** ** What detection returns *)

Lemma lineAt_Ok (doc : TextDocument) (n : nat) (text : string) :
  lineAt doc n = Ok text -> n < lineCount doc /\ text = lineText doc n.
Proof.
  unfold lineAt, lineText, lineCount.
  destruct (nth_error (lines doc) n) as [l|] eqn:E; [|discriminate].
  intros H; inversion H; subst. split.
  - apply nth_error_Some. congruence.
  - symmetry. now apply nth_error_nth.
Qed.

(** X1. Whatever the mode, a context returned by [getCodeToDocument] names
    as definition line a line of the buffer.  The module flag is set exactly
    when the selection is empty and the cursor is at line 0, column 0, and
    then the definition line is 0, the indentation is empty and the code is
    the whole buffer text.  Otherwise the indentation is the leading white
    space of the definition line, character for character: the line is the
    indentation followed by a text that does not begin with white space; and
    the definition line is not below the end of the selection. *)
Theorem detection_context_is_consistent
    (editor : TextEditor) (languageConfig : LanguageConfig)
    (context : CodeContext)
    (Hdetected : getCodeToDocument editor languageConfig = Ok (Some context)) :
  let doc := document editor in
  let sel := selection editor in
  let defLine := lineText doc (definitionLine context) in
  definitionLine context < lineCount doc
  /\ (isModuleLevel context = true
      <-> selectionIsEmpty sel && (line (active sel) =? 0)
          && (character (active sel) =? 0) = true)
  /\ (isModuleLevel context = true ->
      definitionLine context = 0 /\ indentation context = EmptyString
      /\ code context = getText doc)
  /\ (isModuleLevel context = false ->
      defLine = (indentation context ++ JS.trimStart defLine)%string
      /\ indentation context = leadingWhitespace defLine
      /\ definitionLine context <= line (selectionEnd sel)).
Proof.
  intros doc sel defLine. subst defLine sel. revert Hdetected.
  unfold getCodeToDocument. fold doc.
  destruct (selectionIsEmpty (selection editor)) eqn:Esel; cbn [andb negb].
  - destruct ((line (active (selection editor)) =? 0)
              && (character (active (selection editor)) =? 0)) eqn:E00.
    + destruct (lineAt doc (lineCount doc - 1)) as [t|e] eqn:El; [|discriminate].
      cbn [bind]. intros H; inversion H; subst; clear H.
      cbn [definitionLine isModuleLevel indentation code].
      apply lineAt_Ok in El. split; [lia|]. split; [tauto|].
      split; [auto | discriminate].
    + destruct (findDefinitionStart languageConfig doc
                  (line (active (selection editor)))) as [[k|]|e] eqn:Ef;
        cbn [bind]; try discriminate.
      destruct (lineAt doc k) as [t|e] eqn:El; [|discriminate]. cbn [bind].
      intros H; inversion H; subst; clear H.
      cbn [definitionLine isModuleLevel indentation code].
      apply lineAt_Ok in El. destruct El as [Hk ->].
      split; [exact Hk|]. split; [split; discriminate|].
      split; [discriminate|]. intros _.
      split; [apply leadingWhitespace_trimStart|]. split; [reflexivity|].
      assert (Hn : line (active (selection editor)) < lineCount doc).
      { destruct (line (active (selection editor))) as [|n] eqn:En;
          cbn [findDefinitionStart] in Ef.
        - destruct (lineAt doc 0) eqn:E0; [|discriminate].
          now apply lineAt_Ok in E0.
        - destruct (lineAt doc (S n)) eqn:E0; [|discriminate].
          now apply lineAt_Ok in E0. }
      apply (walk_finds_iff languageConfig doc _ k Hn) in Ef.
      destruct Ef as [Hle _].
      unfold selectionIsEmpty, positionEqb in Esel.
      apply andb_true_iff in Esel. destruct Esel as [E1 E2].
      apply Nat.eqb_eq in E1, E2.
      unfold selectionEnd, isBefore.
      rewrite E1, E2, Nat.ltb_irrefl, Nat.ltb_irrefl, andb_false_r. cbn [orb].
      exact Hle.
  - destruct (lineAt doc (line (selectionStart (selection editor))))
      as [t|e] eqn:El; [|discriminate]. cbn [bind].
    intros H; inversion H; subst; clear H.
    cbn [definitionLine isModuleLevel indentation code].
    apply lineAt_Ok in El. destruct El as [Hk ->].
    split; [exact Hk|]. split; [split; discriminate|].
    split; [discriminate|]. intros _.
    split; [apply leadingWhitespace_trimStart|]. split; [reflexivity|].
    pose proof (selection_is_ordered (selection editor)) as Ho.
    apply isBefore_false in Ho. lia.
Qed.

Lemma detection_context_of_selection :
  let editor :=
    mkEditor functionWithBody "python"
      (mkSelection (mkPosition 1 2) (mkPosition 1 10)) in
  exists context,
    getCodeToDocument editor pythonConfig = Ok (Some context)
    /\ definitionLine context < lineCount functionWithBody
    /\ indentation context = "    ".
Proof.
  intros editor. eexists. split; [reflexivity|].
  destruct (detection_context_is_consistent editor pythonConfig _ eq_refl)
    as (Hline & _ & _ & Hrest).
  split; [exact Hline|].
  destruct (Hrest eq_refl) as (_ & Hind & _). rewrite Hind. reflexivity.
Defined.

(* ================================================================= *)
(** ** The command handler *)





(** X9. A run of the command sends at most one request to the backend.  A
    request is sent only for a registered language, with both settings
    present, after detection returned a context, and not for a blank buffer
    in module mode; its prompt is [buildPrompt] of the detected code. *)
Theorem backend_called_at_most_once
    (editor : TextEditor) (config : Settings)
    (backend : string -> string -> FetchResult) :
  let calls := backendCalls backend (generateDocstring (Some editor) config) in
  calls = []
  \/ exists languageConfig context,
       getLanguageConfig (languageId editor) = Some languageConfig
       /\ falsy (model config) = false /\ falsy (apiKey config) = false
       /\ getCodeToDocument editor languageConfig = Ok (Some context)
       /\ JS.isEmpty (JS.trim (getText (document editor)))
          && isModuleLevel context = false
       /\ calls = [buildPrompt (code context) (isModuleLevel context)
                     languageConfig].
Proof.
  intros calls. subst calls. unfold generateDocstring.
  destruct (getLanguageConfig (languageId editor)) as [languageConfig|];
    [|now left].
  destruct (falsy (model config)) eqn:Em; [now left|].
  destruct (falsy (apiKey config)) eqn:Ek; [now left|]. cbn [orb].
  destruct (getCodeToDocument editor languageConfig) as [[context|]|e] eqn:Ed;
    try (now left).
  destruct (JS.isEmpty (JS.trim (getText (document editor)))
            && isModuleLevel context) eqn:Ee; [now left|].
  right. exists languageConfig, context.
  split; [reflexivity|]. split; [reflexivity|]. split; [reflexivity|].
  split; [exact Ed|]. split; [exact Ee|].
  cbn [backendCalls]. destruct (callGeminiAPI _); reflexivity.
Qed.

Lemma registered_language_shows_no_warning
    (editor : TextEditor) (config : Settings) (languageConfig : LanguageConfig)
    (backend : string -> string -> FetchResult) (message : string) :
  getLanguageConfig (languageId editor) = Some languageConfig ->
  notification (outcome backend (generateDocstring (Some editor) config))
  <> WarningMessage message.
Proof.
  intros Hcfg. unfold generateDocstring. rewrite Hcfg.
  destruct (falsy (model config) || falsy (apiKey config)); [discriminate|].
  destruct (getCodeToDocument editor languageConfig) as [[context|]|e];
    try discriminate.
  destruct (_ && _); cbn [outcome].
  - unfold runInsert. destruct (insertDocstring _ _ _ _); discriminate.
  - destruct (callGeminiAPI _); cbn [outcome]; [|discriminate].
    unfold runInsert. destruct (insertDocstring _ _ _ _); discriminate.
Qed.

Lemma getLanguageConfig_by_name (languageId : string) :
  getLanguageConfig languageId
  = if (languageId =? "python")%string then Some pythonConfig
    else if (languageId =? "powershell")%string then Some powershellConfig
         else None.
Proof.
  unfold getLanguageConfig.
  cbn [map snd LANGUAGE_CONFIGS List.find languageIds pythonConfig
       powershellConfig arrayIncludes existsb].
  now rewrite !orb_false_r.
Qed.

(** X10. The command ends with a warning exactly when the language
    identifier of the editor is neither [python] nor [powershell]: the
    comparison is exact, and no other path of the handler shows a warning,
    whatever the backend answers: not the settings check, not a failed
    detection, not a failed request, not a failed or successful insertion.
    For such an identifier the run ends at once with the message that names
    it: the buffer is unchanged and nothing is sent. *)
Theorem unsupported_language_is_refused
    (editor : TextEditor) (config : Settings) :
  let run := generateDocstring (Some editor) config in
  let refusal :=
    mkFinal (Some (document editor))
      (WarningMessage ("Docstring generation is not supported for '"
                       ++ languageId editor ++ "' files.")%string) in
  ((exists backend message,
       notification (outcome backend run) = WarningMessage message)
   <-> languageId editor <> "python" /\ languageId editor <> "powershell")
  /\ (languageId editor <> "python" /\ languageId editor <> "powershell"
      <-> run = Done refusal)
  /\ ((exists message,
         run = Done (mkFinal (Some (document editor)) (WarningMessage message)))
      <-> languageId editor <> "python" /\ languageId editor <> "powershell").
Proof.
  intros run refusal. subst run refusal.
  pose proof (getLanguageConfig_by_name (languageId editor)) as Hcfg.
  pose proof (fun languageConfig =>
                registered_language_shows_no_warning editor config
                  languageConfig (fun _ _ => Rejected EmptyString)) as Hdone.
  destruct (String.eqb_spec (languageId editor) "python") as [Hp|Hp];
    [|destruct (String.eqb_spec (languageId editor) "powershell") as [Hq|Hq]].
  - split; [|split]; split; try (intros [H _]; congruence).
    + intros (backend & message & H).
      now apply (registered_language_shows_no_warning _ _ _ _ _ Hcfg) in H.
    + intros H. exfalso. eapply (Hdone _ _ Hcfg). rewrite H. reflexivity.
    + intros [message H]. exfalso. apply (Hdone _ message Hcfg).
      rewrite H. reflexivity.
  - split; [|split]; split; try (intros [_ H]; congruence).
    + intros (backend & message & H).
      now apply (registered_language_shows_no_warning _ _ _ _ _ Hcfg) in H.
    + intros H. exfalso. eapply (Hdone _ _ Hcfg). rewrite H. reflexivity.
    + intros [message H]. exfalso. apply (Hdone _ message Hcfg).
      rewrite H. reflexivity.
  - assert (Hrun : generateDocstring (Some editor) config
                   = Done (mkFinal (Some (document editor))
                             (WarningMessage
                                ("Docstring generation is not supported for '"
                                 ++ languageId editor ++ "' files.")%string))).
    { unfold generateDocstring. now rewrite Hcfg. }
    split; [|split]; split; intros _; try (now split).
    + exists (fun _ _ => Rejected EmptyString). eexists.
      rewrite Hrun. reflexivity.
    + exact Hrun.
    + eexists. exact Hrun.
Qed.

Lemma capitalised_language_is_refused :
  let editor := mkEditor functionWithBody "Python" (cursorAt 0 4) in
  generateDocstring (Some editor) configured
  = Done (mkFinal (Some functionWithBody)
            (WarningMessage
               "Docstring generation is not supported for 'Python' files.")).
Proof.
  intros editor.
  destruct (unsupported_language_is_refused editor configured)
    as (_ & [Hrun _] & _).
  apply Hrun. split; discriminate.
Defined.

Lemma getText_begins_with_first_line (doc : TextDocument) :
  lines doc <> [] ->
  exists rest, getText doc = (lineText doc 0 ++ rest)%string.
Proof.
  unfold getText, lineText. destruct (lines doc) as [|l0 ls]; [congruence|].
  intros _. exists (joinAfter (eol doc) ls). apply join_one_joinAfter.
Qed.

Lemma directive_line_is_not_blank (l0 rest : string) :
  JS.startsWith "#!" l0 = true -> JS.trim (l0 ++ rest) <> EmptyString.
Proof.
  destruct l0 as [|a l0]; [discriminate|]. cbn [JS.startsWith].
  destruct (Ascii.eqb_spec "#" a) as [<-|]; [|discriminate].
  intros _. unfold JS.trim. cbn. discriminate.
Qed.

(** X11. The short circuit covers every blank buffer, not only the empty
    one: when the buffer text is white space only and the cursor is at
    (0,0) with no selection, nothing is sent to the backend and the
    profile's [emptyCodeResponse] is inserted between the delimiters at
    line 0 (a blank buffer has no interpreter directive). *)
Theorem blank_module_short_circuit
    (editor : TextEditor) (languageConfig : LanguageConfig) (config : Settings)
    (backend : string -> string -> FetchResult)
    (Hcfg : getLanguageConfig (languageId editor) = Some languageConfig)
    (Hmodel : falsy (model config) = false)
    (Hkey : falsy (apiKey config) = false)
    (Hcursor : selection editor = cursorAt 0 0)
    (Hlines : lines (document editor) <> [])
    (Hblank : JS.trim (getText (document editor)) = EmptyString) :
  let run := generateDocstring (Some editor) config in
  let cs := commentStyle languageConfig in
  backendCalls backend run = []
  /\ outcome backend run
     = succeeded
         (applyEdits (document editor)
            [Insert (mkPosition 0 0)
               (csStart cs ++ nl
                ++ emptyCodeResponse (promptSettings languageConfig) ++ nl
                ++ csEnd cs ++ nl ++ nl)%string]).
Proof.
  intros run cs.
  assert (Hrun : run
                 = Done (succeeded
                     (applyEdits (document editor)
                        [Insert (mkPosition 0 0)
                           (csStart cs ++ nl
                            ++ emptyCodeResponse (promptSettings languageConfig)
                            ++ nl ++ csEnd cs ++ nl ++ nl)%string]))).
  { unfold run, generateDocstring. rewrite Hcfg, Hmodel, Hkey. cbn [orb].
    unfold getCodeToDocument. rewrite Hcursor.
    cbn [cursorAt selectionIsEmpty anchor active positionEqb line character
         Nat.eqb andb].
    rewrite lineAt_last by assumption. cbn [bind isModuleLevel].
    rewrite Hblank. cbn [JS.isEmpty andb].
    unfold runInsert, insertDocstring. cbn [isModuleLevel].
    rewrite lineAt_first by assumption. cbn [bind].
    destruct (JS.startsWith "#!" (lineText (document editor) 0)) eqn:E;
      [|reflexivity].
    exfalso. destruct (getText_begins_with_first_line _ Hlines) as [rest Hr].
    rewrite Hr in Hblank. now apply (directive_line_is_not_blank _ rest E). }
  rewrite Hrun. split; reflexivity.
Qed.

Lemma blank_module_short_circuit_on_spaces :
  let editor :=
    mkEditor (mkDocument ["   "; EmptyString] nl) "powershell" (cursorAt 0 0) in
  backendCalls quotaBackend (generateDocstring (Some editor) configured) = [].
Proof.
  intros editor.
  apply (blank_module_short_circuit editor powershellConfig configured
           quotaBackend); try reflexivity.
  simpl; discriminate.
Defined.

(* ================================================================= *)
(** ** What the backend exchange returns *)

Lemma length_trimStart (s : string) :
  String.length (JS.trimStart s) <= String.length s.
Proof.
  induction s as [|c s IH]; simpl; [lia|].
  destruct (JS.isWhiteSpace c); simpl; lia.
Qed.

Lemma length_trimEnd (s : string) :
  String.length (JS.trimEnd s) <= String.length s.
Proof.
  induction s as [|c s IH]; simpl; [lia|].
  destruct (JS.isWhiteSpace c && JS.isEmpty (JS.trimEnd s)); simpl; lia.
Qed.

Lemma length_trim (s : string) :
  String.length (JS.trim s) <= String.length s.
Proof.
  unfold JS.trim. pose proof (length_trimEnd (JS.trimStart s)).
  pose proof (length_trimStart s). lia.
Qed.

Lemma length_take_le (n : nat) (s : string) :
  String.length (JS.take n s) <= String.length s.
Proof.
  revert s; induction n as [|n IH]; intros [|c s]; simpl; try lia.
  specialize (IH s). lia.
Qed.

Lemma length_substring (a b : nat) (s : string) :
  String.length (JS.substring a b s) <= String.length s.
Proof.
  unfold JS.substring.
  pose proof (length_take_le
                (Nat.max (Nat.min a (String.length s)) (Nat.min b (String.length s))
                 - Nat.min (Nat.min a (String.length s)) (Nat.min b (String.length s)))
                (JS.drop (Nat.min (Nat.min a (String.length s))
                                  (Nat.min b (String.length s))) s)) as H.
  rewrite length_drop in H. lia.
Qed.

Lemma length_stripFencesFrom (s : string) :
  forall skip thenWs,
    String.length (stripFencesFrom skip thenWs s) <= String.length s.
Proof.
  induction s as [|c s IH]; intros skip thenWs; [simpl; lia|].
  cbn [stripFencesFrom String.length].
  destruct skip as [|k]; [|specialize (IH k thenWs); lia].
  repeat match goal with
         | |- context [if ?b then _ else _] => destruct b
         end;
    cbn [String.length];
    match goal with
    | |- context [stripFencesFrom ?k ?w s] => specialize (IH k w); lia
    end.
Qed.

Lemma length_cleanDocstring (s : string) :
  String.length (cleanDocstring s) <= String.length s.
Proof.
  assert (H1 : String.length (JS.trim (stripFences s)) <= String.length s).
  { pose proof (length_trim (stripFences s)).
    pose proof (length_stripFencesFrom s 0 false). unfold stripFences in *. lia. }
  set (t1 := JS.trim (stripFences s)) in *.
  assert (H2 : String.length (stripTripleQuotes t1) <= String.length s).
  { unfold stripTripleQuotes. destruct (_ && _); [|exact H1].
    pose proof (length_trim (JS.substring 3 (String.length t1 - 3) t1)).
    pose proof (length_substring 3 (String.length t1 - 3) t1). lia. }
  set (t2 := stripTripleQuotes t1) in *.
  assert (H3 : String.length (stripLeadingMarker t2) <= String.length s).
  { unfold stripLeadingMarker. destruct (JS.startsWith _ _); [|exact H2].
    unfold JS.substringFrom.
    pose proof (length_trim (JS.substring 2 (String.length t2) t2)).
    pose proof (length_substring 2 (String.length t2) t2). lia. }
  set (t3 := stripLeadingMarker t2) in *.
  unfold cleanDocstring. fold t1 t2 t3. unfold truncateAtLastClosing.
  destruct (JS.lastIndexOf _ _) as [i|]; [|exact H3].
  pose proof (length_trim (JS.substring 0 i t3)).
  pose proof (length_substring 0 i t3). lia.
Qed.

(** X12. [callGeminiAPI] returns a docstring only for a resolved request
    with a success status whose body yields a text; the docstring is the
    cleaned text, it has no white space at either end, holds no fence and is
    not longer than the text received. *)
Theorem returned_docstring_is_clean
    (fetched : FetchResult) (docstring : string)
    (Hreturned : callGeminiAPI fetched = Ok docstring) :
  JS.trim docstring = docstring
  /\ JS.includes fence docstring = false
  /\ exists response text,
       fetched = Resolved response
       /\ ok response = true
       /\ json response = JsonCandidates (Some text)
       /\ docstring = cleanDocstring text
       /\ String.length docstring <= String.length text.
Proof.
  revert Hreturned. unfold callGeminiAPI.
  destruct fetched as [e|response]; [discriminate|].
  destruct (ok response) eqn:Eok; cbn [negb]; [|discriminate].
  destruct (json response) as [e|m|[text|]] eqn:Ej; try discriminate.
  intros H; inversion H; subst; clear H.
  split; [apply cleanDocstring_trimmed|].
  split; [apply cleanDocstring_fence_free|].
  exists response, text. repeat split; try assumption.
  apply length_cleanDocstring.
Qed.

Lemma returned_docstring_for_fenced_answer :
  JS.trim "Summary." = "Summary." /\ JS.includes fence "Summary." = false.
Proof.
  pose proof (returned_docstring_is_clean
                (answering (fence ++ "python" ++ nl ++ "Summary." ++ nl ++ fence)%string
                   EmptyString EmptyString)
                "Summary." eq_refl) as (H1 & H2 & _).
  split; [exact H1 | exact H2].
Defined.

(* ================================================================= *)
(** ** The extent of a block *)

Lemma nth_skipn_lines (xs : list string) (m i : nat) :
  nth i (skipn m xs) EmptyString = nth (m + i) xs EmptyString.
Proof.
  revert xs; induction m as [|m IH]; intros xs; [reflexivity|].
  destruct xs as [|x xs]; [now destruct i | apply IH].
Qed.

Lemma skipn_cons_nth (xs : list string) (k : nat) :
  k < List.length xs ->
  skipn k xs = nth k xs EmptyString :: skipn (k + 1) xs.
Proof.
  revert k; induction xs as [|x xs IH]; intros k Hk; simpl in Hk; [lia|].
  destruct k as [|k]; [reflexivity|]. cbn [skipn nth Nat.add]. apply IH. lia.
Qed.

Lemma list_init_last (xs : list string) :
  xs <> [] ->
  xs = firstn (List.length xs - 1) xs
       ++ [nth (List.length xs - 1) xs EmptyString].
Proof.
  induction xs as [|x xs IH]; [congruence|]. intros _.
  destruct xs as [|y ys]; [reflexivity|].
  replace (List.length (x :: y :: ys) - 1)
    with (S (List.length (y :: ys) - 1)) by (simpl; lia).
  cbn [firstn nth app]. f_equal. apply IH. discriminate.
Qed.

(** The scan stops at the first line of [rest] that ends the block, or at
    the end of [rest]. *)
Lemma findBlockEnd_offset (defIndent : nat) (rest : list string) (m : nat) :
  exists j,
    findBlockEnd defIndent rest m = m + j
    /\ j <= List.length rest
    /\ (forall i, i < j -> endsBlock defIndent (nth i rest EmptyString) = false)
    /\ (j < List.length rest ->
        endsBlock defIndent (nth j rest EmptyString) = true).
Proof.
  revert m; induction rest as [|text rest IH]; intros m.
  - exists 0. cbn [List.length]. split; [apply Nat.add_0_r with (n := m) || (cbn; lia)|].
    split; [lia|]. split; intros; lia.
  - cbn [findBlockEnd]. fold (endsBlock defIndent text).
    destruct (endsBlock defIndent text) eqn:E.
    + exists 0. cbn [List.length nth]. split; [lia|]. split; [lia|].
      split; [intros; lia | intros _; exact E].
    + destruct (IH (S m)) as (j & Hj & Hlen & Hbefore & Hat).
      exists (S j). cbn [List.length nth]. split; [lia|]. split; [lia|]. split.
      * intros [|i] Hi; [exact E | apply Hbefore; lia].
      * intros H. apply Hat. lia.
Qed.

Lemma findBlockEnd_extent (doc : TextDocument) (defIndent k : nat) :
  k < lineCount doc ->
  let e := findBlockEnd defIndent (skipn (k + 1) (lines doc)) (k + 1) in
  k < e /\ e <= lineCount doc
  /\ (forall i, k < i -> i < e ->
        endsBlock defIndent (lineText doc i) = false)
  /\ (e < lineCount doc -> endsBlock defIndent (lineText doc e) = true).
Proof.
  intros Hk e.
  destruct (findBlockEnd_offset defIndent (skipn (k + 1) (lines doc)) (k + 1))
    as (j & Hj & Hlen & Hbefore & Hat).
  fold e in Hj. rewrite length_skipn in Hlen, Hat. unfold lineCount in *.
  split; [lia|]. split; [lia|]. split.
  - intros i Hi He. specialize (Hbefore (i - (k + 1))).
    rewrite nth_skipn_lines in Hbefore.
    replace (k + 1 + (i - (k + 1))) with i in Hbefore by lia.
    apply Hbefore. lia.
  - intros He. unfold lineText. rewrite Hj. rewrite <- nth_skipn_lines.
    apply Hat. lia.
Qed.

(** The text of a range of whole lines. *)
Lemma getText_line_range (doc : TextDocument) (k e : nat) :
  k < e -> e <= lineCount doc ->
  getTextInRange doc (mkRange (mkPosition k 0) (mkPosition e 0))
  = if e <? lineCount doc
    then joinEach (eol doc) (firstn (e - k) (skipn k (lines doc)))
    else JS.join (eol doc) (skipn k (lines doc)).
Proof.
  intros Hke He. unfold getTextInRange, validateRange, validatePosition.
  cbn [rstart rend line character].
  destruct (lineCount doc <=? k) eqn:E1; [apply Nat.leb_le in E1; lia|].
  rewrite Nat.min_0_l. unfold positionEqb. cbn [line character].
  assert (Hskip : skipn k (lines doc)
                  = lineText doc k :: skipn (k + 1) (lines doc)).
  { apply skipn_cons_nth. unfold lineCount in *. lia. }
  destruct (e <? lineCount doc) eqn:E2.
  - apply Nat.ltb_lt in E2.
    destruct (lineCount doc <=? e) eqn:E3; [apply Nat.leb_le in E3; lia|].
    rewrite Nat.min_0_l. cbn [line character].
    replace (k =? e) with false by (symmetry; apply Nat.eqb_neq; lia).
    cbn [andb]. unfold JS.substringFrom.
    rewrite substring_0_all, substring_0_0.
    change (lineText doc k
            :: firstn (e - (k + 1)) (skipn (k + 1) (lines doc)) ++ [EmptyString])
      with ((lineText doc k
             :: firstn (e - (k + 1)) (skipn (k + 1) (lines doc)))
            ++ [EmptyString]).
    rewrite join_snoc_empty. rewrite Hskip.
    replace (e - k) with (S (e - (k + 1))) by lia. reflexivity.
  - apply Nat.ltb_ge in E2. assert (e = lineCount doc) by lia. subst e.
    rewrite Nat.leb_refl. cbn [line character].
    set (n := lineCount doc) in *.
    destruct (Nat.eqb_spec k (n - 1)) as [Hk|Hk].
    + cbn [andb]. rewrite <- Hk.
      assert (Hnil : skipn (k + 1) (lines doc) = []).
      { apply skipn_all2. unfold n, lineCount in *. lia. }
      rewrite Hskip, Hnil. cbn [JS.join].
      destruct (lineText doc k) as [|c s] eqn:El; [reflexivity|].
      cbn [String.length Nat.eqb].
      change (S (String.length s)) with (String.length (String c s)).
      apply substring_0_all.
    + cbn [andb]. unfold JS.substringFrom.
      rewrite !substring_0_all. rewrite Hskip. f_equal. f_equal.
      assert (Hne : skipn (k + 1) (lines doc) <> []).
      { intros H. apply (f_equal (@List.length string)) in H.
        rewrite length_skipn in H. unfold n, lineCount in *. simpl in H. lia. }
      pose proof (list_init_last _ Hne) as Hl.
      rewrite length_skipn, nth_skipn_lines in Hl.
      replace (List.length (lines doc) - (k + 1) - 1)
        with (n - 1 - (k + 1)) in Hl by (unfold n, lineCount; lia).
      replace (k + 1 + (n - 1 - (k + 1))) with (n - 1) in Hl by lia.
      symmetry. exact Hl.
Qed.

Lemma newRange_ordered (k e : nat) :
  k < e ->
  newRange (mkPosition k 0) (mkPosition e 0)
  = mkRange (mkPosition k 0) (mkPosition e 0).
Proof.
  intros H. unfold newRange, isBefore. cbn [line character].
  replace (e <? k) with false by (symmetry; apply Nat.ltb_ge; lia).
  replace (e =? k) with false by (symmetry; apply Nat.eqb_neq; lia).
  reflexivity.
Qed.

(** X3. When the upward walk stops at line [k], enclosing-definition mode
    returns the range from (k,0) to (e,0), where [e] is the first line after
    [k] that is not blank and is indented no more than line [k], or the line
    count if there is none: every line strictly between is blank or indented
    deeper.  The code is the lines [k] to [e-1], each followed by the line
    break of the buffer when a line [e] exists, and joined by it when the
    block runs to the end of the buffer. *)
Theorem enclosing_mode_returns_block
    (editor : TextEditor) (languageConfig : LanguageConfig) (k : nat)
    (Hsel : selectionIsEmpty (selection editor) = true)
    (Hcursor : (line (active (selection editor)) =? 0)
               && (character (active (selection editor)) =? 0) = false)
    (Hline : line (active (selection editor)) < lineCount (document editor))
    (Hfound : findDefinitionStart languageConfig (document editor)
                (line (active (selection editor))) = Ok (Some k)) :
  let doc := document editor in
  let defIndent := firstNonWhitespaceCharacterIndex (lineText doc k) in
  exists context e,
    getCodeToDocument editor languageConfig = Ok (Some context)
    /\ range context = mkRange (mkPosition k 0) (mkPosition e 0)
    /\ k < e /\ e <= lineCount doc
    /\ (forall i, k < i -> i < e ->
          isEmptyOrWhitespace (lineText doc i) = true
          \/ defIndent < firstNonWhitespaceCharacterIndex (lineText doc i))
    /\ (e < lineCount doc ->
        isEmptyOrWhitespace (lineText doc e) = false
        /\ firstNonWhitespaceCharacterIndex (lineText doc e) <= defIndent)
    /\ code context
       = if e <? lineCount doc
         then joinEach (eol doc) (firstn (e - k) (skipn k (lines doc)))
         else JS.join (eol doc) (skipn k (lines doc)).
Proof.
  intros doc defIndent.
  destruct (proj1 (walk_finds_iff languageConfig doc _ k Hline) Hfound)
    as (Hk & _ & _).
  assert (Hkl : k < lineCount doc) by (unfold doc; lia).
  destruct (findBlockEnd_extent doc defIndent k Hkl) as (Hke & He & Hin & Hat).
  set (e := findBlockEnd defIndent (skipn (k + 1) (lines doc)) (k + 1)) in *.
  eexists. exists e. split.
  - unfold getCodeToDocument. fold doc. rewrite Hsel. cbn [andb negb].
    rewrite Hcursor. unfold doc at 1. rewrite Hfound. cbn [bind].
    rewrite (lineAt_in_buffer doc k Hkl). cbn [bind].
    fold defIndent. fold e. rewrite (newRange_ordered k e Hke). reflexivity.
  - cbn [range code]. split; [reflexivity|]. split; [exact Hke|].
    split; [exact He|]. split; [|split].
    + intros i Hi Hie. specialize (Hin i Hi Hie). unfold endsBlock in Hin.
      apply andb_false_iff in Hin. destruct Hin as [H|H].
      * left. now apply negb_false_iff in H.
      * right. now apply Nat.leb_gt in H.
    + intros Hlt. specialize (Hat Hlt). unfold endsBlock in Hat.
      apply andb_true_iff in Hat. destruct Hat as [H1 H2].
      split; [now apply negb_true_iff in H1 | now apply Nat.leb_le in H2].
    + now apply getText_line_range.
Qed.

Lemma enclosing_mode_on_function_with_body :
  exists context,
    getCodeToDocument (mkEditor functionWithBody "python" (cursorAt 0 4))
      pythonConfig = Ok (Some context)
    /\ range context = mkRange (mkPosition 0 0) (mkPosition 3 0)
    /\ code context = ("def f(x):" ++ nl ++ "    return x" ++ nl)%string.
Proof.
  destruct (enclosing_mode_returns_block
              (mkEditor functionWithBody "python" (cursorAt 0 4))
              pythonConfig 0)
    as (context & e & Hget & Hrange & _ & _ & _ & _ & Hcode).
  - reflexivity.
  - reflexivity.
  - apply Nat.ltb_lt; reflexivity.
  - reflexivity.
  - exists context. split; [exact Hget|].
    assert (He : e = 3).
    { pose proof Hget as Hval. vm_compute in Hval.
      inversion Hval as [Hctx]. rewrite <- Hctx in Hrange.
      cbn in Hrange. now inversion Hrange. }
    subst e. split; [exact Hrange | exact Hcode].
Defined.

(** X2. With an empty selection and the cursor on a line of the buffer, not
    at (0,0), detection throws exactly when the walk from the cursor line
    towards line 0 meets, before any definition line, a line that is not
    blank and ends with neither a comma nor a colon; it returns null exactly
    when every line from the cursor line to line 0 is blank or ends with a
    comma or a colon and none is a definition line; and it returns a context
    exactly when a definition line is met first.  This holds for every
    profile. *)
Theorem enclosing_mode_outcomes
    (editor : TextEditor) (languageConfig : LanguageConfig)
    (Hsel : selectionIsEmpty (selection editor) = true)
    (Hcursor : (line (active (selection editor)) =? 0)
               && (character (active (selection editor)) =? 0) = false)
    (Hline : line (active (selection editor)) < lineCount (document editor)) :
  let doc := document editor in
  let n := line (active (selection editor)) in
  (getCodeToDocument editor languageConfig = Err "Could not find a definition."
   <-> exists j,
         j <= n
         /\ isDefinitionLine languageConfig (lineText doc j) = false
         /\ isMalformedLine (lineText doc j) = true
         /\ passedOverIn languageConfig doc j n)
  /\ (getCodeToDocument editor languageConfig = Ok None
      <-> forall i, i <= n ->
            isDefinitionLine languageConfig (lineText doc i) = false
            /\ isMalformedLine (lineText doc i) = false)
  /\ ((exists context,
          getCodeToDocument editor languageConfig = Ok (Some context))
      <-> exists k,
            k <= n
            /\ isDefinitionLine languageConfig (lineText doc k) = true
            /\ passedOverIn languageConfig doc k n).
Proof.
  intros doc n.
  assert (Hget : getCodeToDocument editor languageConfig
                 = match findDefinitionStart languageConfig doc n with
                   | Err e => Err e
                   | Ok None => Ok None
                   | Ok (Some k) =>
                       match getCodeToDocument editor languageConfig with
                       | Ok (Some context) => Ok (Some context)
                       | _ => Err EmptyString
                       end
                   end
                 /\ forall k, findDefinitionStart languageConfig doc n
                              = Ok (Some k) ->
                    exists context,
                      getCodeToDocument editor languageConfig
                      = Ok (Some context)).
  { assert (Hsome : forall k, findDefinitionStart languageConfig doc n
                              = Ok (Some k) ->
                    exists context,
                      getCodeToDocument editor languageConfig
                      = Ok (Some context)).
    { intros k Hk.
      destruct (proj1 (walk_finds_iff languageConfig doc n k Hline) Hk)
        as (Hle & _ & _).
      unfold getCodeToDocument. fold doc. rewrite Hsel. cbn [andb negb].
      rewrite Hcursor. fold n. rewrite Hk. cbn [bind].
      rewrite (lineAt_in_buffer doc k) by (unfold doc, n in *; lia).
      cbn [bind]. eexists. reflexivity. }
    split; [|exact Hsome].
    destruct (findDefinitionStart languageConfig doc n) as [[k|]|e] eqn:Ef.
    - destruct (Hsome k eq_refl) as [context ->]. reflexivity.
    - unfold getCodeToDocument. fold doc. rewrite Hsel. cbn [andb negb].
      rewrite Hcursor. fold n. rewrite Ef. reflexivity.
    - unfold getCodeToDocument. fold doc. rewrite Hsel. cbn [andb negb].
      rewrite Hcursor. fold n. rewrite Ef. reflexivity. }
  destruct Hget as [Hget Hsome].
  split; [|split].
  - rewrite <- (walk_throws_iff languageConfig doc n Hline).
    rewrite Hget.
    destruct (findDefinitionStart languageConfig doc n) as [[k|]|e] eqn:Ef.
    + destruct (Hsome k eq_refl) as [context ->]. split; discriminate.
    + split; discriminate.
    + split; intros H; inversion H; reflexivity.
  - rewrite <- (walk_returns_null_iff languageConfig doc n Hline).
    rewrite Hget.
    destruct (findDefinitionStart languageConfig doc n) as [[k|]|e] eqn:Ef.
    + destruct (Hsome k eq_refl) as [context ->]. split; discriminate.
    + split; reflexivity.
    + split; discriminate.
  - split.
    + intros [context Hc]. rewrite Hget in Hc.
      destruct (findDefinitionStart languageConfig doc n) as [[k|]|e] eqn:Ef;
        try discriminate.
      exists k. now apply (walk_finds_iff languageConfig doc n k Hline).
    + intros (k & Hk). apply (walk_finds_iff languageConfig doc n k Hline) in Hk.
      now apply (Hsome k).
Qed.

Lemma enclosing_mode_outcomes_below_body :
  exists j,
    j <= 2
    /\ isDefinitionLine pythonConfig (lineText functionWithBody j) = false
    /\ isMalformedLine (lineText functionWithBody j) = true
    /\ passedOverIn pythonConfig functionWithBody j 2.
Proof.
  destruct (enclosing_mode_outcomes
              (mkEditor functionWithBody "python" (cursorAt 2 0)) pythonConfig)
    as ([Hthrows _] & _ & _).
  - reflexivity.
  - reflexivity.
  - apply Nat.ltb_lt; reflexivity.
  - apply Hthrows. reflexivity.
Defined.

(* ================================================================= *)
(** ** The walk of the earlier variant *)

Lemma legacy_walk_step (doc : TextDocument) (n : nat) :
  n < lineCount doc ->
  Legacy.findDefinitionStart doc n
  = if Regex.test Legacy.definitionPattern (lineText doc n) then Ok (Some n)
    else match n with
         | 0 => Ok None
         | S m => Legacy.findDefinitionStart doc m
         end.
Proof.
  intros Hn. destruct n as [|m]; cbn [Legacy.findDefinitionStart];
    rewrite lineAt_in_buffer by exact Hn; reflexivity.
Qed.

Lemma legacy_walk_result (doc : TextDocument) (n : nat) :
  n < lineCount doc ->
  (exists k,
      Legacy.findDefinitionStart doc n = Ok (Some k)
      /\ k <= n
      /\ Regex.test Legacy.definitionPattern (lineText doc k) = true
      /\ noLegacyDefinition doc k n)
  \/ (Legacy.findDefinitionStart doc n = Ok None
      /\ forall i, i <= n ->
           Regex.test Legacy.definitionPattern (lineText doc i) = false).
Proof.
  induction n as [|n IH]; intros Hn; rewrite legacy_walk_step by exact Hn.
  - destruct (Regex.test _ (lineText doc 0)) eqn:E.
    + left. exists 0. repeat split; try assumption; try lia.
      intros i Hi Hi'. lia.
    + right. split; [reflexivity|]. intros i Hi. now replace i with 0 by lia.
  - destruct (Regex.test _ (lineText doc (S n))) eqn:E.
    + left. exists (S n). repeat split; try assumption; try lia.
      intros i Hi Hi'. lia.
    + destruct IH as [(k & Hf & Hk & Hd & Hno)|[Hf Hall]]; [lia| |].
      * left. exists k. split; [exact Hf|]. split; [lia|]. split; [exact Hd|].
        intros i Hi Hi'. destruct (Nat.eq_dec i (S n)) as [->|]; [exact E|].
        apply Hno; lia.
      * right. split; [exact Hf|]. intros i Hi.
        destruct (Nat.eq_dec i (S n)) as [->|]; [exact E | apply Hall; lia].
Qed.

(** X4. In the earlier variant, enclosing-definition mode never throws for
    a cursor on a line of the buffer: it returns a context whose definition
    line is the nearest line at or above the cursor that matches the
    pattern, whatever lies in between, or null when no such line exists. *)
Theorem legacy_enclosing_mode_finds_nearest_definition
    (editor : TextEditor)
    (Hsel : selectionIsEmpty (selection editor) = true)
    (Hcursor : (line (active (selection editor)) =? 0)
               && (character (active (selection editor)) =? 0) = false)
    (Hline : line (active (selection editor)) < lineCount (document editor)) :
  let doc := document editor in
  let n := line (active (selection editor)) in
  (exists context,
      Legacy.getCodeToDocument editor = Ok (Some context)
      /\ definitionLine context <= n
      /\ Regex.test Legacy.definitionPattern
           (lineText doc (definitionLine context)) = true
      /\ noLegacyDefinition doc (definitionLine context) n)
  \/ (Legacy.getCodeToDocument editor = Ok None
      /\ forall i, i <= n ->
           Regex.test Legacy.definitionPattern (lineText doc i) = false).
Proof.
  intros doc n.
  destruct (legacy_walk_result doc n Hline)
    as [(k & Hf & Hk & Hd & Hno)|[Hf Hall]].
  - left. eexists. split.
    + unfold Legacy.getCodeToDocument. fold doc. rewrite Hsel.
      cbn [andb negb]. rewrite Hcursor. fold n. rewrite Hf. cbn [bind].
      rewrite (lineAt_in_buffer doc k) by (unfold doc, n in *; lia).
      cbn [bind]. reflexivity.
    + cbn [definitionLine]. repeat split; assumption.
  - right. split; [|exact Hall].
    unfold Legacy.getCodeToDocument. fold doc. rewrite Hsel.
    cbn [andb negb]. rewrite Hcursor. fold n. rewrite Hf. reflexivity.
Qed.

Lemma legacy_enclosing_mode_below_body :
  exists context,
    Legacy.getCodeToDocument (mkEditor functionWithBody "python" (cursorAt 2 0))
    = Ok (Some context)
    /\ definitionLine context = 0.
Proof.
  destruct (legacy_enclosing_mode_finds_nearest_definition
              (mkEditor functionWithBody "python" (cursorAt 2 0)))
    as [(context & Hget & _)|[Hnone _]].
  - reflexivity.
  - reflexivity.
  - apply Nat.ltb_lt; reflexivity.
  - exists context. split; [exact Hget|].
    vm_compute in Hget. now inversion Hget.
  - vm_compute in Hnone. discriminate.
Defined.

(* ================================================================= *)
(** ** The end of the signature *)

Lemma findSignatureEnd_offset (marker : string) (rest : list string) (m : nat) :
  rest <> [] ->
  exists j,
    findSignatureEnd marker rest m = m + j
    /\ j < List.length rest
    /\ (forall i, i < j -> JS.includes marker (nth i rest EmptyString) = false)
    /\ (JS.includes marker (nth j rest EmptyString) = true
        \/ j = List.length rest - 1).
Proof.
  revert m; induction rest as [|text rest IH]; [congruence|]. intros m _.
  destruct rest as [|text' rest].
  - exists 0. cbn. split; [lia|]. split; [lia|]. split; [intros; lia | now right].
  - change (findSignatureEnd marker (text :: text' :: rest) m)
      with (if JS.includes marker text then m
            else findSignatureEnd marker (text' :: rest) (S m)).
    destruct (JS.includes marker text) eqn:E.
    + exists 0. cbn [nth List.length]. split; [lia|]. split; [lia|].
      split; [intros; lia | now left].
    + destruct (IH (S m)) as (j & Hj & Hlen & Hbefore & Hat); [discriminate|].
      exists (S j). split; [rewrite Hj; lia|].
      split; [cbn [List.length] in *; lia|]. split.
      * intros [|i] Hi; [exact E|]. cbn [nth]. apply Hbefore. lia.
      * cbn [nth]. destruct Hat as [Hat|Hat]; [now left|].
        right. cbn [List.length] in *. lia.
Qed.

(** X5. Outside module mode, for a profile whose identifiers include
    [python] (marker [:]) or [powershell] (marker [{]), the comment is
    inserted at the start of the line after line [r], where [r] is the first
    line at or below the definition line that contains the marker; when no
    line contains it, [r] is the last line of the buffer. *)
Theorem insertion_follows_signature
    (editor : TextEditor) (docstring marker : string) (context : CodeContext)
    (languageConfig : LanguageConfig)
    (Hmode : isModuleLevel context = false)
    (Hmarker : signatureMarker languageConfig = Some marker)
    (Hdef : definitionLine context < lineCount (document editor)) :
  let doc := document editor in
  exists r block,
    insertDocstring editor docstring context languageConfig
    = Ok [Insert (mkPosition (r + 1) 0) block]
    /\ definitionLine context <= r /\ r < lineCount doc
    /\ (forall i, definitionLine context <= i -> i < r ->
          JS.includes marker (lineText doc i) = false)
    /\ (JS.includes marker (lineText doc r) = true \/ r = lineCount doc - 1).
Proof.
  intros doc. set (d := definitionLine context) in *.
  assert (Hne : skipn d (lines doc) <> []).
  { intros H. apply (f_equal (@List.length string)) in H.
    rewrite length_skipn in H. unfold lineCount, doc in *. simpl in H. lia. }
  destruct (findSignatureEnd_offset marker (skipn d (lines doc)) d Hne)
    as (j & Hj & Hlen & Hbefore & Hat).
  rewrite length_skipn in Hlen, Hat.
  exists (d + j). eexists. split.
  - unfold insertDocstring. rewrite Hmode. fold doc. fold d.
    unfold signatureMarker in Hmarker.
    destruct (arrayIncludes "python" (languageIds languageConfig)).
    + inversion Hmarker; subst marker. rewrite Hj. reflexivity.
    + destruct (arrayIncludes "powershell" (languageIds languageConfig));
        [|discriminate].
      inversion Hmarker; subst marker. rewrite Hj. reflexivity.
  - unfold lineCount in *. fold doc in Hdef. split; [lia|]. split; [lia|]. split.
    + intros i Hi Hir. specialize (Hbefore (i - d)).
      rewrite nth_skipn_lines in Hbefore.
      replace (d + (i - d)) with i in Hbefore by lia. apply Hbefore. lia.
    + unfold lineText. rewrite <- nth_skipn_lines.
      destruct Hat as [Hat|Hat]; [now left | right; lia].
Qed.

Lemma insertion_follows_multi_line_signature :
  exists block,
    insertDocstring (mkEditor multiLineSignature "powershell" (cursorAt 0 4))
      ".SYNOPSIS"
      (mkCodeContext EmptyString false
         (mkRange (mkPosition 0 0) (mkPosition 5 0)) EmptyString 0)
      powershellConfig
    = Ok [Insert (mkPosition 3 0) block].
Proof.
  destruct (insertion_follows_signature
              (mkEditor multiLineSignature "powershell" (cursorAt 0 4))
              ".SYNOPSIS" "{"
              (mkCodeContext EmptyString false
                 (mkRange (mkPosition 0 0) (mkPosition 5 0)) EmptyString 0)
              powershellConfig eq_refl eq_refl)
    as (r & block & Hins & _).
  - apply Nat.ltb_lt; reflexivity.
  - exists block.
    assert (Hline : exists b,
               insertDocstring
                 (mkEditor multiLineSignature "powershell" (cursorAt 0 4))
                 ".SYNOPSIS"
                 (mkCodeContext EmptyString false
                    (mkRange (mkPosition 0 0) (mkPosition 5 0)) EmptyString 0)
                 powershellConfig
               = Ok [Insert (mkPosition 3 0) b])
      by (eexists; reflexivity).
    destruct Hline as [b Hb]. rewrite Hb in Hins.
    inversion Hins as [[Hr Hblock]]. rewrite Hb, Hblock. reflexivity.
Defined.

(* ================================================================= *)
(** ** The lines an insertion adds *)

Section InsertedLines.

Local Open Scope string_scope.

Lemma splitEOL_line (s t : string) :
  noBreak s = true -> splitEOL (s ++ nl ++ t) = s :: splitEOL t.
Proof.
  induction s as [|c s IH]; intros H.
  - cbn [append nl splitEOL]. now rewrite Ascii.eqb_refl.
  - cbn [noBreak] in H. apply andb_true_iff in H. destruct H as [H Hs].
    apply andb_true_iff in H. destruct H as [Hlf Hcr].
    apply negb_true_iff in Hlf, Hcr.
    cbn [append splitEOL]. rewrite Hlf, Hcr. now rewrite (IH Hs).
Qed.

Lemma splitEOL_lines (xs : list string) (t : string) :
  forallb noBreak xs = true ->
  splitEOL (joinEach nl xs ++ t) = (xs ++ splitEOL t)%list.
Proof.
  induction xs as [|x xs IH]; intros H; [reflexivity|].
  cbn [forallb] in H. apply andb_true_iff in H. destruct H as [Hx Hxs].
  cbn [joinEach]. rewrite !append_assoc. rewrite splitEOL_line by exact Hx.
  now rewrite (IH Hxs).
Qed.

Lemma attachLast_snoc (xs : list string) (y post : string) :
  attachLast (xs ++ [y])%list post = (xs ++ [(y ++ post)%string])%list.
Proof.
  induction xs as [|x xs IH]; [reflexivity|].
  destruct xs as [|x' xs]; [reflexivity|].
  change (attachLast ((x :: x' :: xs) ++ [y])%list post)
    with (x :: attachLast ((x' :: xs) ++ [y])%list post).
  now rewrite IH.
Qed.

Lemma joinEach_join (sep : string) (xs : list string) :
  xs <> [] -> joinEach sep xs = JS.join sep xs ++ sep.
Proof.
  intros H. rewrite <- (join_snoc_empty sep xs).
  rewrite join_joinAfter by exact H. cbn [joinAfter].
  now rewrite append_nil_r.
Qed.

(** Inserting whole lines at the start of a line of the buffer puts them
    before that line and leaves every line as it was. *)
Lemma insert_whole_lines (doc : TextDocument) (l : nat) (xs : list string) :
  l < lineCount doc -> forallb noBreak xs = true ->
  lines (applyEdit doc (Insert (mkPosition l 0) (joinEach nl xs)))
  = (firstn l (lines doc) ++ xs ++ skipn l (lines doc))%list.
Proof.
  intros Hl Hxs. unfold applyEdit, replaceRange, validateRange, validatePosition.
  cbn [rstart rend line character lines].
  destruct (lineCount doc <=? l)%nat eqn:E; [apply Nat.leb_le in E; lia|].
  cbn [line character]. rewrite Nat.min_0_l. cbn [JS.take JS.drop].
  rewrite <- (append_nil_r (joinEach nl xs)).
  rewrite splitEOL_lines by exact Hxs. cbn [splitEOL].
  rewrite attachLast_snoc. cbn [append].
  rewrite (skipn_cons_nth (lines doc) l) by exact Hl.
  unfold lineText. f_equal.
  destruct xs as [|x xs]; cbn [attachFirst app append];
    [reflexivity | now rewrite <- app_assoc].
Qed.

(** Inserting at a line past the end of the buffer appends to its text. *)
Lemma insert_past_end (doc : TextDocument) (l : nat) (xs : list string) :
  lines doc <> [] -> lineCount doc <= l -> forallb noBreak xs = true ->
  getText (applyEdit doc (Insert (mkPosition l 0) (joinEach nl xs)))
  = getText doc ++ joinEach (eol doc) xs.
Proof.
  intros Hne Hl Hxs. rewrite getText_insert by exact Hne.
  assert (Hoff : offsetAt doc (mkPosition l 0) = String.length (getText doc)).
  { rewrite offsetAt_split. unfold validatePosition. cbn [line character].
    apply Nat.leb_le in Hl. rewrite Hl. cbn [line character].
    assert (Hlast : lineCount doc - 1 < lineCount doc).
    { unfold lineCount in *. destruct (lines doc); [congruence | simpl; lia]. }
    rewrite (getText_split_at doc _ Hlast).
    rewrite skipn_all2 by (unfold lineCount in *; lia).
    cbn [joinAfter]. now rewrite append_nil_r, length_append. }
  rewrite Hoff, take_all, drop_all, append_nil_r.
  f_equal. rewrite <- (append_nil_r (joinEach nl xs)).
  rewrite splitEOL_lines by exact Hxs. cbn [splitEOL].
  apply join_snoc_empty.
Qed.

Lemma join_cons_char (sep : string) (c : ascii) (h : string) (t : list string) :
  JS.join sep (String c h :: t) = String c (JS.join sep (h :: t)).
Proof. destruct t; reflexivity. Qed.

Lemma splitLines_nonempty (s : string) : JS.splitLines s <> [].
Proof.
  induction s as [|c s IH]; [discriminate|]. cbn [JS.splitLines].
  destruct (Ascii.eqb c JS.LF); [discriminate|].
  destruct (Ascii.eqb c JS.CR && _); [exact IH|].
  destruct (JS.splitLines s); discriminate.
Qed.

(** Without carriage returns, splitting at line breaks and joining again
    gives the text back, and no piece holds a line break. *)
Lemma splitLines_join (s : string) :
  noCR s = true -> JS.join nl (JS.splitLines s) = s.
Proof.
  induction s as [|c s IH]; [reflexivity|]. cbn [noCR]. intros H.
  apply andb_true_iff in H. destruct H as [Hc Hs]. apply negb_true_iff in Hc.
  cbn [JS.splitLines]. rewrite Hc. cbn [andb].
  destruct (Ascii.eqb_spec c JS.LF) as [->|Hlf].
  - rewrite join_cons by apply splitLines_nonempty. now rewrite (IH Hs).
  - destruct (JS.splitLines s) as [|h t] eqn:E;
      [now apply splitLines_nonempty in E|].
    rewrite join_cons_char. now rewrite (IH Hs).
Qed.

Lemma splitLines_noBreak (s : string) :
  noCR s = true -> forallb noBreak (JS.splitLines s) = true.
Proof.
  induction s as [|c s IH]; [reflexivity|]. cbn [noCR]. intros H.
  apply andb_true_iff in H. destruct H as [Hc Hs].
  cbn [JS.splitLines]. rewrite (proj1 (negb_true_iff _) Hc). cbn [andb].
  destruct (Ascii.eqb c JS.LF) eqn:Elf; [cbn; now apply IH|].
  specialize (IH Hs). destruct (JS.splitLines s) as [|h t]; cbn in *.
  - now rewrite Elf, Hc.
  - apply andb_true_iff in IH. destruct IH as [Hh Ht].
    now rewrite Elf, Hc, Hh, Ht.
Qed.

Lemma noBreak_append (a b : string) :
  noBreak (a ++ b) = noBreak a && noBreak b.
Proof.
  induction a as [|c a IH]; [reflexivity|]. cbn [append noBreak].
  rewrite IH. now rewrite !andb_assoc.
Qed.

Lemma registered_delimiters_have_no_break (languageId : string)
    (languageConfig : LanguageConfig) :
  getLanguageConfig languageId = Some languageConfig ->
  noBreak (csStart (commentStyle languageConfig)) = true
  /\ noBreak (csEnd (commentStyle languageConfig)) = true
  /\ noBreak (orEmpty (linePrefix (commentStyle languageConfig))) = true.
Proof.
  unfold getLanguageConfig. cbn [map snd LANGUAGE_CONFIGS List.find].
  destruct (arrayIncludes languageId (languageIds pythonConfig));
    [intros H; inversion H; repeat split; reflexivity|].
  destruct (arrayIncludes languageId (languageIds powershellConfig));
    [intros H; inversion H; repeat split; reflexivity | discriminate].
Qed.

End InsertedLines.

Lemma indentLine_noBreak (bodyIndent commentLinePrefix : string)
    (pieces : list string) :
  noBreak bodyIndent = true -> noBreak commentLinePrefix = true ->
  forallb noBreak pieces = true ->
  forallb noBreak (map (indentLine bodyIndent commentLinePrefix) pieces) = true.
Proof.
  intros Hb Hp. induction pieces as [|x xs IH]; [reflexivity|].
  cbn [forallb map]. intros H. apply andb_true_iff in H. destruct H as [Hx Hxs].
  rewrite (IH Hxs), andb_true_r. unfold indentLine.
  destruct (JS.isEmpty (JS.trim x)); [reflexivity|].
  now rewrite !noBreak_append, Hb, Hp, Hx.
Qed.

(** X6. Outside module mode, for a registered profile, a docstring without
    carriage returns and an indentation without line breaks, the text
    inserted is a sequence of whole lines: the open delimiter, the lines of
    the docstring and the close delimiter, each after the indentation plus
    four spaces (and the profile's line prefix for the docstring lines),
    blank docstring lines as empty lines, then one empty line.  When the
    insertion line is a line of the buffer these lines stand before it and
    every line of the buffer is kept as it was; when it is past the last
    line, the text is appended to the buffer text, so the open delimiter
    follows the last line without a line break. *)
Theorem function_docstring_lines
    (editor : TextEditor) (docstring : string) (context : CodeContext)
    (languageConfig : LanguageConfig)
    (Hcfg : getLanguageConfig (languageId editor) = Some languageConfig)
    (Hmode : isModuleLevel context = false)
    (Hcr : noCR docstring = true)
    (Hind : noBreak (indentation context) = true) :
  let doc := document editor in
  let cs := commentStyle languageConfig in
  let bodyIndent := (indentation context ++ "    ")%string in
  let added :=
    [(bodyIndent ++ csStart cs)%string]
    ++ map (indentLine bodyIndent (orEmpty (linePrefix cs)))
           (JS.splitLines docstring)
    ++ [(bodyIndent ++ csEnd cs)%string; EmptyString] in
  exists l,
    insertDocstring editor docstring context languageConfig
    = Ok [Insert (mkPosition l 0) (joinEach nl added)]
    /\ (l < lineCount doc ->
        lines (applyEdits doc [Insert (mkPosition l 0) (joinEach nl added)])
        = firstn l (lines doc) ++ added ++ skipn l (lines doc))
    /\ (lines doc <> [] -> lineCount doc <= l ->
        getText (applyEdits doc [Insert (mkPosition l 0) (joinEach nl added)])
        = (getText doc ++ joinEach (eol doc) added)%string).
Proof.
  intros doc cs bodyIndent added.
  destruct (registered_delimiters_have_no_break _ _ Hcfg) as (Hs & He & Hp).
  fold cs in Hs, He, Hp.
  assert (Hbi : noBreak bodyIndent = true).
  { unfold bodyIndent. now rewrite noBreak_append, Hind. }
  assert (Hadded : forallb noBreak added = true).
  { unfold added. rewrite !forallb_app. cbn [forallb].
    rewrite !noBreak_append, Hbi, Hs, He.
    rewrite indentLine_noBreak; try assumption; [reflexivity|].
    now apply splitLines_noBreak. }
  eexists. split; [|split].
  - unfold insertDocstring. rewrite Hmode. fold doc cs bodyIndent.
    f_equal. f_equal. f_equal.
    unfold added. cbn [app joinEach]. rewrite joinEach_app.
    rewrite joinEach_join
      by (intros H; apply map_eq_nil in H; revert H; apply splitLines_nonempty).
    cbn [joinEach]. unfold indentLine.
    rewrite !append_assoc. reflexivity.
  - intros Hl. cbn [applyEdits fold_left]. now apply insert_whole_lines.
  - intros Hne Hl. cbn [applyEdits fold_left]. now apply insert_past_end.
Qed.

Lemma function_docstring_lines_example :
  lines (applyEdits functionWithBody
           [Insert (mkPosition 1 0)
              (joinEach nl
                 [("    " ++ tripleQuote)%string; "    Return x."; EmptyString;
                  "    Args:"; ("    " ++ tripleQuote)%string; EmptyString])])
  = ["def f(x):";
     ("    " ++ tripleQuote)%string; "    Return x."; EmptyString;
     "    Args:"; ("    " ++ tripleQuote)%string; EmptyString;
     "    return x"; EmptyString].
Proof.
  destruct (function_docstring_lines
              (mkEditor functionWithBody "python" (cursorAt 0 4))
              ("Return x." ++ nl ++ "  " ++ nl ++ "Args:")%string
              (mkCodeContext EmptyString false
                 (mkRange (mkPosition 0 0) (mkPosition 3 0)) EmptyString 0)
              pythonConfig eq_refl eq_refl eq_refl eq_refl)
    as (l & Hins & Hlines & _).
  assert (Hl : l = 1).
  { pose proof Hins as Hval. vm_compute in Hval. now inversion Hval. }
  subst l. apply Hlines. apply Nat.ltb_lt. reflexivity.
Defined.

(** X7. In module mode, for a registered profile and a docstring without
    carriage returns, the lines added are the open delimiter, the lines of
    the docstring, the close delimiter and one empty line, without
    indentation.  They stand at the top of the buffer, or after line 0 when
    line 0 begins with [#!]; when the buffer is that single line, the text
    is appended to it. *)
Theorem module_docstring_lines
    (editor : TextEditor) (docstring : string) (context : CodeContext)
    (languageConfig : LanguageConfig)
    (Hcfg : getLanguageConfig (languageId editor) = Some languageConfig)
    (Hmode : isModuleLevel context = true)
    (Hcr : noCR docstring = true)
    (Hlines : lines (document editor) <> []) :
  let doc := document editor in
  let cs := commentStyle languageConfig in
  let added :=
    [csStart cs] ++ JS.splitLines docstring ++ [csEnd cs; EmptyString] in
  let l := if JS.startsWith "#!" (lineText doc 0) then 1 else 0 in
  insertDocstring editor docstring context languageConfig
  = Ok [Insert (mkPosition l 0) (joinEach nl added)]
  /\ (l < lineCount doc ->
      lines (applyEdits doc [Insert (mkPosition l 0) (joinEach nl added)])
      = firstn l (lines doc) ++ added ++ skipn l (lines doc))
  /\ (lineCount doc <= l ->
      getText (applyEdits doc [Insert (mkPosition l 0) (joinEach nl added)])
      = (getText doc ++ joinEach (eol doc) added)%string).
Proof.
  intros doc cs added l.
  destruct (registered_delimiters_have_no_break _ _ Hcfg) as (Hs & He & _).
  fold cs in Hs, He.
  assert (Hadded : forallb noBreak added = true).
  { unfold added. rewrite !forallb_app. cbn [forallb].
    now rewrite Hs, He, splitLines_noBreak. }
  split; [|split].
  - unfold insertDocstring. rewrite Hmode. fold doc cs.
    rewrite lineAt_first by assumption. cbn [bind]. fold l.
    f_equal. f_equal. f_equal.
    unfold added. cbn [app joinEach]. rewrite joinEach_app.
    rewrite joinEach_join by apply splitLines_nonempty.
    rewrite splitLines_join by exact Hcr.
    cbn [joinEach]. rewrite !append_assoc. reflexivity.
  - intros Hl. cbn [applyEdits fold_left]. now apply insert_whole_lines.
  - intros Hl. cbn [applyEdits fold_left]. now apply insert_past_end.
Qed.

Lemma module_docstring_after_directive :
  lines (applyEdits
           (mkDocument ["#!/usr/bin/env python"; "import os"] nl)
           [Insert (mkPosition 1 0)
              (joinEach nl [tripleQuote; "Tools."; tripleQuote; EmptyString])])
  = ["#!/usr/bin/env python"; tripleQuote; "Tools."; tripleQuote; EmptyString;
     "import os"].
Proof.
  destruct (module_docstring_lines
              (mkEditor (mkDocument ["#!/usr/bin/env python"; "import os"] nl)
                 "python" (cursorAt 0 0))
              "Tools."
              (mkCodeContext EmptyString true
                 (mkRange (mkPosition 0 0) (mkPosition 1 9)) EmptyString 0)
              pythonConfig eq_refl eq_refl eq_refl)
    as (_ & Hlines & _).
  - simpl; discriminate.
  - apply Hlines. apply Nat.ltb_lt. reflexivity.
Defined.

(* ================================================================= *)
(** ** The cleanup of the earlier variant *)

Section LegacyCleanup.

Local Open Scope string_scope.

Lemma legacy_stripFences_without_fence (s : string) :
  JS.includes fence s = false -> Legacy.stripFences s = s.
Proof.
  unfold Legacy.stripFences. induction s as [|c s IH]; [reflexivity|].
  cbn [JS.includes]. intros H. apply orb_false_iff in H. destruct H as [Hs Hi].
  cbn [Legacy.stripFencesFrom andb].
  destruct (JS.startsWith (fence ++ "python") (String c s)) eqn:E1;
    [apply startsWith_append in E1; congruence|].
  rewrite Hs. now rewrite IH.
Qed.

Lemma legacy_stripFences_step (c : ascii) (s : string) :
  (JS.startsWith fence (String c s) = true)
  \/ (JS.startsWith fence (String c s) = false
      /\ Legacy.stripFences (String c s) = String c (Legacy.stripFences s)).
Proof.
  destruct (JS.startsWith fence (String c s)) eqn:E; [now left|right].
  split; [reflexivity|]. unfold Legacy.stripFences.
  cbn [Legacy.stripFencesFrom andb].
  destruct (JS.startsWith (fence ++ "python") (String c s)) eqn:E1;
    [apply startsWith_append in E1; congruence|].
  now rewrite E.
Qed.

Lemma legacy_stripFences_tick (s : string) :
  JS.startsWith "`" (Legacy.stripFences s) = true -> JS.startsWith "`" s = true.
Proof.
  destruct s as [|c s]; [discriminate|].
  destruct (legacy_stripFences_step c s) as [H|[_ H]].
  - intros _. now apply fence_starts_with_tick.
  - rewrite H. simpl. now destruct (Ascii.eqb "`" c).
Qed.

Lemma legacy_stripFences_two_ticks (s : string) :
  JS.startsWith "``" (Legacy.stripFences s) = true ->
  JS.startsWith "``" s = true.
Proof.
  destruct s as [|c s]; [discriminate|].
  destruct (legacy_stripFences_step c s) as [H|[_ H]].
  - intros _. now apply fence_starts_with_two_ticks.
  - rewrite H. cbn [JS.startsWith]. intros E.
    apply andb_true_iff in E. destruct E as [Ec Es]. rewrite Ec. cbn [andb].
    now apply legacy_stripFences_tick.
Qed.

Lemma legacy_stripFencesFrom_fence_free (s : string) :
  forall skip thenWs,
    JS.includes fence (Legacy.stripFencesFrom skip thenWs s) = false.
Proof.
  induction s as [|c s IH]; intros skip thenWs; [reflexivity|].
  cbn [Legacy.stripFencesFrom]. destruct skip as [|k]; [|apply IH].
  destruct (thenWs && JS.isWhiteSpace c); [apply IH|].
  destruct (JS.startsWith (fence ++ "python") (String c s)); [apply IH|].
  destruct (JS.startsWith fence (String c s)) eqn:E; [apply IH|].
  cbn [JS.includes]. rewrite IH, orb_false_r.
  destruct (JS.startsWith fence
              (String c (Legacy.stripFencesFrom 0 false s))) eqn:F;
    [|reflexivity].
  exfalso. revert E F. unfold fence. cbn [JS.startsWith].
  destruct (Ascii.eqb "`" c); cbn [andb]; [|discriminate].
  intros E F.
  change (JS.startsWith "``" s = false) in E.
  apply (legacy_stripFences_two_ticks s) in F. congruence.
Qed.

Lemma length_legacy_stripFencesFrom (s : string) :
  forall skip thenWs,
    String.length (Legacy.stripFencesFrom skip thenWs s) <= String.length s.
Proof.
  induction s as [|c s IH]; intros skip thenWs; [simpl; lia|].
  cbn [Legacy.stripFencesFrom String.length].
  destruct skip as [|k]; [|specialize (IH k thenWs); lia].
  repeat match goal with
         | |- context [if ?b then _ else _] => destruct b
         end;
    cbn [String.length];
    match goal with
    | |- context [Legacy.stripFencesFrom ?k ?w s] => specialize (IH k w); lia
    end.
Qed.

(** X17. The cleanup of the earlier variant (fences, with an optional
    [python] tag, removed; then trimmed) is idempotent; its result holds no
    fence, is trimmed and is not longer than its input. *)
Theorem legacy_cleanup_is_idempotent (s : string) :
  Legacy.cleanDocstring (Legacy.cleanDocstring s) = Legacy.cleanDocstring s
  /\ JS.includes fence (Legacy.cleanDocstring s) = false
  /\ JS.trim (Legacy.cleanDocstring s) = Legacy.cleanDocstring s
  /\ String.length (Legacy.cleanDocstring s) <= String.length s.
Proof.
  assert (Hfree : JS.includes fence (Legacy.cleanDocstring s) = false).
  { unfold Legacy.cleanDocstring. apply includes_trim.
    apply legacy_stripFencesFrom_fence_free. }
  split; [|split; [exact Hfree|split]].
  - unfold Legacy.cleanDocstring at 1.
    rewrite legacy_stripFences_without_fence by exact Hfree.
    unfold Legacy.cleanDocstring. apply trim_idem.
  - unfold Legacy.cleanDocstring. apply trim_idem.
  - unfold Legacy.cleanDocstring, Legacy.stripFences.
    pose proof (length_trim (Legacy.stripFencesFrom 0 false s)).
    pose proof (length_legacy_stripFencesFrom s 0 false). lia.
Qed.

End LegacyCleanup.

(* ================================================================= *)
(** ** The command handler of the earlier variant *)




(* ================================================================= *)
(** ** The prompt *)

Section PromptFacts.

Local Open Scope string_scope.

Lemma append_cancel_l (a b c : string) : a ++ b = a ++ c -> b = c.
Proof.
  induction a as [|x a IH]; [trivial|]. cbn [append]. intros H.
  inversion H. now apply IH.
Qed.

Lemma append_cancel_r (a b c : string) : a ++ c = b ++ c -> a = b.
Proof.
  revert b; induction a as [|x a IH]; intros b H.
  - destruct b as [|y b]; [reflexivity|]. exfalso.
    apply (f_equal String.length) in H. cbn [append String.length] in H.
    rewrite length_append in H. lia.
  - destruct b as [|y b].
    + exfalso. apply (f_equal String.length) in H.
      cbn [append String.length] in H. rewrite length_append in H. lia.
    + cbn [append] in H. inversion H. f_equal. now apply IH.
Qed.

(** X16. The prompt is a header, the code unchanged, and a footer; header
    and footer depend on the module flag and the profile only, so two codes
    give the same prompt only if they are equal.  The footer holds the
    fallback rule with the profile's [emptyCodeResponse] between single
    quotes. *)
Theorem prompt_embeds_code_verbatim
    (isModuleLevel : bool) (languageConfig : LanguageConfig) :
  exists header footer,
    (forall code,
        buildPrompt code isModuleLevel languageConfig
        = header ++ code ++ footer)
    /\ (forall code1 code2,
           buildPrompt code1 isModuleLevel languageConfig
           = buildPrompt code2 isModuleLevel languageConfig ->
           code1 = code2)
    /\ exists before after,
         footer
         = before ++ "MUST be '"
           ++ emptyCodeResponse (promptSettings languageConfig) ++ "'."
           ++ after.
Proof.
  eexists. eexists.
  assert (Hshape : forall code,
             buildPrompt code isModuleLevel languageConfig
             = ("Write a " ++ nthOrUndefined (languageIds languageConfig) 0
                ++ " docstring for the following "
                ++ (if isModuleLevel then "module"
                    else subject (promptSettings languageConfig))
                ++ "." ++ nl
                ++ "- Use " ++ style (promptSettings languageConfig) ++ "." ++ nl
                ++ JS.join nl
                     (map (fun rule => "- " ++ rule)
                          (rules (promptSettings languageConfig)))
                ++ nl ++ nl
                ++ (if isModuleLevel then "Module" else "Function/class")
                ++ " code:" ++ nl)
               ++ code
               ++ (nl ++ nl
                   ++ "- If there is no code provided above, the docstring content "
                   ++ "MUST be '"
                   ++ emptyCodeResponse (promptSettings languageConfig) ++ "'."
                   ++ nl ++ nl
                   ++ "Output only the docstring content, not including the comment markers. CRITICALLY IMPORTANT: Do NOT repeat the original code in your response.")).
  { intros code. unfold buildPrompt. rewrite !append_assoc. reflexivity. }
  split; [exact Hshape|]. split.
  - intros code1 code2 H. rewrite !Hshape in H.
    apply append_cancel_l in H. now apply append_cancel_r in H.
  - exists (nl ++ nl
             ++ "- If there is no code provided above, the docstring content ").
    exists (nl ++ nl
            ++ "Output only the docstring content, not including the comment markers. CRITICALLY IMPORTANT: Do NOT repeat the original code in your response.").
    rewrite !append_assoc. reflexivity.
Qed.

End PromptFacts.

(* ================================================================= *)
(** ** Unwrapping a fenced answer *)

Section FencedAnswer.

Local Open Scope string_scope.

Lemma stripFences_after_tag (c : ascii) (s : string) :
  JS.isWhiteSpace c = false ->
  stripFencesFrom 0 true (String c s) = stripFencesFrom 0 false (String c s).
Proof.
  intros H. cbn [stripFencesFrom]. rewrite H. reflexivity.
Qed.

(** A text without fence, before a text that does not begin with a
    backtick, passes the fence step unchanged. *)
Lemma stripFences_prefix (b rest : string) :
  JS.includes fence b = false ->
  JS.startsWith "`" rest = false ->
  stripFencesFrom 0 false (b ++ rest) = b ++ stripFencesFrom 0 false rest.
Proof.
  intros Hb Hrest. induction b as [|c b IH]; [reflexivity|].
  cbn [JS.includes] in Hb. apply orb_false_iff in Hb. destruct Hb as [Hs Hi].
  assert (Hfence : JS.startsWith fence (String c b ++ rest) = false).
  { destruct (JS.startsWith fence (String c b ++ rest)) eqn:E; [|reflexivity].
    exfalso. revert Hs E Hrest. unfold fence. clear.
    destruct b as [|c1 [|c2 b]]; cbn [append JS.startsWith];
      destruct rest as [|r0 rest]; cbn [JS.startsWith];
      repeat match goal with
             | |- context [Ascii.eqb ?x ?y] => destruct (Ascii.eqb x y)
             end; cbn [andb]; try congruence;
      destruct rest; cbn; try congruence;
      repeat match goal with
             | |- context [Ascii.eqb ?x ?y] => destruct (Ascii.eqb x y)
             end; cbn [andb]; congruence. }
  cbn [append stripFencesFrom andb].
  change (String c (b ++ rest)) with (String c b ++ rest).
  destruct (JS.startsWith (fence ++ "python") (String c b ++ rest)) eqn:E1;
    [apply startsWith_append in E1; congruence|].
  destruct (JS.startsWith (fence ++ "powershell") (String c b ++ rest)) eqn:E2;
    [apply startsWith_append in E2; congruence|].
  rewrite Hfence. now rewrite (IH Hi).
Qed.

Lemma trimEnd_line_break (b : string) :
  JS.trimEnd (b ++ nl) = JS.trimEnd b.
Proof.
  induction b as [|c b IH]; [reflexivity|].
  cbn [append JS.trimEnd]. now rewrite IH.
Qed.

Lemma trimmed_starts_clean (c : ascii) (b : string) :
  JS.trim (String c b) = String c b -> JS.isWhiteSpace c = false.
Proof.
  intros H. destruct (JS.isWhiteSpace c) eqn:E; [|reflexivity]. exfalso.
  unfold JS.trim in H. cbn [JS.trimStart] in H. rewrite E in H.
  pose proof (length_trimEnd (JS.trimStart b)) as H1.
  pose proof (length_trimStart b) as H3.
  rewrite H in H1. cbn [String.length] in H1. lia.
Qed.

Lemma trim_line_break (b : string) :
  JS.trim b = b -> JS.trim (b ++ nl) = b.
Proof.
  intros Hb. destruct b as [|c b]; [reflexivity|].
  pose proof (trimmed_starts_clean c b Hb) as E.
  unfold JS.trim in *. cbn [append JS.trimStart] in *. rewrite E in *.
  change (String c (b ++ nl)) with (String c b ++ nl).
  now rewrite trimEnd_line_break.
Qed.

(** X13. An answer wrapped in a fence pair, with the tag [python] or
    [powershell] or without tag, and with the body on lines of its own, is
    cleaned to its body, for every body that is trimmed and is itself left
    alone by the cleanup steps. *)
Theorem fenced_answer_is_unwrapped (tag b : string)
    (Htag : tag = "" \/ tag = "python" \/ tag = "powershell")
    (Htrim : JS.trim b = b)
    (Hfence : JS.includes fence b = false)
    (Hquote : JS.startsWith tripleQuote b && JS.endsWith tripleQuote b = false)
    (Hopen : JS.startsWith "<#" b = false)
    (Hclose : JS.includes "#>" b = false) :
  cleanDocstring (fence ++ tag ++ nl ++ b ++ nl ++ fence) = b.
Proof.
  assert (Hstrip : JS.trim (stripFences (fence ++ tag ++ nl ++ b ++ nl ++ fence))
                   = b).
  { assert (Hbody : stripFencesFrom 0 false (b ++ nl ++ fence) = b ++ nl).
    { rewrite stripFences_prefix by (exact Hfence || reflexivity).
      reflexivity. }
    destruct b as [|c b'] eqn:Eb.
    - destruct Htag as [->|[->| ->]]; reflexivity.
    - pose proof (trimmed_starts_clean c b' Htrim) as Ews.
      rewrite <- Eb in *.
      destruct Htag as [->|[->| ->]]; unfold stripFences.
      + change (stripFencesFrom 0 false (fence ++ "" ++ nl ++ b ++ nl ++ fence))
          with (String JS.LF (stripFencesFrom 0 false (b ++ nl ++ fence))).
        rewrite Hbody. change (String JS.LF (b ++ nl)) with (nl ++ b ++ nl).
        unfold JS.trim. cbn [append nl JS.trimStart].
        change (JS.isWhiteSpace JS.LF) with true. cbv iota.
        now apply trim_line_break.
      + change (stripFencesFrom 0 false
                  (fence ++ "python" ++ nl ++ b ++ nl ++ fence))
          with (stripFencesFrom 0 true (b ++ nl ++ fence)).
        rewrite Eb at 1. cbn [append]. rewrite stripFences_after_tag by exact Ews.
        change (String c (b' ++ nl ++ fence)) with (String c b' ++ nl ++ fence).
        rewrite <- Eb. rewrite Hbody. now apply trim_line_break.
      + change (stripFencesFrom 0 false
                  (fence ++ "powershell" ++ nl ++ b ++ nl ++ fence))
          with (stripFencesFrom 0 true (b ++ nl ++ fence)).
        rewrite Eb at 1. cbn [append]. rewrite stripFences_after_tag by exact Ews.
        change (String c (b' ++ nl ++ fence)) with (String c b' ++ nl ++ fence).
        rewrite <- Eb. rewrite Hbody. now apply trim_line_break. }
  pose proof (cleanDocstring_fixed b Htrim Hfence Hquote Hopen Hclose) as Hfix.
  unfold cleanDocstring in *. rewrite Hstrip.
  rewrite (stripFences_without_fence b Hfence), Htrim in Hfix. exact Hfix.
Qed.

Lemma fenced_answer_example :
  cleanDocstring (fence ++ "python" ++ nl ++ "Summary." ++ nl ++ fence)
  = "Summary.".
Proof.
  apply (fenced_answer_is_unwrapped "python" "Summary."); try reflexivity.
  right. left. reflexivity.
Defined.

End FencedAnswer.

(* ================================================================= *)
(** ** Unwrapping a delimited answer *)

Section DelimitedAnswer.

Local Open Scope string_scope.

Lemma trimEnd_append (x y : string) :
  JS.trimEnd y <> "" -> JS.trimEnd (x ++ y) = x ++ JS.trimEnd y.
Proof.
  intros Hy. induction x as [|c x IH]; [reflexivity|].
  cbn [append JS.trimEnd]. rewrite IH.
  destruct (x ++ JS.trimEnd y) eqn:E.
  - destruct x; cbn in E; [congruence | discriminate].
  - cbn [JS.isEmpty]. now rewrite andb_false_r.
Qed.

Lemma endsWith_append (a p : string) : JS.endsWith p (a ++ p) = true.
Proof.
  unfold JS.endsWith. rewrite length_append.
  replace (String.length a + String.length p - String.length p)
    with (String.length a + 0) by lia.
  rewrite drop_append_plus. cbn [JS.drop]. rewrite String.eqb_refl.
  rewrite andb_true_r. apply Nat.leb_le. lia.
Qed.

(** The triple-quote step takes one enclosing pair away. *)
Lemma stripTripleQuotes_pair (b : string) :
  stripTripleQuotes (tripleQuote ++ b ++ tripleQuote) = JS.trim b.
Proof.
  unfold stripTripleQuotes.
  change (JS.startsWith tripleQuote (tripleQuote ++ b ++ tripleQuote)) with true.
  rewrite <- (append_assoc tripleQuote b tripleQuote) at 1.
  rewrite endsWith_append. cbn [andb]. f_equal.
  rewrite substring_ordered
    by (rewrite !length_append; cbn [String.length tripleQuote]; lia).
  change (JS.drop 3 (tripleQuote ++ b ++ tripleQuote)) with (b ++ tripleQuote).
  rewrite !length_append. cbn [tripleQuote String.length].
  replace (3 + (String.length b + 3) - 3 - 3) with (String.length b + 0) by lia.
  rewrite take_append_plus. cbn [JS.take]. apply append_nil_r.
Qed.

(** The truncation step keeps what precedes the last closing marker. *)
Lemma truncate_at_closing (b r : string) :
  JS.includes "#>" r = false ->
  truncateAtLastClosing (b ++ "#>" ++ r) = JS.trim b.
Proof.
  intros Hr. unfold truncateAtLastClosing.
  assert (Hlast : JS.lastIndexOf "#>" (b ++ "#>" ++ r)
                  = Some (String.length b)).
  { assert (Hcons : forall c s,
               JS.lastIndexOf "#>" (String c s)
               = match JS.lastIndexOf "#>" s with
                 | Some i => Some (S i)
                 | None => if JS.startsWith "#>" (String c s) then Some 0
                           else None
                 end) by reflexivity.
    induction b as [|c b IH].
    - change ("" ++ "#>" ++ r) with (String "#" (String ">" r)).
      rewrite Hcons.
      assert (H1 : JS.lastIndexOf "#>" (String ">" r) = None).
      { apply lastIndexOf_None. cbn [JS.includes]. rewrite Hr. reflexivity. }
      rewrite H1. reflexivity.
    - change (String c b ++ "#>" ++ r) with (String c (b ++ "#>" ++ r)).
      rewrite Hcons, IH. reflexivity. }
  rewrite Hlast. f_equal.
  rewrite substring_ordered by (rewrite ?length_append; lia).
  rewrite Nat.sub_0_r. cbn [JS.drop].
  replace (String.length b) with (String.length b + 0) by lia.
  rewrite take_append_plus. cbn [JS.take]. apply append_nil_r.
Qed.

(** X14. An answer wrapped in one pair of triple quotes is cleaned to what
    is between them, for every trimmed body without fence, without closing
    marker and not beginning with the open marker. *)
Theorem quoted_answer_is_unwrapped (b : string)
    (Htrim : JS.trim b = b)
    (Hfence : JS.includes fence b = false)
    (Hopen : JS.startsWith "<#" b = false)
    (Hclose : JS.includes "#>" b = false) :
  cleanDocstring (tripleQuote ++ b ++ tripleQuote) = b.
Proof.
  assert (Hstrip : stripFences (tripleQuote ++ b ++ tripleQuote)
                   = tripleQuote ++ b ++ tripleQuote).
  { unfold stripFences.
    change (stripFencesFrom 0 false (tripleQuote ++ b ++ tripleQuote))
      with (tripleQuote ++ stripFencesFrom 0 false (b ++ tripleQuote)).
    now rewrite stripFences_prefix. }
  assert (Htr : JS.trim (tripleQuote ++ b ++ tripleQuote)
                = tripleQuote ++ b ++ tripleQuote).
  { unfold JS.trim.
    change (JS.trimStart (tripleQuote ++ b ++ tripleQuote))
      with (tripleQuote ++ b ++ tripleQuote).
    rewrite <- (append_assoc tripleQuote b tripleQuote).
    now rewrite trimEnd_append. }
  unfold cleanDocstring. rewrite Hstrip, Htr, stripTripleQuotes_pair, Htrim.
  unfold stripLeadingMarker. rewrite Hopen.
  unfold truncateAtLastClosing.
  apply lastIndexOf_None in Hclose. now rewrite Hclose.
Qed.

Lemma quoted_answer_example :
  cleanDocstring (tripleQuote ++ "Return x." ++ tripleQuote) = "Return x.".
Proof.
  apply (quoted_answer_is_unwrapped "Return x."); reflexivity.
Defined.

(** X15. An answer made of a comment block, the body on lines of its own
    between the open and the close marker, followed by any text that holds
    neither a fence nor a closing marker, is cleaned to the body: what
    follows the last closing marker is dropped.  The body need only be
    trimmed and free of fences. *)
Theorem comment_block_answer_is_unwrapped (b r : string)
    (Htrim : JS.trim b = b)
    (Hfence : JS.includes fence b = false)
    (Hecho : JS.includes fence r = false)
    (Hclose : JS.includes "#>" r = false) :
  cleanDocstring ("<#" ++ nl ++ b ++ nl ++ "#>" ++ r) = b.
Proof.
  set (text := "<#" ++ nl ++ b ++ nl ++ "#>" ++ r).
  assert (Hstrip : stripFences text = text).
  { unfold stripFences, text.
    change (stripFencesFrom 0 false ("<#" ++ nl ++ b ++ nl ++ "#>" ++ r))
      with ("<#" ++ nl ++ stripFencesFrom 0 false (b ++ nl ++ "#>" ++ r)).
    rewrite stripFences_prefix by (exact Hfence || reflexivity).
    f_equal. f_equal. f_equal. f_equal.
    apply (stripFences_without_fence (nl ++ "#>" ++ r)).
    cbn [append nl JS.includes]. rewrite Hecho. reflexivity. }
  assert (Hr : JS.includes "#>" (JS.trimEnd r) = false)
    by now apply includes_trimEnd.
  assert (Hmark : JS.trimEnd ("#>" ++ r) = "#>" ++ JS.trimEnd r) by reflexivity.
  assert (Hrest : forall x, JS.trimEnd (x ++ "#>" ++ r)
                            = x ++ "#>" ++ JS.trimEnd r).
  { intros x. rewrite trimEnd_append; rewrite Hmark; [reflexivity|discriminate]. }
  assert (Htr : JS.trim text = "<#" ++ nl ++ b ++ nl ++ "#>" ++ JS.trimEnd r).
  { unfold JS.trim, text.
    change (JS.trimStart ("<#" ++ nl ++ b ++ nl ++ "#>" ++ r))
      with ("<#" ++ nl ++ b ++ nl ++ "#>" ++ r).
    replace ("<#" ++ nl ++ b ++ nl ++ "#>" ++ r)
      with (("<#" ++ nl ++ b ++ nl) ++ "#>" ++ r)
      by (now rewrite !append_assoc).
    rewrite Hrest. now rewrite !append_assoc. }
  unfold cleanDocstring. rewrite Hstrip, Htr.
  unfold stripTripleQuotes.
  change (JS.startsWith tripleQuote
            ("<#" ++ nl ++ b ++ nl ++ "#>" ++ JS.trimEnd r)) with false.
  cbn [andb]. unfold stripLeadingMarker.
  change (JS.startsWith "<#" ("<#" ++ nl ++ b ++ nl ++ "#>" ++ JS.trimEnd r))
    with true. cbv iota.
  assert (Hsub : JS.substringFrom 2
                   ("<#" ++ nl ++ b ++ nl ++ "#>" ++ JS.trimEnd r)
                 = nl ++ b ++ nl ++ "#>" ++ JS.trimEnd r).
  { rewrite substringFrom_drop by (cbn [append String.length]; lia).
    reflexivity. }
  rewrite Hsub.
  assert (Htrim2 : exists prefix,
             JS.trim (nl ++ b ++ nl ++ "#>" ++ JS.trimEnd r)
             = prefix ++ "#>" ++ JS.trimEnd r
             /\ JS.trim prefix = b).
  { destruct b as [|c b'] eqn:Eb.
    - exists "". split; [|reflexivity]. unfold JS.trim.
      change (JS.trimStart (nl ++ "" ++ nl ++ "#>" ++ JS.trimEnd r))
        with ("#>" ++ JS.trimEnd r).
      change (JS.trimEnd ("#>" ++ JS.trimEnd r))
        with ("#>" ++ JS.trimEnd (JS.trimEnd r)).
      now rewrite trimEnd_idem.
    - exists (String c b' ++ nl). split.
      + pose proof (trimmed_starts_clean c b' Htrim) as Ews.
        replace (nl ++ String c b' ++ nl ++ "#>" ++ JS.trimEnd r)
          with (nl ++ (String c b' ++ nl) ++ "#>" ++ JS.trimEnd r)
          by (now rewrite !append_assoc).
        unfold JS.trim.
        change (JS.trimStart
                  (nl ++ (String c b' ++ nl) ++ "#>" ++ JS.trimEnd r))
          with (JS.trimStart
                  (String c ((b' ++ nl) ++ "#>" ++ JS.trimEnd r))).
        cbn [JS.trimStart]. rewrite Ews.
        change (String c ((b' ++ nl) ++ "#>" ++ JS.trimEnd r))
          with ((String c b' ++ nl) ++ "#>" ++ JS.trimEnd r).
        rewrite trimEnd_append.
        * change (JS.trimEnd ("#>" ++ JS.trimEnd r))
            with ("#>" ++ JS.trimEnd (JS.trimEnd r)).
          now rewrite trimEnd_idem.
        * discriminate.
      + now apply trim_line_break. }
  destruct Htrim2 as (prefix & -> & Hprefix).
  rewrite truncate_at_closing by exact Hr. exact Hprefix.
Qed.

Lemma comment_block_answer_example :
  cleanDocstring ("<#" ++ nl ++ ".SYNOPSIS" ++ nl ++ "#>" ++ nl
                  ++ "function Get-Foo {}")
  = ".SYNOPSIS".
Proof.
  apply (comment_block_answer_is_unwrapped ".SYNOPSIS"
           (nl ++ "function Get-Foo {}")); reflexivity.
Defined.

End DelimitedAnswer.

(* ================================================================= *)
(** ** The lines the earlier variant adds *)

(** X19. The earlier variant inserts whole lines as well, for a docstring
    without carriage returns and an indentation without line breaks: in
    module mode the lines of the docstring and one empty line, without
    indentation; otherwise the lines of the docstring, each after the
    indentation plus four spaces, blank lines as empty lines, and nothing
    after them.  Before a line of the buffer they leave every line of the
    buffer as it was; past the last line the text is appended to the buffer
    text. *)
Theorem legacy_docstring_lines
    (editor : TextEditor) (docstring : string) (context : CodeContext)
    (Hcr : noCR docstring = true)
    (Hind : noBreak (indentation context) = true)
    (Hlines : lines (document editor) <> []) :
  let doc := document editor in
  let bodyIndent := (indentation context ++ "    ")%string in
  let added :=
    if isModuleLevel context
    then JS.splitLines docstring ++ [EmptyString]
    else map (indentLine bodyIndent EmptyString) (JS.splitLines docstring) in
  exists l,
    Legacy.insertDocstring editor docstring context
    = Ok [Insert (mkPosition l 0) (joinEach nl added)]
    /\ (l < lineCount doc ->
        lines (applyEdits doc [Insert (mkPosition l 0) (joinEach nl added)])
        = firstn l (lines doc) ++ added ++ skipn l (lines doc))
    /\ (lineCount doc <= l ->
        getText (applyEdits doc [Insert (mkPosition l 0) (joinEach nl added)])
        = (getText doc ++ joinEach (eol doc) added)%string).
Proof.
  intros doc bodyIndent added.
  assert (Hbi : noBreak bodyIndent = true).
  { unfold bodyIndent. now rewrite noBreak_append, Hind. }
  assert (Hadded : forallb noBreak added = true).
  { unfold added. destruct (isModuleLevel context).
    - rewrite forallb_app. cbn [forallb]. now rewrite splitLines_noBreak.
    - apply indentLine_noBreak; try assumption; [reflexivity|].
      now apply splitLines_noBreak. }
  assert (Hins : exists l,
             Legacy.insertDocstring editor docstring context
             = Ok [Insert (mkPosition l 0) (joinEach nl added)]).
  { unfold Legacy.insertDocstring. fold doc. unfold added.
    destruct (isModuleLevel context).
    - rewrite lineAt_first by assumption. cbn [bind]. eexists.
      f_equal. f_equal. f_equal.
      rewrite joinEach_app. rewrite joinEach_join by apply splitLines_nonempty.
      rewrite splitLines_join by exact Hcr.
      cbn [joinEach]. rewrite !append_assoc. reflexivity.
    - fold bodyIndent. eexists. f_equal. f_equal. f_equal.
      rewrite joinEach_join
        by (intros H; apply map_eq_nil in H; revert H;
            apply splitLines_nonempty).
      reflexivity. }
  destruct Hins as [l Hins]. exists l. split; [exact Hins|]. split.
  - intros Hl. cbn [applyEdits fold_left]. now apply insert_whole_lines.
  - intros Hl. cbn [applyEdits fold_left]. now apply insert_past_end.
Qed.

Lemma legacy_docstring_lines_example :
  lines (applyEdits functionWithBody
           [Insert (mkPosition 1 0)
              (joinEach nl
                 [("    " ++ tripleQuote ++ "Return x.")%string; EmptyString;
                  ("    " ++ tripleQuote)%string])])
  = ["def f(x):";
     ("    " ++ tripleQuote ++ "Return x.")%string; EmptyString;
     ("    " ++ tripleQuote)%string;
     "    return x"; EmptyString].
Proof.
  destruct (legacy_docstring_lines
              (mkEditor functionWithBody "python" (cursorAt 1 4))
              (tripleQuote ++ "Return x." ++ nl ++ nl ++ tripleQuote)%string
              (mkCodeContext EmptyString false
                 (mkRange (mkPosition 0 0) (mkPosition 3 0)) EmptyString 0)
              eq_refl eq_refl)
    as (l & Hins & Hlines & _).
  - simpl; discriminate.
  - assert (Hl : l = 1).
    { pose proof Hins as Hval. vm_compute in Hval. now inversion Hval. }
    subst l. apply Hlines. apply Nat.ltb_lt. reflexivity.
Defined.
